(** * two1: the mock transaction data provider and the walletd stop helper

    A shallow embedding of
      - [two1/wallet/mock_txn_data_provider.py] ([MockTxnDict] and
        [MockTransactionDataProvider]), and
      - [stop_walletd] of [two1/commands/update.py],
    followed by the properties of the specification that concern them.

    Python integers are [Z]; dictionaries are [gmap]s; lists are [list]s.
    A Python call that may raise is a value of [result]; a method that
    mutates [self] is a function from the object to a [result] paired with
    the object as the call leaves it (an exception does not roll back the
    assignments made before it). *)

From Stdlib Require Import ZArith Lia.
From stdpp Require Import gmap strings list fin_maps.

Local Open Scope Z_scope.

(** ** Python primitives *)

Module Py.

(** The exception classes the two source files raise or catch.
    [OSError] and [DaemonizerError] stand for any instance of the class
    (subclasses included); [OtherError] is an exception outside every
    class named here. *)
Inductive exn : Type :=
| KeyError
| ValueError
| TypeError
| IndexError
| StopIteration
| ZeroDivisionError
| OSError
| DaemonizerError
| OtherError (name : string).

Inductive result (A : Type) : Type :=
| Ok (a : A)
| Raise (e : exn).
Global Arguments Ok {A} a.
Global Arguments Raise {A} e.

Definition bind {A B} (c : result A) (k : A → result B) : result B :=
  match c with
  | Ok a => k a
  | Raise e => Raise e
  end.

(** [d[k]] on a dict: [KeyError] when the key is absent. *)
Definition subscript `{Countable K} {V} (d : gmap K V) (k : K) : result V :=
  match d !! k with
  | Some v => Ok v
  | None => Raise KeyError
  end.

(** [range(n)] and [range(a, b)], as the list of the integers they yield. *)
Definition range2 (a b : Z) : list Z :=
  (λ i : nat, a + Z.of_nat i) <$> seq 0 (Z.to_nat (b - a)).
Definition range (n : Z) : list Z := range2 0 n.

(** A slice bound, clamped into [0, len] the way list slicing does
    (a negative bound counts from the end). *)
Definition clamp (len i : Z) : Z :=
  if i <? 0 then Z.max (i + len) 0 else Z.min i len.

(** [l[s:e]]: never raises. *)
Definition slice {A} (l : list A) (s e : Z) : list A :=
  let len := Z.of_nat (length l) in
  let s' := clamp len s in
  let e' := clamp len e in
  take (Z.to_nat (e' - s')) (drop (Z.to_nat s') l).

(** [l[:e]]. *)
Definition slice_to {A} (l : list A) (e : Z) : list A := slice l 0 e.

(** [math.ceil(a / b)] for integers [a] and [b <> 0]: the ceiling of the
    exact quotient.  Python divides in double precision first; the result
    is the exact ceiling as long as [|a| < 2^53] (see [float_exact]). *)
Definition ceil_div (a b : Z) : Z := - ((- a) / b).

Definition float_exact (a : Z) : bool := (- 2 ^ 53 <? a) && (a <? 2 ^ 53).

End Py.

Notation "x <- c ;; k" := (Py.bind c (λ x, k))
  (at level 100, c at next level, right associativity, only parsing).

(** ** [MockTxnDict] *)

(** [range(a, b)] kept as an object: [MockTxnDict] reads its [start] and
    [stop] attributes. *)
Record PyRange : Type := mkRange { range_start : Z; range_stop : Z }.

Section MockTxnDict.

Context {Address : Type} `{EqDecision Address}.
Context {Value : Type}.

Record MockTxnDict : Type := mkMockTxnDict {
  num_used : Z;
  addr_range : PyRange;
  addr_list : list Address;
  used_value : Value;
  unused_value : Value;
  start : Z;
  end_ : Z
}.

(** [MockTxnDict.__init__] *)
Definition MockTxnDict_init (num_used : Z) (addr_range : PyRange)
    (addr_list : list Address) (used_value unused_value : Value) : MockTxnDict :=
  {| num_used := num_used;
     addr_range := addr_range;
     addr_list := addr_list;
     used_value := used_value;
     unused_value := unused_value;
     start := Z.max 0 (range_start addr_range);
     end_ := Z.min num_used (range_stop addr_range) |}.

(** [MockTxnDict.__contains__] *)
Definition contains (self : MockTxnDict) (item : Address) : bool :=
  if (num_used self =? 0) || (start self >? end_ self) then false
  else bool_decide (item ∈ Py.slice (addr_list self) (start self) (end_ self)).

(** [MockTxnDict.__getitem__] *)
Definition getitem (self : MockTxnDict) (item : Address) : Value :=
  if contains self item then used_value self else unused_value self.

(** The specification's pure usedness function: an index is used when
    there are used addresses at all and the index lies in the probed
    window cut down to the used prefix. *)
Definition is_used (index num_used : Z) (window : PyRange) : bool :=
  (0 <? num_used)
  && (Z.max 0 (range_start window) <=? index)
  && (index <? Z.min num_used (range_stop window)).

End MockTxnDict.

Global Arguments MockTxnDict : clear implicits.

(** ** External collaborators of the provider

    [two1.bitcoin.crypto], [two1.bitcoin.txn], [two1.wallet.account_types]
    and [two1.wallet.hd_account] are imported by the provider and defined
    elsewhere in the package: they are an interface here. *)

Class Bitcoin : Type := {
  HDKey : Type;
  PublicKey : Type;
  Address : Type;
  Address_eq_dec :: EqDecision Address;
  Address_countable :: Countable Address;
  (** [HDKey.from_path(master, path)]: the keys along the path, root first. *)
  Path : Type;
  HDKey_from_path : HDKey → Path → list HDKey;
  (** [HDPrivateKey.from_parent(key, index)] *)
  HDPrivateKey_from_parent : HDKey → Z → HDKey;
  (** [key.public_key] *)
  public_key : HDKey → PublicKey;
  (** [HDPublicKey.from_parent(pub, index)] *)
  HDPublicKey_from_parent : PublicKey → Z → PublicKey;
  (** [pub.address()] *)
  address : PublicKey → Address;
  (** [AccountType] objects and the [account_types] table. *)
  AccountType : Type;
  account_derivation_prefix : AccountType → Path;
  account_types : gmap string AccountType;
  (** [HDAccount.DISCOVERY_INCREMENT] and [HDAccount.GAP_LIMIT] *)
  DISCOVERY_INCREMENT : Z;
  GAP_LIMIT : Z
}.

(** [Transaction(version, inputs, outputs, lock_time)]; the provider only
    ever builds the dummy transaction, whose input and output lists are
    empty, so their elements are left as indices. *)
Record Transaction : Type := mkTransaction {
  version : Z;
  inputs : list Z;
  outputs : list Z;
  lock_time : Z
}.

(** ** [unittest.mock.MagicMock], as far as the provider configures it

    A mock called with [side_effect] set to a list hands out the items in
    order, one per call, and raises [StopIteration] once they are used up;
    otherwise it returns [return_value], which is a fresh mock unless it
    was given. *)

Inductive MockReturn (A : Type) : Type :=
| DefaultMock
| Returned (a : A).
Global Arguments DefaultMock {A}.
Global Arguments Returned {A} a.

Record MagicMock (A : Type) : Type := mkMagicMock {
  return_value : option A;
  side_effect : option (list A)
}.
Global Arguments mkMagicMock {A} _ _.
Global Arguments return_value {A} _.
Global Arguments side_effect {A} _.

Definition MagicMock_new {A} : MagicMock A :=
  {| return_value := None; side_effect := None |}.

Definition MagicMock_call {A} (m : MagicMock A)
    : Py.result (MockReturn A) * MagicMock A :=
  match side_effect m with
  | Some [] => (Py.Raise Py.StopIteration, m)
  | Some (x :: rest) =>
      (Py.Ok (Returned x),
       {| return_value := return_value m; side_effect := Some rest |})
  | None =>
      (Py.Ok match return_value m with
             | Some v => Returned v
             | None => DefaultMock
             end, m)
  end.

(** ** [MockTransactionDataProvider] *)

Section Provider.

Context `{Bitcoin}.

(** One entry of [self._acct_keys]. *)
Record AcctKeys : Type := mkAcctKeys {
  acct_key : HDKey;
  payout_key : HDKey;
  change_key : HDKey;
  payout_addresses : list Address;
  change_addresses : list Address
}.

Abbreviation TxnDict := (MockTxnDict Address (list Transaction)).
Abbreviation Balances := (gmap Address (Z * Z)).

(** The attributes of a provider object.  Of the seven mocked methods
    only [get_balance_hd] and [get_transactions] are ever configured;
    the other five stay plain [MagicMock()]s and are not represented.
    [self_addr_list] is [self.addr_list]. *)
Record MockTransactionDataProvider : Type := mkProvider {
  account_type : AccountType;
  _num_used_addresses : gmap Z (gmap Z Z);
  _num_used_accounts : Z;
  self_addr_list : list Address;
  _hd_master_key : HDKey;
  _acct_keys : gmap Z AcctKeys;
  get_balance_hd : MagicMock Balances;
  get_transactions : MagicMock TxnDict
}.

Abbreviation Provider := MockTransactionDataProvider.

(** Class attributes. *)
Definition address_increment : Z := DISCOVERY_INCREMENT.
Definition max_address : Z := 8 * address_increment.
Definition max_accounts : Z := 10.

(** *** Attribute assignment *)

Definition set__num_used_addresses (v : gmap Z (gmap Z Z)) (self : Provider) : Provider :=
  mkProvider (account_type self) v (_num_used_accounts self) (self_addr_list self)
    (_hd_master_key self) (_acct_keys self) (get_balance_hd self) (get_transactions self).

Definition set__num_used_accounts (v : Z) (self : Provider) : Provider :=
  mkProvider (account_type self) (_num_used_addresses self) v (self_addr_list self)
    (_hd_master_key self) (_acct_keys self) (get_balance_hd self) (get_transactions self).

Definition set_self_addr_list (v : list Address) (self : Provider) : Provider :=
  mkProvider (account_type self) (_num_used_addresses self) (_num_used_accounts self)
    v (_hd_master_key self) (_acct_keys self) (get_balance_hd self) (get_transactions self).

Definition set__hd_master_key (v : HDKey) (self : Provider) : Provider :=
  mkProvider (account_type self) (_num_used_addresses self) (_num_used_accounts self)
    (self_addr_list self) v (_acct_keys self) (get_balance_hd self) (get_transactions self).

Definition set__acct_keys (v : gmap Z AcctKeys) (self : Provider) : Provider :=
  mkProvider (account_type self) (_num_used_addresses self) (_num_used_accounts self)
    (self_addr_list self) (_hd_master_key self) v (get_balance_hd self) (get_transactions self).

Definition set_get_balance_hd (v : MagicMock Balances) (self : Provider) : Provider :=
  mkProvider (account_type self) (_num_used_addresses self) (_num_used_accounts self)
    (self_addr_list self) (_hd_master_key self) (_acct_keys self) v (get_transactions self).

Definition set_get_transactions (v : MagicMock TxnDict) (self : Provider) : Provider :=
  mkProvider (account_type self) (_num_used_addresses self) (_num_used_accounts self)
    (self_addr_list self) (_hd_master_key self) (_acct_keys self) (get_balance_hd self) v.

(** *** Methods as state transformers

    A method is a function of [self] returning its outcome and [self] as
    the call leaves it. *)

Definition M (A : Type) : Type := Provider → Py.result A * Provider.

Definition ret {A} (a : A) : M A := λ self, (Py.Ok a, self).

Definition bindM {A B} (c : M A) (k : A → M B) : M B :=
  λ self, match c self with
          | (Py.Ok a, self') => k a self'
          | (Py.Raise e, self') => (Py.Raise e, self')
          end.

Definition get_self : M Provider := λ self, (Py.Ok self, self).
Definition modify (f : Provider → Provider) : M unit := λ self, (Py.Ok tt, f self).
Definition lift {A} (r : Py.result A) : M A := λ self, (r, self).

Notation "x <~ c ;; k" := (bindM c (λ x, k))
  (at level 100, c at next level, right associativity, only parsing).
Notation "c ;;; k" := (bindM c (λ _, k))
  (at level 100, right associativity, only parsing).

(** [for x in l: body(x)] where the body may assign to [self]. *)
Fixpoint for_ {X} (l : list X) (body : X → M unit) : M unit :=
  match l with
  | [] => ret tt
  | x :: l' => body x ;;; for_ l' body
  end.

(** [for x in l: body(x)] where the body updates a local variable and may
    raise, but does not assign to [self]. *)
Fixpoint for_local {X S} (l : list X) (body : X → S → Py.result S) (s : S)
    : Py.result S :=
  match l with
  | [] => Py.Ok s
  | x :: l' => s' <- body x s ;; for_local l' body s'
  end.

(** [d.update({a: v for a in l})] *)
Definition update_const (d : Balances) (l : list Address) (v : Z * Z) : Balances :=
  foldl (λ d a, <[a := v]> d) d l.

(** [self._num_used_addresses[i][c] = n]: the inner dict is fetched
    ([KeyError] when account [i] has none) and updated in place. *)
Definition num_used_addresses_setitem (i c n : Z) : M unit :=
  self <~ get_self ;;
  inner <~ lift (Py.subscript (_num_used_addresses self) i) ;;
  modify (set__num_used_addresses (<[i := <[c := n]> inner]> (_num_used_addresses self))).

(** [self._num_used_addresses[i][c]] *)
Definition num_used_addresses_getitem (self : Provider) (i c : Z) : Py.result Z :=
  inner <- Py.subscript (_num_used_addresses self) i ;;
  Py.subscript inner c.

(** [_setup_balances_hd]: the dict built by the loop ... *)
Definition balances_hd (self : Provider) : Py.result Balances :=
  for_local (Py.range (_num_used_accounts self))
    (λ i d,
       keys <- Py.subscript (_acct_keys self) i ;;
       n0 <- num_used_addresses_getitem self i 0 ;;
       let payout_addresses := Py.slice_to (payout_addresses keys) n0 in
       keys <- Py.subscript (_acct_keys self) i ;;
       n1 <- num_used_addresses_getitem self i 1 ;;
       let change_addresses := Py.slice_to (change_addresses keys) n1 in
       let d := update_const d change_addresses (0, 10000) in
       let d := update_const d payout_addresses (100000, 0) in
       Py.Ok d)
    ∅.

(** ... and its installation as the return value of [get_balance_hd]. *)
Definition _setup_balances_hd : M unit :=
  self <~ get_self ;;
  d <~ lift (balances_hd self) ;;
  modify (set_get_balance_hd {| return_value := Some d; side_effect := None |}).

(** The body of the account loop of the [hd_master_key] setter: the keys
    and address tables of account [i] below the account-type key. *)
Definition derive_acct_keys (parent : HDKey) (i : Z) : AcctKeys :=
  let acct_key := HDPrivateKey_from_parent parent (Z.lor 0x80000000 i) in
  let payout_key := HDPrivateKey_from_parent acct_key 0 in
  let change_key := HDPrivateKey_from_parent acct_key 1 in
  let payout_addresses :=
    (λ i, address (HDPublicKey_from_parent (public_key payout_key) i))
      <$> Py.range max_address in
  let change_addresses :=
    (λ i, address (HDPublicKey_from_parent (public_key change_key) i))
      <$> Py.range max_address in
  {| acct_key := acct_key;
     payout_key := payout_key;
     change_key := change_key;
     payout_addresses := payout_addresses;
     change_addresses := change_addresses |}.

(** [keys[-1]] *)
Definition last_item {A} (keys : list A) : Py.result A :=
  match last keys with
  | Some k => Py.Ok k
  | None => Py.Raise Py.IndexError
  end.

(** One pass of the account loop of the setter: [keys[-1]] is the parent,
    the entry of account [i] is stored and both counters are zeroed. *)
Definition hd_master_key_account (keys : list HDKey) (i : Z) : M unit :=
  parent <~ lift (last_item keys) ;;
  let entry := derive_acct_keys parent i in
  modify (λ self, set__acct_keys (<[i := entry]> (_acct_keys self)) self) ;;;
  num_used_addresses_setitem i 0 0 ;;;
  num_used_addresses_setitem i 1 0.

(** The [hd_master_key] setter. *)
Definition hd_master_key_setter (k : HDKey) : M unit :=
  modify (set__hd_master_key k) ;;;
  modify (set__acct_keys ∅) ;;;
  self <~ get_self ;;
  let keys := HDKey_from_path k (account_derivation_prefix (account_type self)) in
  for_ (Py.range max_accounts) (hd_master_key_account keys) ;;;
  _setup_balances_hd.

(** [set_num_used_addresses] *)
Definition set_num_used_addresses (account_index n change : Z) : M unit :=
  num_used_addresses_setitem account_index change n ;;;
  _setup_balances_hd.

(** [set_num_used_accounts] *)
Definition set_num_used_accounts (n : Z) : M unit :=
  modify (set__num_used_accounts n) ;;;
  _setup_balances_hd.

(** [dummy_txn = Transaction(1, [], [], 0)] *)
Definition dummy_txn : Transaction :=
  {| version := 1; inputs := []; outputs := []; lock_time := 0 |}.

(** [math.ceil(a / b)] with the [ZeroDivisionError] of the division. *)
Definition ceil_true_div (a b : Z) : Py.result Z :=
  if b =? 0 then Py.Raise Py.ZeroDivisionError else Py.Ok (Py.ceil_div a b).

(** ['change_addresses' if change else 'payout_addresses'] *)
Definition chain_addresses (keys : AcctKeys) (change : Z) : list Address :=
  if change =? 0 then payout_addresses keys else change_addresses keys.

(** [set_txn_side_effect_for_index] *)
Definition set_txn_side_effect_for_index (account_index address_index change : Z)
    : M unit :=
  self <~ get_self ;;
  keys <~ lift (Py.subscript (_acct_keys self) account_index) ;;
  let addr_list := chain_addresses keys change in
  modify (set_get_transactions
    {| return_value := return_value (get_transactions self);
       side_effect :=
         Some [MockTxnDict_init (address_index + 1)
                 (mkRange address_index (address_index + 1))
                 addr_list [dummy_txn] []] |}).

(** The response appended by one pass of the innermost loop of
    [set_txn_side_effect_for_hd_discovery]. *)
Definition discovery_response (num_used : Z) (addr_list : list Address) (i : Z)
    : TxnDict :=
  MockTxnDict_init num_used
    (mkRange (i * address_increment) ((i + 1) * address_increment))
    addr_list [dummy_txn] [].

(** The body of [for change in [0, 1]]: the responses of one chain are
    appended to [effects]. *)
Definition discovery_chain (self : Provider) (acct_num change : Z)
    (effects : list TxnDict) : Py.result (list TxnDict) :=
  num_used <- num_used_addresses_getitem self acct_num change ;;
  r <- ceil_true_div (num_used + GAP_LIMIT) address_increment ;;
  keys <- Py.subscript (_acct_keys self) acct_num ;;
  let addr_list := chain_addresses keys change in
  let r := if r =? 0 then 1 else r in
  for_local (Py.range r)
    (λ i effects, Py.Ok (effects ++ [discovery_response num_used addr_list i]))
    effects.

(** The list [effects] built by [set_txn_side_effect_for_hd_discovery]. *)
Definition discovery_effects (self : Provider) : Py.result (list TxnDict) :=
  let n := _num_used_accounts self in
  let n := if n =? 0 then 1 else n in
  for_local (Py.range n)
    (λ acct_num effects,
       for_local [0; 1] (λ change effects, discovery_chain self acct_num change effects)
         effects)
    [].

(** [set_txn_side_effect_for_hd_discovery]: the list becomes the
    [side_effect] of [get_transactions] and its length is returned. *)
Definition set_txn_side_effect_for_hd_discovery : M Z :=
  self <~ get_self ;;
  effects <~ lift (discovery_effects self) ;;
  modify (set_get_transactions
    {| return_value := return_value (get_transactions self);
       side_effect := Some effects |}) ;;;
  ret (Z.of_nat (length effects)).

(** A call [self.get_transactions(addresses)]: the mock ignores its
    argument. *)
Definition call_get_transactions : M (MockReturn TxnDict) :=
  λ self,
    let '(r, m) := MagicMock_call (get_transactions self) in
    (r, set_get_transactions m self).

(** A call [self.get_balance_hd(account_range)]. *)
Definition call_get_balance_hd : M (MockReturn Balances) :=
  λ self,
    let '(r, m) := MagicMock_call (get_balance_hd self) in
    (r, set_get_balance_hd m self).

(** [n] calls of [get_transactions] in a row, with what each returned;
    the calls stop at the first one that raises. *)
Fixpoint call_get_transactions_times (n : nat) : M (list (MockReturn TxnDict)) :=
  match n with
  | O => ret []
  | S n' =>
      x <~ call_get_transactions ;;
      xs <~ call_get_transactions_times n' ;;
      ret (x :: xs)
  end.

(** What the constructor may be handed as [hd_account_type]: a [str], an
    [AccountType] object, or an object of any other class. *)
Inductive PyObject : Type :=
| PyStr (s : string)
| PyAccountType (t : AccountType)
| PyOther.

(** The validation that opens [__init__]. *)
Definition resolve_account_type (hd_account_type : PyObject) : Py.result AccountType :=
  match hd_account_type with
  | PyStr s =>
      match account_types !! s with
      | None => Py.Raise Py.ValueError
      | Some t => Py.Ok t
      end
  | PyAccountType t => Py.Ok t
  | PyOther => Py.Raise Py.TypeError
  end.

(** [self._num_used_addresses[i] = {0: 0, 1: 0}] *)
Definition init_account (i : Z) : M unit :=
  modify (λ self,
    set__num_used_addresses
      (<[i := {[ 0 := 0; 1 := 0 ]}]> (_num_used_addresses self)) self).

(** [MockTransactionDataProvider.__init__].  The attributes that the body
    assigns before it first reads them ([_hd_master_key], [_acct_keys], the
    mocks) start from placeholders; an exception discards the object. *)
Definition init (hd_account_type : PyObject) (hd_master_key : HDKey)
    (non_hd_addr_list : list Address) : Py.result Provider :=
  account_type <- resolve_account_type hd_account_type ;;
  let self :=
    {| account_type := account_type;
       _num_used_addresses := ∅;
       _num_used_accounts := 0;
       self_addr_list := [];
       _hd_master_key := hd_master_key;
       _acct_keys := ∅;
       get_balance_hd := MagicMock_new;
       get_transactions := MagicMock_new |} in
  let body : M unit :=
    for_ (Py.range max_accounts) init_account ;;;
    modify (set_self_addr_list non_hd_addr_list) ;;;
    hd_master_key_setter hd_master_key ;;;
    modify (set_get_balance_hd MagicMock_new) ;;;
    modify (set_get_transactions MagicMock_new) ;;;
    _setup_balances_hd in
  match body self with
  | (Py.Ok _, self') => Py.Ok self'
  | (Py.Raise e, _) => Py.Raise e
  end.

(** *** Configurations, and what the properties speak of *)

(** The counts a chain may carry: non-negative, and small enough for the
    floating-point quotient of [set_txn_side_effect_for_hd_discovery] to be
    exact. *)
Definition valid_count (n : Z) : bool :=
  (0 <=? n) && Py.float_exact (n + GAP_LIMIT).

(** Account [i] has its usage counters (both chains) and its key entry. *)
Definition valid_account (self : Provider) (i : Z) : bool :=
  match _num_used_addresses self !! i, _acct_keys self !! i with
  | Some inner, Some _ =>
      match inner !! 0, inner !! 1 with
      | Some n0, Some n1 => valid_count n0 && valid_count n1
      | _, _ => false
      end
  | _, _ => false
  end.

(** The constants of [HDAccount] are a positive batch size and a
    non-negative gap limit. *)
Definition valid_constants : bool :=
  (0 <? DISCOVERY_INCREMENT) && (0 <=? GAP_LIMIT) && Py.float_exact GAP_LIMIT.

(** The configurations the provider's own methods produce when they are
    given counts: every account below [max_accounts] is present, and the
    number of used accounts lies between 0 and [max_accounts]. *)
Definition valid_config (self : Provider) : bool :=
  valid_constants
  && (0 <=? _num_used_accounts self)
  && (_num_used_accounts self <=? max_accounts)
  && forallb (valid_account self) (Py.range max_accounts).

(** The responses queued for one chain: what the body of
    [for change in [0, 1]] appends, started from the empty list. *)
Definition scripted_for (self : Provider) (acct_num change : Z) : list TxnDict :=
  match discovery_chain self acct_num change [] with
  | Py.Ok l => l
  | Py.Raise _ => []
  end.

(** The accounts the discovery script covers. *)
Definition scripted_accounts (self : Provider) : Z :=
  Z.max 1 (_num_used_accounts self).

(** Every response the discovery script builds answers with the dummy
    transaction for a used address and with the empty list otherwise. *)
Definition scripted_values (d : MockTxnDict Address (list Transaction)) : Prop :=
  used_value d = [dummy_txn] ∧ unused_value d = [].

(** The responses [get_transactions] holds once the discovery script is
    installed. *)
Definition discovery_queue (self : MockTransactionDataProvider)
    : list (MockTxnDict Address (list Transaction)) :=
  default [] (side_effect (get_transactions
                             (set_txn_side_effect_for_hd_discovery self).2)).

(** The first [num_used_addresses[i][change]] addresses of a chain of
    account [i]: the addresses known used. *)
Definition first_used (self : MockTransactionDataProvider) (i change : Z)
    : list Address :=
  match _acct_keys self !! i,
        _num_used_addresses self !! i ≫= (λ inner, inner !! change) with
  | Some keys, Some n => take (Z.to_nat n) (chain_addresses keys change)
  | _, _ => []
  end.

(** No address is at once a used payout address and a used change address
    of the used accounts (address derivation does not collide). *)
Definition chains_disjoint (self : MockTransactionDataProvider) : bool :=
  forallb (λ i,
    forallb (λ j,
      forallb (λ a, bool_decide (a ∉ first_used self j 1)) (first_used self i 0))
      (Py.range (_num_used_accounts self)))
    (Py.range (_num_used_accounts self)).

(** What one pass of the loop of [_setup_balances_hd] does to [d]. *)
Definition balances_step (self : MockTransactionDataProvider)
    (d : gmap Address (Z * Z)) (i : Z) : gmap Address (Z * Z) :=
  update_const (update_const d (first_used self i 1) (0, 10000))
    (first_used self i 0) (100000, 0).

(** Every account below [max_accounts] has a dict of counters, as
    [__init__] leaves it. *)
Definition has_accounts (self : MockTransactionDataProvider) : bool :=
  forallb (λ i, bool_decide (is_Some (_num_used_addresses self !! i)))
    (Py.range max_accounts).

(** Both counters of an account are zero. *)
Definition zeroed (inner : gmap Z Z) : Prop :=
  inner !! 0 = Some 0 ∧ inner !! 1 = Some 0.

(** What holds of [self] after the accounts in [visited] went through the
    loop of the setter started on [self0]. *)
Definition setter_inv (self0 : MockTransactionDataProvider) (k parent : HDKey)
    (visited : list Z) (s : MockTransactionDataProvider) : Prop :=
  account_type s = account_type self0
  ∧ _hd_master_key s = k
  ∧ _num_used_accounts s = _num_used_accounts self0
  ∧ self_addr_list s = self_addr_list self0
  ∧ get_transactions s = get_transactions self0
  ∧ (∀ i, 0 ≤ i < max_accounts → is_Some (_num_used_addresses s !! i))
  ∧ (∀ i, i ∈ visited →
       _acct_keys s !! i = Some (derive_acct_keys parent i)
       ∧ ∃ inner, _num_used_addresses s !! i = Some inner ∧ zeroed inner).

(** The states of a provider: the constructor's result, then any sequence
    of calls that return, the counts handed to the two count setters being
    counts (non-negative, below [max_accounts] for accounts). *)
Inductive reachable : MockTransactionDataProvider → Prop :=
| reachable_init hd_account_type k non_hd_addr_list self :
    init hd_account_type k non_hd_addr_list = Py.Ok self →
    reachable self
| reachable_set_num_used_accounts self n self' :
    reachable self → 0 ≤ n ≤ max_accounts →
    set_num_used_accounts n self = (Py.Ok tt, self') →
    reachable self'
| reachable_set_num_used_addresses self account_index n change self' :
    reachable self →
    0 ≤ account_index < max_accounts → change = 0 ∨ change = 1 →
    valid_count n = true →
    set_num_used_addresses account_index n change self = (Py.Ok tt, self') →
    reachable self'
| reachable_hd_master_key self k self' :
    reachable self →
    hd_master_key_setter k self = (Py.Ok tt, self') →
    reachable self'
| reachable_txn_side_effect_for_hd_discovery self r self' :
    reachable self →
    set_txn_side_effect_for_hd_discovery self = (r, self') →
    reachable self'
| reachable_txn_side_effect_for_index self account_index address_index change r self' :
    reachable self →
    set_txn_side_effect_for_index account_index address_index change self = (r, self') →
    reachable self'
| reachable_get_transactions self r self' :
    reachable self →
    call_get_transactions self = (r, self') →
    reachable self'.

(** The address table of a chain of an account. *)
Definition chain_table (self : MockTransactionDataProvider) (acct_num change : Z)
    : list Address :=
  match _acct_keys self !! acct_num with
  | Some keys => chain_addresses keys change
  | None => []
  end.

(** The address a wallet derives at [index] on a chain of an account: the
    expression the [hd_master_key] setter evaluates for each table entry. *)
Definition chain_address (keys : AcctKeys) (change index : Z) : Address :=
  address (HDPublicKey_from_parent
             (public_key (if change =? 0 then payout_key keys else change_key keys))
             index).

(** A non-empty transaction sequence is the evidence of use. *)
Definition has_transactions (txns : list Transaction) : bool :=
  match txns with
  | [] => false
  | _ :: _ => true
  end.

(** Modelled from the spec: the per-chain scan of the DiscoveryScanner
    (section 4.3, steps 1 to 5); the scanner itself ([HDAccount]) is
    defined elsewhere in the package.  Each batch takes the next response of the
    provider, here the head of the queue of the scripted fake, and the scan
    fails with [StopIteration] when the queue is used up before the gap
    limit is reached.  The result is the highest used index, the number of
    batches issued and the responses left in the queue. *)
Fixpoint scan_chain (derive : Z → Address)
    (responses : list (MockTxnDict Address (list Transaction)))
    (probe_index highest_used_index : Z)
    : Py.result (Z * nat * list (MockTxnDict Address (list Transaction))) :=
  match responses with
  | [] => Py.Raise Py.StopIteration
  | d :: rest =>
      let batch := Py.range2 probe_index (probe_index + DISCOVERY_INCREMENT) in
      let used := List.filter (λ i, has_transactions (getitem d (derive i))) batch in
      let highest_used_index := foldl Z.max highest_used_index used in
      let unused_run := probe_index + DISCOVERY_INCREMENT - 1 - highest_used_index in
      if GAP_LIMIT <=? unused_run then Py.Ok (highest_used_index, 1%nat, rest)
      else
        match scan_chain derive rest (probe_index + DISCOVERY_INCREMENT)
                highest_used_index with
        | Py.Ok (h, batches, rest') => Py.Ok (h, S batches, rest')
        | Py.Raise e => Py.Raise e
        end
  end.

(** Modelled from the spec: the scan of one account, payout chain first,
    then change chain, both from [probe_index = 0] and
    [highest_used_index = -1]. *)
Definition scan_account (self : MockTransactionDataProvider) (acct_num : Z)
    (responses : list (MockTxnDict Address (list Transaction)))
    : Py.result ((Z * nat) * (Z * nat) * list (MockTxnDict Address (list Transaction))) :=
  keys <- Py.subscript (_acct_keys self) acct_num ;;
  payout <- scan_chain (chain_address keys 0) responses 0 (-1) ;;
  change <- scan_chain (chain_address keys 1) payout.2 0 (-1) ;;
  Py.Ok (payout.1, change.1, change.2).

(** The provider a call leaves behind. *)
Definition after {A} (call : M A) (self : MockTransactionDataProvider)
    : MockTransactionDataProvider :=
  (call self).2.

End Provider.

(** ** [stop_walletd] of [two1/commands/update.py]

    [two1.wallet.daemonizer] is defined elsewhere in the package: what its
    three calls do (return, or raise) is the environment of the function.
    [D] is the class of the daemonizer handle; [stop] reports the truth
    value of what [d.stop()] returned. *)

Record Daemonizer (D : Type) : Type := mkDaemonizer {
  get_daemonizer : Py.result D;
  started : D → Py.result bool;
  stop : D → Py.result bool
}.
Global Arguments mkDaemonizer {D} _ _ _.
Global Arguments get_daemonizer {D} _.
Global Arguments started {D} _ _.
Global Arguments stop {D} _ _.

Section StopWalletd.

Context {D : Type} (daemonizer : Daemonizer D).

(** The [try] suite, from [failed = False] to the value of [failed] it
    leaves. *)
Definition stop_walletd_try (failed : bool) : Py.result bool :=
  d <- get_daemonizer daemonizer ;;
  is_started <- started daemonizer d ;;
  if is_started then
    stopped <- stop daemonizer d ;;
    if negb stopped then Py.Ok true else Py.Ok failed
  else Py.Ok failed.

(** [stop_walletd]: [except OSError: pass], [except DaemonizerError:
    failed = True], anything else propagates; then [return not failed]. *)
Definition stop_walletd : Py.result bool :=
  let failed := false in
  match stop_walletd_try failed with
  | Py.Ok failed => Py.Ok (negb failed)
  | Py.Raise Py.OSError => Py.Ok (negb failed)
  | Py.Raise Py.DaemonizerError => Py.Ok (negb true)
  | Py.Raise e => Py.Raise e
  end.

(** One of the calls the [try] suite makes raised [e]. *)
Definition daemonizer_raised (e : Py.exn) : Prop :=
  get_daemonizer daemonizer = Py.Raise e
  ∨ ∃ d, get_daemonizer daemonizer = Py.Ok d
      ∧ (started daemonizer d = Py.Raise e
         ∨ (started daemonizer d = Py.Ok true ∧ stop daemonizer d = Py.Raise e)).

(** The daemon was running and [d.stop()] reported failure. *)
Definition stop_reported_failure : Prop :=
  ∃ d, get_daemonizer daemonizer = Py.Ok d
    ∧ started daemonizer d = Py.Ok true ∧ stop daemonizer d = Py.Ok false.

(** The daemon was not running, or was stopped. *)
Definition nothing_failed : Prop :=
  ∃ d, get_daemonizer daemonizer = Py.Ok d
    ∧ (started daemonizer d = Py.Ok false
       ∨ (started daemonizer d = Py.Ok true ∧ stop daemonizer d = Py.Ok true)).

End StopWalletd.

(** ** The rest of [two1/commands/update.py]

    The update flow talks to the configuration, the package index, the
    clock, the file system and the installers.  What these do is given by
    an [Environment]; what the flow asks of them is recorded, in order, in a
    trace of [event]s.  [logger.info] and [config.set] are taken to return;
    every other call of the outside world may raise.  The [click] command
    [update] only hands its argument to [_update], through decorators defined
    elsewhere, and is not represented. *)

Module Update.

(** A Python [str] is the list of its code points. *)
Definition of_string (s : string) : list N :=
  Ascii.N_of_ascii <$> String.list_ascii_of_string s.

(** A value decoded from JSON.  A [dict] lists its items in order, each key
    once; a [float] is kept as its IEEE 754 bits. *)
#[local] Unset Elimination Schemes.
Inductive Json : Type :=
| JNull
| JBool (b : bool)
| JInt (n : Z)
| JFloat (bits : Z)
| JStr (s : list N)
| JList (l : list Json)
| JDict (items : list (list N * Json)).
#[local] Set Elimination Schemes.

(** The messages of [uxstring.UxString], with the arguments they are
    formatted with. *)
Inductive message : Type :=
| update_check
| update_package (latest_version : Json)
| update_not_needed
| update_superuser
| Error_version_not_detected
| Error_update_server_connection
| Error_version_not_found (version : list N)
| Error_update_failed.

(** The exceptions of the update flow.  [OSError] stands for its subclasses
    too ([FileNotFoundError]), the two [requests] exceptions, which derive
    from it as well, apart;
    [Other name is_exception] is an exception of another class, which
    derives from [Exception] or, like [KeyboardInterrupt], does not. *)
Inductive exn : Type :=
| Two1Error (msg : message)
| AttributeError
| KeyError
| TypeError
| ValueError
| UnboundLocalError
| RequestsTimeout
| RequestsConnectionError
| CalledProcessError
| OSError
| Other (name : string) (is_exception : bool).

(** [isinstance(e, Exception)] *)
Definition is_Exception (e : exn) : bool :=
  match e with
  | Other _ is_exception => is_exception
  | _ => true
  end.

(** An exception that escapes [stop_walletd], which lets through neither
    [OSError] nor [DaemonizerError]. *)
Definition of_stop_walletd (e : Py.exn) : exn :=
  match e with
  | Py.KeyError => KeyError
  | Py.ValueError => ValueError
  | Py.TypeError => TypeError
  | Py.IndexError => Other "IndexError" true
  | Py.StopIteration => Other "StopIteration" true
  | Py.ZeroDivisionError => Other "ZeroDivisionError" true
  | Py.OSError => OSError
  | Py.DaemonizerError => Other "DaemonizerError" true
  | Py.OtherError name =>
      Other name (negb (bool_decide (name ∈ ["KeyboardInterrupt"; "SystemExit";
                                             "GeneratorExit"])))
  end.

Inductive result (A : Type) : Type :=
| Ok (a : A)
| Raise (e : exn).
Global Arguments Ok {A} a.
Global Arguments Raise {A} e.

Definition bind {A B} (c : result A) (k : A → result B) : result B :=
  match c with
  | Ok a => k a
  | Raise e => Raise e
  end.

(** What the flow asks of the outside world. *)
Inductive event : Type :=
| LoggerInfo (msg : message)
| ConfigSet (key : string) (value : list N) (should_save : bool)
| RequestsGet (url : list N)
| StopWalletd
| CheckCall (command : list (list N)).

(** The value of [config.last_update_check] when the attribute exists. *)
Inductive ConfigValue : Type :=
| ConfigStr (s : list N)
| ConfigNotStr.

Class Environment : Type := {
  (** The decimal digits of Unicode beyond ASCII (category [Nd]). *)
  unicode_Nd : N → bool;
  (** [two1.TWO1_PYPI_HOST], [two1.TWO1_PACKAGE_NAME], [two1.TWO1_VERSION] *)
  TWO1_PYPI_HOST : list N;
  TWO1_PACKAGE_NAME : list N;
  TWO1_VERSION : list N;
  (** [config.last_update_check] *)
  config_last_update_check : result ConfigValue;
  (** [datetime.strptime(s, "%Y-%m-%d").date()], [date.today()] and
      [d.strftime("%Y-%m-%d")]; a date is its ordinal. *)
  strptime : list N → result Z;
  today : Z;
  strftime : Z → list N;
  (** [urljoin], [requests.get] and [r.json()] *)
  urljoin : list N → list N → list N;
  Response : Type;
  requests_get : list N → result Response;
  response_json : Response → result Json;
  (** [str(v)] for a value that is not a [str] *)
  str_of : Json → list N;
  (** [LooseVersion(latest) > LooseVersion(installed)] *)
  LooseVersion_gt : Json → list N → result bool;
  (** [os.path.isdir], [hasattr(sys, "real_prefix")],
      [subprocess.check_call] *)
  isdir : list N → bool;
  has_real_prefix : bool;
  check_call : list (list N) → result unit;
  (** [two1.wallet.daemonizer] *)
  DaemonHandle : Type;
  daemonizer : Daemonizer DaemonHandle
}.

Section Flow.

Context `{Environment}.

(** *** Values *)

(** [bool(v)] *)
Definition truthy (v : Json) : bool :=
  match v with
  | JNull => false
  | JBool b => b
  | JInt n => negb (n =? 0)
  | JFloat bits => negb (bits mod 2 ^ 63 =? 0)
  | JStr s => negb (bool_decide (s = []))
  | JList l => negb (bool_decide (l = []))
  | JDict items => match items with [] => false | _ :: _ => true end
  end.

(** [d[key]] on the items of a dict *)
Fixpoint dict_get (items : list (list N * Json)) (key : list N) : option Json :=
  match items with
  | [] => None
  | (k, v) :: items' => if bool_decide (k = key) then Some v else dict_get items' key
  end.

(** [v[key]] for a [str] key: only a dict can be subscripted by a [str]. *)
Definition subscript (v : Json) (key : list N) : result Json :=
  match v with
  | JDict items =>
      match dict_get items key with
      | Some x => Ok x
      | None => Raise KeyError
      end
  | _ => Raise TypeError
  end.

(** [iter(v)]: the items a [for] loop over [v] visits. *)
Definition iter (v : Json) : result (list Json) :=
  match v with
  | JList l => Ok l
  | JDict items => Ok ((λ kv, JStr kv.1) <$> items)
  | JStr s => Ok ((λ c, JStr [c]) <$> s)
  | _ => Raise TypeError
  end.

(** [version == v] for a [str] [version] *)
Definition eq_str (version : list N) (v : Json) : bool :=
  match v with
  | JStr s => bool_decide (version = s)
  | _ => false
  end.

Fixpoint is_prefix (p s : list N) : bool :=
  match p, s with
  | [], _ => true
  | _ :: _, [] => false
  | a :: p', b :: s' => (a =? b)%N && is_prefix p' s'
  end.

(** [p in s] on strings *)
Fixpoint is_substring (p s : list N) : bool :=
  is_prefix p s
  || match s with
     | [] => false
     | _ :: s' => is_substring p s'
     end.

(** [version in v] *)
Definition contains_str (version : list N) (v : Json) : result bool :=
  match v with
  | JStr s => Ok (is_substring version s)
  | JList l => Ok (existsb (eq_str version) l)
  | JDict items => Ok (existsb (λ kv, bool_decide (version = kv.1)) items)
  | _ => Raise TypeError
  end.

(** *** The pattern [\d\.\d(\.\d)?$] *)

Inductive regex : Type :=
| Digit
| Literal (c : N)
| Seq (r1 r2 : regex)
| Optional (r : regex)
| EndOfString.

(** [\d] on [str]: an ASCII digit or another Unicode decimal digit. *)
Definition is_digit (c : N) : bool :=
  ((48 <=? c) && (c <=? 57) || (128 <=? c) && unicode_Nd c)%N.

(** Whether [r] matches a prefix of [s] whose remainder satisfies [k];
    [$] matches at the end and before a final newline. *)
Fixpoint match_here (r : regex) (s : list N) (k : list N → bool) : bool :=
  match r with
  | Digit =>
      match s with
      | c :: s' => is_digit c && k s'
      | [] => false
      end
  | Literal c =>
      match s with
      | c' :: s' => (c =? c')%N && k s'
      | [] => false
      end
  | Seq r1 r2 => match_here r1 s (λ s', match_here r2 s' k)
  | Optional r => match_here r s k || k s
  | EndOfString =>
      (bool_decide (s = []) || bool_decide (s = [10%N])) && k s
  end.

(** [re.search(r, s)] finds a match. *)
Fixpoint search (r : regex) (s : list N) : bool :=
  match_here r s (λ _, true)
  || match s with
     | [] => false
     | _ :: s' => search r s'
     end.

Definition stable_version_re : regex :=
  Seq Digit (Seq (Literal 46) (Seq Digit
    (Seq (Optional (Seq (Literal 46) Digit)) EndOfString))).

(** [re.search(r'\d\.\d(\.\d)?$', v)] as a condition *)
Definition search_stable (v : Json) : result bool :=
  match v with
  | JStr s => Ok (search stable_version_re s)
  | _ => Raise TypeError
  end.

(** *** [lookup_pypi_version] *)

(** [next((p for p in l if cond(p)), None)] *)
Fixpoint next_where (cond : Json → result bool) (l : list Json) : result Json :=
  match l with
  | [] => Ok JNull
  | p :: l' =>
      match cond p with
      | Ok true => Ok p
      | Ok false => next_where cond l'
      | Raise e => Raise e
      end
  end.

(** The body of the last [try] of [lookup_pypi_version]. *)
Definition select_package (data : Json) (version : list N) : result Json :=
  bind (subscript data (of_string "packages")) (λ packages,
  bind (if negb (bool_decide (version = of_string "latest")) then
          bind (iter packages) (λ l,
          bind (next_where (λ p,
                  bind (subscript p (of_string "version")) (λ v,
                  Ok (eq_str version v))) l) (λ data,
          if negb (truthy data) then
            bind (iter packages) (λ l,
            next_where (λ p,
              bind (subscript p (of_string "version")) (λ v,
              contains_str version v)) l)
          else Ok data))
        else
          bind (iter packages) (λ l,
          next_where (λ p,
            bind (subscript p (of_string "version")) search_stable) l))
    (λ data,
  if negb (truthy data) then Raise (Two1Error (Error_version_not_found version))
  else subscript data (of_string "version"))).

(** The last [try] with its [except (AttributeError, KeyError, TypeError)]. *)
Definition select_version (data : Json) (version : list N) : result Json :=
  match select_package data version with
  | Raise AttributeError | Raise KeyError | Raise TypeError =>
      Raise (Two1Error (Error_version_not_found version))
  | r => r
  end.

(** *** The flow, with its trace *)

Definition M (A : Type) : Type := list event → result A * list event.

Definition ret {A} (a : A) : M A := λ trace, (Ok a, trace).
Definition raise {A} (e : exn) : M A := λ trace, (Raise e, trace).
Definition lift {A} (r : result A) : M A := λ trace, (r, trace).
Definition emit (ev : event) : M unit := λ trace, (Ok tt, trace ++ [ev]).

Definition bindM {A B} (c : M A) (k : A → M B) : M B :=
  λ trace,
    match c trace with
    | (Ok a, trace') => k a trace'
    | (Raise e, trace') => (Raise e, trace')
    end.

(** [try: c except: handler(e)] *)
Definition try_except {A} (c : M A) (handler : exn → M A) : M A :=
  λ trace,
    match c trace with
    | (Ok a, trace') => (Ok a, trace')
    | (Raise e, trace') => handler e trace'
    end.

(** [lookup_pypi_version] *)
Definition lookup_pypi_version (version : list N) : M Json :=
  bindM (try_except
           (let url := urljoin TWO1_PYPI_HOST
                         (of_string "api/package/" ++ TWO1_PACKAGE_NAME
                          ++ of_string "/") in
            bindM (emit (RequestsGet url)) (λ _, lift (requests_get url)))
           (λ e, match e with
                 | RequestsTimeout | RequestsConnectionError =>
                     raise (Two1Error Error_update_server_connection)
                 | _ => raise e
                 end)) (λ r,
  bindM (try_except (lift (response_json r))
           (λ e, match e with
                 | ValueError => raise (Two1Error (Error_version_not_found version))
                 | _ => raise e
                 end)) (λ data,
  lift (select_version data version))).

(** [checked_for_an_update_today] *)
Definition checked_for_an_update_today : result bool :=
  match
    bind config_last_update_check (λ last_update_check,
    bind (match last_update_check with
          | ConfigStr s => strptime s
          | ConfigNotStr => Raise TypeError
          end) (λ last_update_check_date,
    if today >? last_update_check_date then Ok false else Ok true))
  with
  | Raise AttributeError => Ok false
  | r => r
  end.

(** [stop_walletd()] as a statement: its boolean is dropped. *)
Definition call_stop_walletd : M unit :=
  bindM (emit StopWalletd) (λ _,
  match stop_walletd daemonizer with
  | Py.Ok _ => ret tt
  | Py.Raise e => raise (of_stop_walletd e)
  end).

(** [subprocess.check_call(command)] *)
Definition call_check_call (command : list (list N)) : M unit :=
  bindM (emit (CheckCall command)) (λ _, lift (check_call command)).

(** [except (subprocess.CalledProcessError, OSError, FileNotFoundError)] *)
Definition update_failed_handler (e : exn) : M unit :=
  match e with
  | CalledProcessError | OSError | RequestsTimeout | RequestsConnectionError =>
      raise (Two1Error Error_update_failed)
  | _ => raise e
  end.

(** ["{}".format(v)] *)
Definition format_value (v : Json) : list N :=
  match v with
  | JStr s => s
  | _ => str_of v
  end.

(** The command [perform_pip_based_update] builds. *)
Definition install_command (version : Json) : list (list N) :=
  [of_string "pip3"; of_string "install"; of_string "-i";
   TWO1_PYPI_HOST ++ of_string "/pypi";
   of_string "-U"; of_string "--no-deps"; of_string "-I";
   TWO1_PACKAGE_NAME ++ of_string "==" ++ format_value version].

(** [perform_pip_based_update] *)
Definition perform_pip_based_update (version : Json) : M unit :=
  let install_command := install_command version in
  bindM call_stop_walletd (λ _,
  try_except
    (if has_real_prefix then call_check_call install_command
     else
       bindM (emit (LoggerInfo update_superuser)) (λ _,
       call_check_call ([of_string "sudo"] ++ install_command)))
    update_failed_handler).

(** The commands [perform_apt_based_update] builds. *)
Definition update_command : list (list N) :=
  [of_string "sudo"; of_string "apt-get"; of_string "update"].

Definition upgrade_command : list (list N) :=
  [of_string "sudo"; of_string "apt-get"; of_string "-y"; of_string "install";
   of_string "--only-upgrade"; TWO1_PACKAGE_NAME; of_string "minerd";
   of_string "zerotier-one"].

(** [perform_apt_based_update] *)
Definition perform_apt_based_update : M unit :=
  bindM call_stop_walletd (λ _,
  try_except
    (bindM (call_check_call update_command) (λ _,
     call_check_call upgrade_command))
    update_failed_handler).

(** [TWO1_APT_INSTALL_PACKAGE_PATH] *)
Definition TWO1_APT_INSTALL_PACKAGE_PATH : list N :=
  of_string "/usr/lib/python3/dist-packages/" ++ TWO1_PACKAGE_NAME.

(** [_do_update] *)
Definition _do_update (version : Json) : M unit :=
  if isdir TWO1_APT_INSTALL_PACKAGE_PATH then perform_apt_based_update
  else perform_pip_based_update version.

(** The dict [update_two1_package] returns. *)
Record UpdateResult : Type := mkUpdateResult {
  update_available : bool;
  update_successful : option bool
}.

(** [update_two1_package].  After the generic handler of the lookup,
    [latest_version] is unbound and reading it raises
    [UnboundLocalError]. *)
Definition update_two1_package (version : list N) (force_update_check : bool)
    : M UpdateResult :=
  bindM (if negb force_update_check then lift checked_for_an_update_today
         else ret false) (λ checked,
  if negb force_update_check && checked then
    ret {| update_available := false; update_successful := None |}
  else
    bindM (emit (ConfigSet "last_update_check" (strftime today) true)) (λ _,
    let installed_version := TWO1_VERSION in
    if bool_decide (installed_version = []) then
      raise (Two1Error Error_version_not_detected)
    else
      bindM (try_except
               (bindM (lookup_pypi_version version) (λ v, ret (Some v)))
               (λ e, match e with
                     | Two1Error _ => raise e
                     | _ =>
                         if is_Exception e then
                           bindM (_do_update (JStr (of_string "latest"))) (λ _,
                           ret None)
                         else raise e
                     end)) (λ bound,
      match bound with
      | None => raise UnboundLocalError
      | Some latest_version =>
          bindM (lift (LooseVersion_gt latest_version installed_version)) (λ newer,
          bindM (if newer || negb (bool_decide (version = of_string "latest")) then
                   bindM (emit (LoggerInfo (update_package latest_version))) (λ _,
                   bindM (_do_update latest_version) (λ _,
                   ret true))
                 else
                   bindM (emit (LoggerInfo update_not_needed)) (λ _,
                   ret false)) (λ available,
          ret {| update_available := available;
                 update_successful := Some true |}))
      end))).

(** [_update] *)
Definition _update (version : list N) : M unit :=
  bindM (emit (LoggerInfo update_check)) (λ _,
  bindM (update_two1_package version true) (λ _, ret tt)).

(** *** Predicates the properties are stated with *)

(** [p["version"]] is the string [v]. *)
Definition has_version (p : Json) (v : list N) : Prop :=
  subscript p (of_string "version") = Ok (JStr v).


(** The address [lookup_pypi_version] queries. *)
Definition package_url : list N :=
  urljoin TWO1_PYPI_HOST
    (of_string "api/package/" ++ TWO1_PACKAGE_NAME ++ of_string "/").

(** The event [update_two1_package] records the check with. *)
Definition check_recorded : event :=
  ConfigSet "last_update_check" (strftime today) true.

(** No installer command without [stop_walletd] before it. *)
Definition guarded (new : list event) : Prop :=
  ∀ pre command post, new = pre ++ CheckCall command :: post → StopWalletd ∈ pre.

End Flow.

(** *** A concrete environment

    An installation of version [installed] on 2016-02-01, outside a
    virtualenv or inside one; [last_update_check] is the attribute of the
    configuration, [response] what the request to the package index gives
    (the decoded body, or an exception) and [install] what every installer
    command does.  The daemon is running and stops.  Versions are compared as strings, which
    agrees with [LooseVersion] while every component is a single digit. *)

Fixpoint str_gt (s1 s2 : list N) : bool :=
  match s1, s2 with
  | [], _ => false
  | _ :: _, [] => true
  | a :: s1', b :: s2' => (b <? a)%N || (a =? b)%N && str_gt s1' s2'
  end.

Definition example_environment (installed : list N)
    (last_update_check : result ConfigValue) (response : result Json)
    (install : result unit) : Environment := {|
  unicode_Nd := λ _, false;
  TWO1_PYPI_HOST := of_string "https://pypi-3844.21.co";
  TWO1_PACKAGE_NAME := of_string "two1";
  TWO1_VERSION := installed;
  config_last_update_check := last_update_check;
  strptime := λ s, if bool_decide (s = of_string "2016-02-01") then Ok 735995
                   else Raise ValueError;
  today := 735995;
  strftime := λ _, of_string "2016-02-01";
  urljoin := λ base path, base ++ of_string "/" ++ path;
  Response := Json;
  requests_get := λ _, response;
  response_json := λ r, Ok r;
  str_of := λ _, [];
  LooseVersion_gt := λ latest installed,
    match latest with
    | JStr s => Ok (str_gt s installed)
    | _ => Raise TypeError
    end;
  isdir := λ _, false;
  has_real_prefix := true;
  check_call := λ _, install;
  DaemonHandle := unit;
  daemonizer := {| get_daemonizer := Py.Ok tt;
                   started := λ _, Py.Ok true;
                   stop := λ _, Py.Ok true |}
|}.

(** An index page: a release candidate, then two stable versions, the most
    recent first. *)
Definition example_index : Json :=
  JDict [(of_string "packages",
          JList [JDict [(of_string "version", JStr (of_string "3.9.1rc1"))];
                 JDict [(of_string "version", JStr (of_string "3.9.1"))];
                 JDict [(of_string "version", JStr (of_string "3.9.0"))]])].

End Update.

(** * A concrete wallet

    A model of the external interface in which a key is the list of the
    indices that derive it and an address is its public key: distinct
    derivation paths give distinct addresses.  The constants are those of
    the scenarios of the specification ([increment = 20], [gap_limit = 20]). *)

Definition path_wallet : Bitcoin := {|
  HDKey := list Z;
  PublicKey := list Z;
  Address := list Z;
  Path := list Z;
  HDKey_from_path := λ master path, [master; master ++ path];
  HDPrivateKey_from_parent := λ key index, key ++ [index];
  public_key := λ key, key;
  HDPublicKey_from_parent := λ pub index, pub ++ [index];
  address := λ pub, pub;
  AccountType := list Z;
  account_derivation_prefix := λ t, t;
  account_types := {[ "BIP44BitcoinMainnet" := [0x8000002C; 0x80000000] ]};
  DISCOVERY_INCREMENT := 20;
  GAP_LIMIT := 20
|}.

Section ConcreteWallet.

#[local] Existing Instance path_wallet.

(** [MockTransactionDataProvider("BIP44BitcoinMainnet", master)] for the
    master key with the empty path. *)
Definition fresh_provider : MockTransactionDataProvider :=
  match init (PyStr "BIP44BitcoinMainnet") [] [] with
  | Py.Ok self => self
  | Py.Raise _ => mkProvider [] ∅ 0 [] [] ∅ MagicMock_new MagicMock_new
  end.

(** Scenario A: one used account, whose payout chain has addresses 0-2 used
    and whose change chain has addresses 0-4 used. *)
Definition scenario_A : MockTransactionDataProvider :=
  after (set_num_used_addresses 0 5 1)
    (after (set_num_used_addresses 0 3 0)
       (after (set_num_used_accounts 1) fresh_provider)).

(** Scenario B: a brand-new wallet, account 0 entirely unused. *)
Definition scenario_B : MockTransactionDataProvider := fresh_provider.

End ConcreteWallet.

(** * Properties *)

(** ** Facts about the primitives *)

Section PyFacts.

Lemma length_range2 a b : length (Py.range2 a b) = Z.to_nat (b - a).
Proof. unfold Py.range2. by rewrite length_fmap, length_seq. Qed.

Lemma length_range n : length (Py.range n) = Z.to_nat n.
Proof. unfold Py.range. rewrite length_range2. f_equal. lia. Qed.

Lemma lookup_range n (i : nat) :
  (i < Z.to_nat n)%nat → Py.range n !! i = Some (Z.of_nat i).
Proof.
  intros Hi. unfold Py.range, Py.range2.
  rewrite list_lookup_fmap, lookup_seq_lt by lia. done.
Qed.

Lemma elem_of_range n i : i ∈ Py.range n ↔ 0 ≤ i < n.
Proof.
  unfold Py.range, Py.range2. rewrite list_elem_of_fmap. split.
  - intros (k & -> & Hk). apply elem_of_seq in Hk. lia.
  - intros Hi. exists (Z.to_nat i). split; [lia|]. apply elem_of_seq. lia.
Qed.

Lemma range_succ n : 0 ≤ n → Py.range (n + 1) = Py.range n ++ [n].
Proof.
  intros Hn. unfold Py.range, Py.range2.
  replace (Z.to_nat (n + 1 - 0)) with (S (Z.to_nat (n - 0))) by lia.
  rewrite seq_S, fmap_app. simpl. do 3 f_equal. lia.
Qed.

Lemma range_nonpos n : n ≤ 0 → Py.range n = [].
Proof.
  intros Hn. unfold Py.range, Py.range2.
  by replace (Z.to_nat (n - 0)) with 0%nat by lia.
Qed.

(** Slicing with bounds [0 <= s <= e] keeps exactly the positions from
    [s] up to, not including, [e]. *)
Lemma lookup_slice {A} (l : list A) (s e : Z) (k : nat) :
  0 ≤ s ≤ e →
  Py.slice l s e !! k =
    if bool_decide (s + Z.of_nat k < e) then l !! (Z.to_nat s + k)%nat else None.
Proof.
  intros Hse. unfold Py.slice, Py.clamp.
  destruct (Z.ltb_spec s 0) as [?|_]; [lia|].
  destruct (Z.ltb_spec e 0) as [?|_]; [lia|].
  case_bool_decide as Hk.
  - destruct (decide (Z.to_nat s + k < length l)%nat) as [Hin|Hout].
    + rewrite lookup_take_lt by lia. rewrite lookup_drop. f_equal. lia.
    + rewrite (lookup_ge_None_2 l) by lia.
      apply lookup_ge_None_2. rewrite length_take, length_drop. lia.
  - apply lookup_ge_None_2. rewrite length_take, length_drop. lia.
Qed.

Lemma elem_of_slice {A} (l : list A) (s e : Z) (a : A) :
  0 ≤ s ≤ e →
  a ∈ Py.slice l s e ↔ ∃ i : nat, l !! i = Some a ∧ s ≤ Z.of_nat i < e.
Proof.
  intros Hse. rewrite list_elem_of_lookup. split.
  - intros (k & Hk). rewrite lookup_slice in Hk by done.
    case_bool_decide; [|done]. exists (Z.to_nat s + k)%nat. split; [done|lia].
  - intros (i & Hi & Hr). exists (i - Z.to_nat s)%nat.
    rewrite lookup_slice by done. rewrite bool_decide_eq_true_2 by lia.
    rewrite <- Hi. f_equal. lia.
Qed.

Lemma slice_to_take {A} (l : list A) (e : Z) :
  0 ≤ e → Py.slice_to l e = take (Z.to_nat e) l.
Proof.
  intros He. apply list_eq. intros k. unfold Py.slice_to.
  rewrite lookup_slice by lia. case_bool_decide.
  - rewrite lookup_take_lt by lia. done.
  - symmetry. apply lookup_ge_None_2. rewrite length_take. lia.
Qed.

Lemma ceil_div_spec a b q :
  0 < b → Py.ceil_div a b = q ↔ (q - 1) * b < a ≤ q * b.
Proof.
  intros Hb. unfold Py.ceil_div. split.
  - intros <-. pose proof (Z.mul_div_le (- a) b Hb).
    pose proof (Z.mul_succ_div_gt (- a) b Hb). nia.
  - intros [H1 H2]. assert (- a / b = - q); [|lia].
    symmetry. apply (Z.div_unique_pos _ _ _ (q * b - a)); lia.
Qed.

Lemma ceil_div_pos a b : 0 < b → 0 < a → 0 < Py.ceil_div a b.
Proof.
  intros Hb Ha. destruct (ceil_div_spec a b (Py.ceil_div a b) Hb) as [H _].
  specialize (H eq_refl). nia.
Qed.

Lemma ceil_div_nonneg a b : 0 < b → 0 ≤ a → 0 ≤ Py.ceil_div a b.
Proof.
  intros Hb Ha. destruct (ceil_div_spec a b (Py.ceil_div a b) Hb) as [H _].
  specialize (H eq_refl). nia.
Qed.

End PyFacts.

(** ** [MockTxnDict] *)

Section MockTxnDictFacts.

Context {Address : Type} `{EqDecision Address} {Value : Type}.
Implicit Types (d : MockTxnDict Address Value) (a : Address).

Lemma contains_init_iff nu r (al : list Address) (uv unv : Value) a :
  contains (MockTxnDict_init nu r al uv unv) a = true ↔
  0 < nu ∧ ∃ i : nat, al !! i = Some a
    ∧ Z.max 0 (range_start r) ≤ Z.of_nat i < Z.min nu (range_stop r).
Proof.
  unfold contains, MockTxnDict_init. simpl.
  destruct (Z.eqb_spec nu 0) as [->|Hnu]; simpl.
  { split; [done|]. intros [? _]. lia. }
  destruct (Z.gtb_spec (Z.max 0 (range_start r)) (Z.min nu (range_stop r))) as [Hgt|Hle].
  { split; [done|]. intros (_ & i & _ & ?). lia. }
  rewrite bool_decide_eq_true, elem_of_slice by lia.
  split.
  - intros (i & Hi & Hr). split; [lia|]. by exists i.
  - intros (_ & i & Hi & Hr). by exists i.
Qed.

Lemma is_used_true index nu r :
  is_used index nu r = true ↔
  0 < nu ∧ Z.max 0 (range_start r) ≤ index < Z.min nu (range_stop r).
Proof.
  unfold is_used. rewrite !andb_true_iff, Z.ltb_lt, Z.leb_le, Z.ltb_lt. tauto.
Qed.

(** When the address table has no repetition, usedness of the address at
    position [i] is [is_used i]. *)
Lemma contains_at_index nu r (al : list Address) (uv unv : Value) (i : nat) a :
  NoDup al → al !! i = Some a →
  contains (MockTxnDict_init nu r al uv unv) a = is_used (Z.of_nat i) nu r.
Proof.
  intros Hnd Hi. apply eq_true_iff_eq.
  rewrite contains_init_iff, is_used_true. split.
  - intros (Hnu & j & Hj & Hr).
    assert (j = i) as -> by (eapply NoDup_lookup; eauto). done.
  - intros (Hnu & Hr). split; [done|]. by exists i.
Qed.

(** C2.  Membership in a [MockTxnDict] built from [(num_used, addr_range,
    addr_list, used_value, unused_value)] holds exactly when [num_used > 0]
    and the address occurs in [addr_list] at an index [i] with
    [max(0, addr_range.start) <= i < min(num_used, addr_range.stop)];
    equivalently, when it occurs at an index where the pure function
    [is_used index num_used window] is true.  Lookup returns [used_value]
    in that case and [unused_value] otherwise. *)
Theorem MockTxnDict_membership nu r (al : list Address) (uv unv : Value) a :
  let d := MockTxnDict_init nu r al uv unv in
  let occurs_used :=
    0 < nu ∧ ∃ i : nat, al !! i = Some a
      ∧ Z.max 0 (range_start r) ≤ Z.of_nat i < Z.min nu (range_stop r) in
  (contains d a = true ↔ occurs_used)
  ∧ (contains d a = true ↔
       ∃ i : nat, al !! i = Some a ∧ is_used (Z.of_nat i) nu r = true)
  ∧ (occurs_used → getitem d a = uv)
  ∧ (¬ occurs_used → getitem d a = unv).
Proof.
  intros d occurs_used.
  assert (contains d a = true ↔
          ∃ i : nat, al !! i = Some a ∧ is_used (Z.of_nat i) nu r = true) as Hiff.
  { unfold d. rewrite contains_init_iff. split.
    - intros (Hnu & i & Hi & Hr). exists i. split; [done|].
      by apply is_used_true.
    - intros (i & Hi & Hu). apply is_used_true in Hu as [Hnu Hr].
      split; [done|]. by exists i. }
  pose proof (contains_init_iff nu r al uv unv a) as Hocc. fold d in Hocc.
  split; [exact Hocc|]. split; [exact Hiff|].
  unfold getitem. destruct (contains d a) eqn:Hc; split; intros Ho.
  - done.
  - destruct Ho. by apply Hocc.
  - apply Hocc in Ho. congruence.
  - done.
Qed.

Lemma getitem_cases d a :
  (contains d a = true ∧ getitem d a = used_value d)
  ∨ (contains d a = false ∧ getitem d a = unused_value d).
Proof. unfold getitem. destruct (contains d a); auto. Qed.

End MockTxnDictFacts.

(** ** The provider: loops and well-formed configurations *)

Section ProviderFacts.

Context `{Bitcoin}.

Abbreviation TxnDict := (MockTxnDict Address (list Transaction)).
Abbreviation Balances := (gmap Address (Z * Z)).
Abbreviation Provider := MockTransactionDataProvider.

(** A loop whose body only appends to its accumulator appends the
    concatenation of what each pass appends. *)
Lemma for_local_append {X T} (l : list X) (body : X → list T → Py.result (list T))
    (f : X → list T) (s : list T) :
  (∀ x s, x ∈ l → body x s = Py.Ok (s ++ f x)) →
  for_local l body s = Py.Ok (s ++ concat (f <$> l)).
Proof.
  revert s. induction l as [|x l IH]; intros s Hbody; simpl.
  - by rewrite app_nil_r.
  - rewrite Hbody by apply list_elem_of_here. simpl.
    rewrite IH by (intros; apply Hbody; by apply list_elem_of_further).
    by rewrite app_assoc.
Qed.

Lemma concat_singletons {X T} (f : X → T) (l : list X) :
  concat ((λ x, [f x]) <$> l) = f <$> l.
Proof. induction l as [|x l IH]; [done|]. rewrite !fmap_cons. simpl. by f_equal. Qed.

(** A property of the accumulator kept by every pass that returns is kept
    by a loop that returns. *)
Lemma for_local_invariant {X S} (P : S → Prop) (l : list X)
    (body : X → S → Py.result S) (s s' : S) :
  (∀ x s s', P s → body x s = Py.Ok s' → P s') →
  P s → for_local l body s = Py.Ok s' → P s'.
Proof.
  intros Hbody. revert s. induction l as [|x l IH]; intros s Hs; simpl.
  - by intros [= <-].
  - destruct (body x s) as [s1|e] eqn:Hx; simpl; [|done].
    apply IH. by eapply Hbody.
Qed.

Lemma valid_config_unfold self :
  valid_config self = true →
  0 < address_increment ∧ 0 ≤ GAP_LIMIT
  ∧ 0 ≤ _num_used_accounts self ≤ max_accounts
  ∧ ∀ i, 0 ≤ i < max_accounts → valid_account self i = true.
Proof.
  unfold valid_config, valid_constants, address_increment.
  rewrite !andb_true_iff, forallb_forall, Z.ltb_lt, !Z.leb_le.
  intros [[[[[? ?] _] ?] ?] Hall]. repeat split; try done.
  intros i Hi. apply Hall, list_elem_of_In, elem_of_range. done.
Qed.

Lemma valid_account_unfold self i :
  valid_account self i = true →
  ∃ inner keys n0 n1,
    _num_used_addresses self !! i = Some inner
    ∧ _acct_keys self !! i = Some keys
    ∧ inner !! 0 = Some n0 ∧ inner !! 1 = Some n1
    ∧ 0 ≤ n0 ∧ 0 ≤ n1.
Proof.
  unfold valid_account, valid_count.
  destruct (_num_used_addresses self !! i) as [inner|]; [|done].
  destruct (_acct_keys self !! i) as [keys|]; [|done].
  destruct (inner !! 0) as [n0|] eqn:E0; [|done].
  destruct (inner !! 1) as [n1|] eqn:E1; [|done].
  rewrite !andb_true_iff, !Z.leb_le. intros [[? _] [? _]].
  exists inner, keys, n0, n1. repeat split; done.
Qed.

(** With both counters and the key entry in place, the chain loop returns
    and appends one response per batch index below the (adjusted) count. *)
Lemma discovery_chain_ok self acct change inner keys num_used effects :
  address_increment ≠ 0 →
  _num_used_addresses self !! acct = Some inner →
  inner !! change = Some num_used →
  _acct_keys self !! acct = Some keys →
  let r := Py.ceil_div (num_used + GAP_LIMIT) address_increment in
  discovery_chain self acct change effects =
    Py.Ok (effects ++ (discovery_response num_used (chain_addresses keys change)
                         <$> Py.range (if r =? 0 then 1 else r))).
Proof.
  intros Hinc Hinner Hn Hkeys r.
  unfold discovery_chain, num_used_addresses_getitem, Py.subscript, ceil_true_div.
  rewrite Hinner. simpl. rewrite Hn. simpl.
  destruct (Z.eqb_spec address_increment 0) as [?|_]; [done|]. simpl.
  rewrite Hkeys. simpl. fold r.
  rewrite (for_local_append _ _
    (λ i, [discovery_response num_used (chain_addresses keys change) i])) by done.
  by rewrite concat_singletons.
Qed.

Lemma scripted_for_ok self acct change inner keys num_used :
  address_increment ≠ 0 →
  _num_used_addresses self !! acct = Some inner →
  inner !! change = Some num_used →
  _acct_keys self !! acct = Some keys →
  let r := Py.ceil_div (num_used + GAP_LIMIT) address_increment in
  scripted_for self acct change =
    discovery_response num_used (chain_addresses keys change)
      <$> Py.range (if r =? 0 then 1 else r).
Proof.
  intros Hinc Hinner Hn Hkeys r. unfold scripted_for.
  by erewrite discovery_chain_ok.
Qed.

Lemma discovery_chain_scripted self acct change effects :
  valid_config self = true →
  0 ≤ acct < max_accounts → change = 0 ∨ change = 1 →
  discovery_chain self acct change effects =
    Py.Ok (effects ++ scripted_for self acct change).
Proof.
  intros Hv Hacct Hc. apply valid_config_unfold in Hv as (Hinc & _ & _ & Hall).
  destruct (valid_account_unfold _ _ (Hall acct Hacct))
    as (inner & keys & n0 & n1 & Hi & Hk & H0 & H1 & _).
  destruct Hc as [-> | ->].
  - erewrite discovery_chain_ok, scripted_for_ok; eauto; lia.
  - erewrite discovery_chain_ok, scripted_for_ok; eauto; lia.
Qed.

(** On a well-formed configuration the script is the concatenation, account
    by account, of the payout responses followed by the change responses. *)
Lemma discovery_effects_ok self :
  valid_config self = true →
  discovery_effects self =
    Py.Ok (concat ((λ acct, scripted_for self acct 0 ++ scripted_for self acct 1)
                     <$> Py.range (scripted_accounts self))).
Proof.
  intros Hv. pose proof (valid_config_unfold _ Hv) as (_ & _ & Hn & _).
  unfold discovery_effects, scripted_accounts.
  replace (if _num_used_accounts self =? 0 then 1 else _num_used_accounts self)
    with (Z.max 1 (_num_used_accounts self))
    by (destruct (Z.eqb_spec (_num_used_accounts self) 0); lia).
  rewrite (for_local_append _ _
    (λ acct, scripted_for self acct 0 ++ scripted_for self acct 1)); [done|].
  intros acct effects Hacct. apply elem_of_range in Hacct. simpl.
  assert (0 ≤ acct < max_accounts) by (unfold max_accounts in *; lia).
  rewrite discovery_chain_scripted by auto. simpl.
  rewrite discovery_chain_scripted by auto. simpl.
  by rewrite app_assoc.
Qed.

Lemma set_txn_side_effect_for_hd_discovery_ok self :
  valid_config self = true →
  let effects :=
    concat ((λ acct, scripted_for self acct 0 ++ scripted_for self acct 1)
              <$> Py.range (scripted_accounts self)) in
  set_txn_side_effect_for_hd_discovery self =
    (Py.Ok (Z.of_nat (length effects)),
     set_get_transactions
       {| return_value := return_value (get_transactions self);
          side_effect := Some effects |} self).
Proof.
  intros Hv effects.
  unfold set_txn_side_effect_for_hd_discovery, bindM, get_self, lift, modify, ret.
  by rewrite discovery_effects_ok.
Qed.

(** The number of responses of one chain. *)
Lemma length_scripted_for self acct change num_used :
  valid_config self = true →
  0 ≤ acct < max_accounts → change = 0 ∨ change = 1 →
  num_used_addresses_getitem self acct change = Py.Ok num_used →
  Z.of_nat (length (scripted_for self acct change)) =
    Z.max 1 (Py.ceil_div (num_used + GAP_LIMIT) address_increment)
  ∧ ∃ keys, _acct_keys self !! acct = Some keys
      ∧ scripted_for self acct change =
          discovery_response num_used (chain_addresses keys change)
            <$> Py.range (Z.max 1 (Py.ceil_div (num_used + GAP_LIMIT) address_increment)).
Proof.
  intros Hv Hacct Hc Hget.
  apply valid_config_unfold in Hv as (Hinc & Hgap & _ & Hall).
  destruct (valid_account_unfold _ _ (Hall acct Hacct))
    as (inner & keys & n0 & n1 & Hi & Hk & H0 & H1 & Hn0 & Hn1).
  unfold num_used_addresses_getitem, Py.subscript in Hget.
  rewrite Hi in Hget. simpl in Hget.
  assert (inner !! change = Some num_used ∧ 0 ≤ num_used) as [Hnu Hnonneg].
  { destruct Hc as [-> | ->].
    - rewrite H0 in Hget. by injection Hget as <-.
    - rewrite H1 in Hget. by injection Hget as <-. }
  pose proof (ceil_div_nonneg (num_used + GAP_LIMIT) address_increment Hinc) as Hr.
  erewrite scripted_for_ok by (eauto; lia).
  replace (if Py.ceil_div (num_used + GAP_LIMIT) address_increment =? 0 then 1
           else Py.ceil_div (num_used + GAP_LIMIT) address_increment)
    with (Z.max 1 (Py.ceil_div (num_used + GAP_LIMIT) address_increment))
    by (destruct (Z.eqb_spec (Py.ceil_div (num_used + GAP_LIMIT) address_increment) 0); lia).
  split; [|by exists keys].
  rewrite length_fmap, length_range. lia.
Qed.

End ProviderFacts.

(** ** The discovery script *)

Section DiscoveryScript.

Context `{Bitcoin}.

(** C1.  On every well-formed configuration
    [set_txn_side_effect_for_hd_discovery] returns, and for every chain of
    every scripted account the number of [get_transactions] responses it
    queues for that chain is [ceil((num_used + GAP_LIMIT) / increment)],
    at least 1; for a chain with no used address (and a positive gap
    limit) that is exactly [ceil(GAP_LIMIT / increment)]. *)
Theorem hd_discovery_responses_per_chain (self : MockTransactionDataProvider) :
  valid_config self = true →
  let effects :=
    concat ((λ acct, scripted_for self acct 0 ++ scripted_for self acct 1)
              <$> Py.range (scripted_accounts self)) in
  set_txn_side_effect_for_hd_discovery self =
    (Py.Ok (Z.of_nat (length effects)),
     set_get_transactions
       {| return_value := return_value (get_transactions self);
          side_effect := Some effects |} self)
  ∧ ∀ acct change,
      0 ≤ acct < scripted_accounts self → change = 0 ∨ change = 1 →
      ∃ num_used,
        num_used_addresses_getitem self acct change = Py.Ok num_used
        ∧ Z.of_nat (length (scripted_for self acct change)) =
            Z.max 1 (Py.ceil_div (num_used + GAP_LIMIT) address_increment)
        ∧ (num_used = 0 → 0 < GAP_LIMIT →
           Z.of_nat (length (scripted_for self acct change)) =
             Py.ceil_div GAP_LIMIT address_increment).
Proof.
  intros Hv effects. split; [by apply set_txn_side_effect_for_hd_discovery_ok|].
  intros acct change Hacct Hc.
  pose proof (valid_config_unfold _ Hv) as (Hinc & Hgap & Hn & Hall).
  assert (0 ≤ acct < max_accounts) as Hacct'
    by (unfold scripted_accounts, max_accounts in *; lia).
  destruct (valid_account_unfold _ _ (Hall acct Hacct'))
    as (inner & keys & n0 & n1 & Hi & Hk & H0 & H1 & Hn0 & Hn1).
  assert (∃ num_used, num_used_addresses_getitem self acct change = Py.Ok num_used)
    as [num_used Hget].
  { unfold num_used_addresses_getitem, Py.subscript. rewrite Hi. simpl.
    destruct Hc as [-> | ->]; [rewrite H0|rewrite H1]; eauto. }
  exists num_used. split; [done|].
  destruct (length_scripted_for self acct change num_used Hv Hacct' Hc Hget) as [Hlen _].
  split; [done|]. intros -> Hpos. rewrite Hlen, Z.add_0_l.
  pose proof (ceil_div_pos GAP_LIMIT address_increment Hinc Hpos). lia.
Qed.

(** C4.  On every well-formed configuration the accounts for which
    responses are scripted are exactly those with index below
    [max(1, num_used_accounts)]: the script is the concatenation, over
    these accounts in order, of a non-empty run for the payout chain and a
    non-empty run for the change chain, each response carrying the address
    table of its chain; with no used account that is account 0 alone. *)
Theorem hd_discovery_scripted_accounts (self : MockTransactionDataProvider) :
  valid_config self = true →
  ∃ effects,
    side_effect (get_transactions (set_txn_side_effect_for_hd_discovery self).2)
      = Some effects
    ∧ (set_txn_side_effect_for_hd_discovery self).1
      = Py.Ok (Z.of_nat (length effects))
    ∧ effects =
        concat ((λ acct, scripted_for self acct 0 ++ scripted_for self acct 1)
                  <$> Py.range (Z.max 1 (_num_used_accounts self)))
    ∧ (∀ acct change,
         0 ≤ acct < Z.max 1 (_num_used_accounts self) → change = 0 ∨ change = 1 →
         scripted_for self acct change ≠ []
         ∧ ∃ keys, _acct_keys self !! acct = Some keys
             ∧ Forall (λ d, addr_list d = chain_addresses keys change)
                 (scripted_for self acct change))
    ∧ (_num_used_accounts self = 0 →
       effects = scripted_for self 0 0 ++ scripted_for self 0 1).
Proof.
  intros Hv. eexists.
  rewrite set_txn_side_effect_for_hd_discovery_ok by done. simpl.
  split; [done|]. split; [done|]. split; [done|]. split.
  - intros acct change Hacct Hc.
    pose proof (valid_config_unfold _ Hv) as (Hinc & Hgap & Hn & Hall).
    assert (0 ≤ acct < max_accounts) as Hacct' by (unfold max_accounts in *; lia).
    destruct (valid_account_unfold _ _ (Hall acct Hacct'))
      as (inner & keys & n0 & n1 & Hi & Hk & H0 & H1 & Hn0 & Hn1).
    assert (∃ num_used, num_used_addresses_getitem self acct change = Py.Ok num_used)
      as [num_used Hget].
    { unfold num_used_addresses_getitem, Py.subscript. rewrite Hi. simpl.
      destruct Hc as [-> | ->]; [rewrite H0|rewrite H1]; eauto. }
    destruct (length_scripted_for self acct change num_used Hv Hacct' Hc Hget)
      as (Hlen & keys' & Hk' & Heq).
    split.
    + intros Hnil. rewrite Hnil in Hlen. simpl in Hlen. lia.
    + exists keys'. split; [done|]. rewrite Heq. apply Forall_fmap, Forall_true. done.
  - intros Hz. unfold scripted_accounts. rewrite Hz. simpl.
    by rewrite app_nil_r.
Qed.

(** The mock hands out a queued list in order and keeps the rest. *)
Lemma call_get_transactions_times_queue (k : nat) (self : MockTransactionDataProvider)
    rv (l : list (MockTxnDict Address (list Transaction))) :
  (k ≤ length l)%nat →
  get_transactions self = {| return_value := rv; side_effect := Some l |} →
  call_get_transactions_times k self =
    (Py.Ok (Returned <$> take k l),
     set_get_transactions {| return_value := rv; side_effect := Some (drop k l) |} self).
Proof.
  revert self l. induction k as [|k IH]; intros self l Hk Hq.
  - simpl. unfold ret. rewrite drop_0. f_equal. destruct self. simpl in *. by subst.
  - destruct l as [|x l]; [simpl in Hk; lia|].
    simpl. unfold bindM at 1. unfold call_get_transactions at 1, MagicMock_call.
    rewrite Hq. simpl. unfold bindM.
    rewrite (IH _ l); [done|simpl in Hk; lia|done].
Qed.

(** C8.  The queue is consumed strictly in call order: on a well-formed
    configuration [set_txn_side_effect_for_hd_discovery] returns the number
    [N] of responses it queued, the calls of [get_transactions] that follow
    receive the queued responses one by one in the order they were queued,
    and the call after the [N]-th raises [StopIteration]. *)
Theorem hd_discovery_queue_in_call_order (self : MockTransactionDataProvider) :
  valid_config self = true →
  ∃ effects self1,
    set_txn_side_effect_for_hd_discovery self =
      (Py.Ok (Z.of_nat (length effects)), self1)
    ∧ (∀ (k : nat) d, effects !! k = Some d →
         (call_get_transactions (call_get_transactions_times k self1).2).1
           = Py.Ok (Returned d))
    ∧ (call_get_transactions_times (length effects) self1).1
        = Py.Ok (Returned <$> effects)
    ∧ (call_get_transactions
         (call_get_transactions_times (length effects) self1).2).1
        = Py.Raise Py.StopIteration.
Proof.
  intros Hv. eexists _, _. split; [by apply set_txn_side_effect_for_hd_discovery_ok|].
  set (effects := concat _).
  set (self1 := set_get_transactions _ self).
  assert (get_transactions self1 =
          {| return_value := return_value (get_transactions self);
             side_effect := Some effects |}) as Hq by done.
  split; [|split].
  - intros k d Hk.
    rewrite (call_get_transactions_times_queue k self1 _ effects
               (Nat.lt_le_incl _ _ (lookup_lt_Some _ _ _ Hk)) Hq).
    simpl. unfold call_get_transactions, MagicMock_call. simpl.
    rewrite (drop_S _ _ _ Hk). done.
  - rewrite (call_get_transactions_times_queue _ self1 _ effects (le_n _) Hq).
    simpl. by rewrite firstn_all.
  - rewrite (call_get_transactions_times_queue _ self1 _ effects (le_n _) Hq).
    simpl. unfold call_get_transactions, MagicMock_call. simpl.
    by rewrite drop_all.
Qed.

Lemma discovery_effects_values self effects :
  discovery_effects self = Py.Ok effects → Forall scripted_values effects.
Proof.
  unfold discovery_effects.
  apply (for_local_invariant (Forall scripted_values)); [|constructor].
  intros acct e0 e1 He0.
  apply (for_local_invariant (Forall scripted_values)); [|done].
  clear. intros change e0 e1 He0. unfold discovery_chain.
  destruct (num_used_addresses_getitem self acct change) as [nu|]; [|done]. simpl.
  destruct (ceil_true_div _ _) as [r|]; [|done]. simpl.
  destruct (Py.subscript _ _) as [keys|]; [|done]. simpl.
  apply (for_local_invariant (Forall scripted_values)); [|done].
  intros i e e' He [= <-]. apply Forall_app. split; [done|].
  by repeat constructor.
Qed.

Lemma scripted_values_unused (d : MockTxnDict Address (list Transaction)) a :
  scripted_values d → (getitem d a = [] ↔ contains d a = false).
Proof.
  intros [Hu Hn]. unfold getitem. destruct (contains d a).
  - rewrite Hu. split; done.
  - by rewrite Hn.
Qed.

(** C5.  Lookup in a [MockTxnDict] is total: for every dict and every
    requested address it returns [used_value] when the address is used and
    [unused_value] otherwise.  In every response queued by
    [set_txn_side_effect_for_hd_discovery] or
    [set_txn_side_effect_for_index], [unused_value] is the empty list and
    [used_value] is not, so the answer for an address is empty exactly when
    the address is not used. *)
Theorem transactions_lookup_total :
  (∀ (d : MockTxnDict Address (list Transaction)) a,
     (contains d a = true ∧ getitem d a = used_value d)
     ∨ (contains d a = false ∧ getitem d a = unused_value d))
  ∧ (∀ self : MockTransactionDataProvider,
       match set_txn_side_effect_for_hd_discovery self with
       | (Py.Ok n, self') =>
           ∃ effects,
             side_effect (get_transactions self') = Some effects
             ∧ n = Z.of_nat (length effects)
             ∧ Forall (λ d, unused_value d = []
                            ∧ ∀ a, getitem d a = [] ↔ contains d a = false) effects
       | (Py.Raise _, self') => self' = self
       end)
  ∧ (∀ (self : MockTransactionDataProvider) account_index address_index change,
       match set_txn_side_effect_for_index account_index address_index change self with
       | (Py.Ok _, self') =>
           ∃ d,
             side_effect (get_transactions self') = Some [d]
             ∧ unused_value d = []
             ∧ ∀ a, getitem d a = [] ↔ contains d a = false
       | (Py.Raise _, self') => self' = self
       end).
Proof.
  split; [intros d a; apply getitem_cases|]. split.
  - intros self.
    unfold set_txn_side_effect_for_hd_discovery, bindM, get_self, lift, modify, ret.
    destruct (discovery_effects self) as [effects|e] eqn:He; [|done].
    exists effects. split; [done|]. split; [done|].
    eapply Forall_impl; [by eapply discovery_effects_values|].
    intros d Hd. split; [apply Hd|]. intros a. by apply scripted_values_unused.
  - intros self ai addr change.
    unfold set_txn_side_effect_for_index, bindM, get_self, lift, modify.
    destruct (Py.subscript (_acct_keys self) ai) as [keys|e]; [|done].
    eexists. split; [done|]. split; [done|].
    intros a. by apply scripted_values_unused.
Qed.

End DiscoveryScript.

(** ** The balances of [get_balance_hd] *)

Section Balances.

Context `{Bitcoin}.

Lemma for_local_pure {X S} (l : list X) (body : X → S → Py.result S)
    (f : S → X → S) (s : S) :
  (∀ x s, x ∈ l → body x s = Py.Ok (f s x)) →
  for_local l body s = Py.Ok (foldl f s l).
Proof.
  revert s. induction l as [|x l IH]; intros s Hbody; simpl; [done|].
  rewrite Hbody by apply list_elem_of_here. simpl.
  apply IH. intros. apply Hbody. by apply list_elem_of_further.
Qed.

Lemma lookup_update_const (d : gmap Address (Z * Z)) l v a :
  update_const d l v !! a = if bool_decide (a ∈ l) then Some v else d !! a.
Proof.
  unfold update_const. revert d. induction l as [|x l IH]; intros d; cbn [foldl].
  - rewrite bool_decide_eq_false_2; [done|]. apply not_elem_of_nil.
  - rewrite IH. destruct (decide (a ∈ l)) as [Hin|Hnin].
    + rewrite !bool_decide_eq_true_2; [done| |done]. by apply list_elem_of_further.
    + rewrite (bool_decide_eq_false_2 (a ∈ l)) by done.
      destruct (decide (x = a)) as [->|Hne].
      * rewrite lookup_insert_eq, bool_decide_eq_true_2; [done|]. apply list_elem_of_here.
      * rewrite lookup_insert_ne by done.
        rewrite bool_decide_eq_false_2; [done|].
        intros [?|?]%elem_of_cons; congruence.
Qed.

Lemma lookup_balances_step self d i a :
  balances_step self d i !! a =
    if bool_decide (a ∈ first_used self i 0) then Some (100000, 0)
    else if bool_decide (a ∈ first_used self i 1) then Some (0, 10000)
    else d !! a.
Proof. unfold balances_step. by rewrite !lookup_update_const. Qed.

Lemma balances_body_ok self i :
  valid_config self = true → 0 ≤ i < max_accounts →
  ∀ d,
    (keys <- Py.subscript (_acct_keys self) i ;;
     n0 <- num_used_addresses_getitem self i 0 ;;
     let payout_addresses := Py.slice_to (payout_addresses keys) n0 in
     keys <- Py.subscript (_acct_keys self) i ;;
     n1 <- num_used_addresses_getitem self i 1 ;;
     let change_addresses := Py.slice_to (change_addresses keys) n1 in
     let d := update_const d change_addresses (0, 10000) in
     let d := update_const d payout_addresses (100000, 0) in
     Py.Ok d) = Py.Ok (balances_step self d i).
Proof.
  intros Hv Hi d. apply valid_config_unfold in Hv as (_ & _ & _ & Hall).
  destruct (valid_account_unfold _ _ (Hall i Hi))
    as (inner & keys & n0 & n1 & Hin & Hk & H0 & H1 & Hn0 & Hn1).
  unfold num_used_addresses_getitem, Py.subscript, balances_step, first_used.
  rewrite Hk, Hin. simpl. rewrite H0, H1. simpl.
  by rewrite !slice_to_take by done.
Qed.

Lemma balances_hd_ok self :
  valid_config self = true →
  balances_hd self =
    Py.Ok (foldl (balances_step self) ∅ (Py.range (_num_used_accounts self))).
Proof.
  intros Hv. unfold balances_hd. apply for_local_pure.
  intros i d Hi%elem_of_range.
  pose proof (valid_config_unfold _ Hv) as (_ & _ & Hn & _).
  apply balances_body_ok; [done|lia].
Qed.

(** Absent after the loop: absent before, and written by no pass. *)
Lemma balances_fold_None self l d a :
  foldl (balances_step self) d l !! a = None ↔
  d !! a = None
  ∧ ∀ i, i ∈ l → (a ∉ first_used self i 0) ∧ (a ∉ first_used self i 1).
Proof.
  revert d. induction l as [|x l IH]; intros d; simpl.
  - split; [|tauto]. intros Hd. split; [done|]. intros i Hi. by apply not_elem_of_nil in Hi.
  - rewrite IH, lookup_balances_step. split.
    + intros [Hx Hl]. repeat case_bool_decide; try done.
      split; [done|]. intros i [->|Hi]%elem_of_cons; auto.
    + intros [Hd Hall]. destruct (Hall x) as [Hp Hc]; [apply list_elem_of_here|].
      rewrite !bool_decide_eq_false_2 by done. split; [done|].
      intros i Hi. apply Hall. by apply list_elem_of_further.
Qed.

(** A value present after the loop was present before or tells which kind
    of chain wrote it. *)
Lemma balances_fold_Some self l d a v :
  foldl (balances_step self) d l !! a = Some v →
  d !! a = Some v
  ∨ (v = (100000, 0) ∧ ∃ i, i ∈ l ∧ a ∈ first_used self i 0)
  ∨ (v = (0, 10000) ∧ ∃ i, i ∈ l ∧ a ∈ first_used self i 1).
Proof.
  revert d. induction l as [|x l IH]; intros d; simpl; [auto|].
  intros [Hd | [(-> & i & Hi & Ha) | (-> & i & Hi & Ha)]]%IH.
  - rewrite lookup_balances_step in Hd. repeat case_bool_decide.
    + injection Hd as <-. right. left. split; [done|]. exists x. split; [left|done].
    + injection Hd as <-. right. right. split; [done|]. exists x. split; [left|done].
    + by left.
  - right. left. split; [done|]. exists i. split; [by right|done].
  - right. right. split; [done|]. exists i. split; [by right|done].
Qed.

(** An address used on a payout chain and on no change chain ends with the
    payout balance ... *)
Lemma balances_fold_payout self l d a :
  (∀ j, j ∈ l → a ∉ first_used self j 1) →
  d !! a = Some (100000, 0) ∨ (∃ i, i ∈ l ∧ a ∈ first_used self i 0) →
  foldl (balances_step self) d l !! a = Some (100000, 0).
Proof.
  revert d. induction l as [|x l IH]; intros d Hnc Hp; simpl.
  - destruct Hp as [?|(i & Hi & _)]; [done|]. by apply not_elem_of_nil in Hi.
  - apply IH; [intros j Hj; apply Hnc; by right|].
    rewrite lookup_balances_step.
    rewrite (bool_decide_eq_false_2 (a ∈ first_used self x 1))
      by (apply Hnc; left).
    case_bool_decide as Hx; [by left|].
    destruct Hp as [?|(i & [->|Hi]%elem_of_cons & Ha)]; [by left|done|].
    right. by exists i.
Qed.

(** ... and one used on a change chain and on no payout chain with the
    change balance. *)
Lemma balances_fold_change self l d a :
  (∀ j, j ∈ l → a ∉ first_used self j 0) →
  d !! a = Some (0, 10000) ∨ (∃ i, i ∈ l ∧ a ∈ first_used self i 1) →
  foldl (balances_step self) d l !! a = Some (0, 10000).
Proof.
  revert d. induction l as [|x l IH]; intros d Hnp Hc; simpl.
  - destruct Hc as [?|(i & Hi & _)]; [done|]. by apply not_elem_of_nil in Hi.
  - apply IH; [intros j Hj; apply Hnp; by right|].
    rewrite lookup_balances_step.
    rewrite (bool_decide_eq_false_2 (a ∈ first_used self x 0))
      by (apply Hnp; left).
    case_bool_decide as Hx; [by left|].
    destruct Hc as [?|(i & [->|Hi]%elem_of_cons & Ha)]; [by left|done|].
    right. by exists i.
Qed.

Lemma chains_disjoint_unfold self :
  chains_disjoint self = true →
  ∀ i j a, 0 ≤ i < _num_used_accounts self → 0 ≤ j < _num_used_accounts self →
    a ∈ first_used self i 0 → a ∉ first_used self j 1.
Proof.
  unfold chains_disjoint. rewrite forallb_forall. intros Hd i j a Hi Hj Ha.
  specialize (Hd i). rewrite forallb_forall in Hd.
  specialize (Hd (proj1 (list_elem_of_In _ _) (proj2 (elem_of_range _ _) Hi)) j).
  rewrite forallb_forall in Hd.
  specialize (Hd (proj1 (list_elem_of_In _ _) (proj2 (elem_of_range _ _) Hj)) a
                 (proj1 (list_elem_of_In _ _) Ha)).
  by apply bool_decide_eq_true in Hd.
Qed.

(** C6.  After [_setup_balances_hd], on a well-formed configuration,
    [get_balance_hd] returns a mapping whose keys are exactly the addresses
    known used: those among the first [num_used_addresses[i][0]] payout
    addresses and the first [num_used_addresses[i][1]] change addresses of an
    account [i < num_used_accounts].  Every value is [(100000, 0)] for an
    address of a payout prefix or [(0, 10000)] for one of a change prefix,
    and, addresses of the two kinds being distinct, each used payout address
    maps to [(100000, 0)] and each used change address to [(0, 10000)].
    With no used account the mapping is empty. *)
Theorem get_balance_hd_used_addresses (self : MockTransactionDataProvider) :
  valid_config self = true →
  let used (change : Z) (a : Address) :=
    ∃ i, 0 ≤ i < _num_used_accounts self ∧ a ∈ first_used self i change in
  ∃ d,
    (_setup_balances_hd self).1 = Py.Ok tt
    ∧ (call_get_balance_hd (_setup_balances_hd self).2).1 = Py.Ok (Returned d)
    ∧ (∀ a, is_Some (d !! a) ↔ used 0 a ∨ used 1 a)
    ∧ (∀ a v, d !! a = Some v →
         (v = (100000, 0) ∧ used 0 a) ∨ (v = (0, 10000) ∧ used 1 a))
    ∧ (chains_disjoint self = true →
       ∀ a, (used 0 a → d !! a = Some (100000, 0))
            ∧ (used 1 a → d !! a = Some (0, 10000)))
    ∧ (_num_used_accounts self = 0 → d = ∅).
Proof.
  intros Hv used.
  exists (foldl (balances_step self) ∅ (Py.range (_num_used_accounts self))).
  unfold _setup_balances_hd, bindM, get_self, lift, modify.
  rewrite balances_hd_ok by done. simpl.
  split; [done|]. split; [done|]. split; [|split; [|split]].
  - intros a. rewrite <- not_eq_None_Some, balances_fold_None, lookup_empty.
    unfold used. split.
    + intros Hn.
      destruct (decide (Exists (λ i, a ∈ first_used self i 0 ∨ a ∈ first_used self i 1)
                          (Py.range (_num_used_accounts self)))) as [Hex|Hnex].
      * apply Exists_exists in Hex as (i & Hi%elem_of_range & [Ha|Ha]);
          [left|right]; by exists i.
      * destruct Hn. split; [done|]. intros i Hi.
        rewrite Exists_exists in Hnex. split; intros Ha; apply Hnex; exists i; auto.
    + intros [(i & Hi & Ha)|(i & Hi & Ha)] [_ Hall];
        apply elem_of_range in Hi; by destruct (Hall i Hi).
  - intros a v [Hd|[(-> & i & Hi%elem_of_range & Ha)|(-> & i & Hi%elem_of_range & Ha)]]
      %balances_fold_Some.
    + by rewrite lookup_empty in Hd.
    + left. split; [done|]. by exists i.
    + right. split; [done|]. by exists i.
  - intros Hdisj a. pose proof (chains_disjoint_unfold _ Hdisj) as Hd. split.
    + intros (i & Hi & Ha). apply balances_fold_payout.
      * intros j Hj%elem_of_range. by apply (Hd i j).
      * right. exists i. by rewrite elem_of_range.
    + intros (i & Hi & Ha). apply balances_fold_change.
      * intros j Hj%elem_of_range Hp. by apply (Hd j i a).
      * right. exists i. by rewrite elem_of_range.
  - intros ->. done.
Qed.

End Balances.

(** ** Construction and key replacement *)

Section Lifecycle.

Context `{Bitcoin}.

(** A loop over [self] whose every pass returns and extends an invariant
    indexed by the items already visited. *)
Lemma for__invariant {X} (I : list X → MockTransactionDataProvider → Prop)
    (l : list X) (body : X → M unit) :
  (∀ visited x s, x ∈ l → I visited s →
     ∃ s', body x s = (Py.Ok tt, s') ∧ I (visited ++ [x]) s') →
  ∀ visited s, I visited s →
    ∃ s', for_ l body s = (Py.Ok tt, s') ∧ I (visited ++ l) s'.
Proof.
  induction l as [|x l IH]; intros Hbody visited s Hs; simpl.
  - exists s. by rewrite app_nil_r.
  - destruct (Hbody visited x s) as (s1 & Hx & Hs1); [apply list_elem_of_here|done|].
    unfold bindM. rewrite Hx.
    destruct (IH (λ v y s0 Hy, Hbody v y s0 (list_elem_of_further _ _ _ Hy))
                 (visited ++ [x]) s1 Hs1) as (s' & Hl & Hs').
    exists s'. split; [done|]. by rewrite <- app_assoc in Hs'.
Qed.

Lemma has_accounts_unfold self :
  has_accounts self = true ↔
  ∀ i, 0 ≤ i < max_accounts → is_Some (_num_used_addresses self !! i).
Proof.
  unfold has_accounts. rewrite forallb_forall. split.
  - intros Hall i Hi. eapply bool_decide_eq_true, Hall, list_elem_of_In, elem_of_range. done.
  - intros Hall i Hi%list_elem_of_In%elem_of_range. by apply bool_decide_eq_true, Hall.
Qed.

Lemma hd_master_key_account_ok keys parent i inner (s : MockTransactionDataProvider) :
  last keys = Some parent →
  _num_used_addresses s !! i = Some inner →
  hd_master_key_account keys i s =
    (Py.Ok tt,
     mkProvider (account_type s)
       (<[i := <[1 := 0]> (<[0 := 0]> inner)]>
          (<[i := <[0 := 0]> inner]> (_num_used_addresses s)))
       (_num_used_accounts s) (self_addr_list s) (_hd_master_key s)
       (<[i := derive_acct_keys parent i]> (_acct_keys s))
       (get_balance_hd s) (get_transactions s)).
Proof.
  intros Hlast Hin.
  unfold hd_master_key_account, num_used_addresses_setitem, bindM, lift, modify,
    get_self, last_item, Py.subscript.
  rewrite Hlast. simpl. rewrite Hin. simpl. by rewrite lookup_insert_eq.
Qed.

Lemma hd_master_key_loop self0 k parent :
  has_accounts self0 = true →
  last (HDKey_from_path k (account_derivation_prefix (account_type self0)))
    = Some parent →
  ∃ s1,
    for_ (Py.range max_accounts)
      (hd_master_key_account
         (HDKey_from_path k (account_derivation_prefix (account_type self0))))
      (set__acct_keys ∅ (set__hd_master_key k self0)) = (Py.Ok tt, s1)
    ∧ setter_inv self0 k parent (Py.range max_accounts) s1.
Proof.
  intros Hacc Hlast. rewrite has_accounts_unfold in Hacc.
  apply (for__invariant (setter_inv self0 k parent) _ _) with (visited := []).
  - intros visited x s Hx%elem_of_range (Ht & Hk & Hn & Ha & Hg & Hdom & Hvis).
    destruct (Hdom x Hx) as [inner Hin].
    eexists. split; [by apply hd_master_key_account_ok|].
    split_and!; simpl; try done.
    + intros i Hi. destruct (decide (i = x)) as [->|Hne].
      * rewrite lookup_insert_eq. eauto.
      * rewrite !lookup_insert_ne by done. auto.
    + intros i Hi. destruct (decide (i = x)) as [->|Hne].
      * rewrite !lookup_insert_eq. split; [done|]. eexists. split; [done|].
        split; [by rewrite lookup_insert_ne, lookup_insert_eq|by rewrite lookup_insert_eq].
      * rewrite !lookup_insert_ne by done.
        apply elem_of_app in Hi as [Hi|Hi%list_elem_of_singleton]; [|done].
        by apply Hvis.
  - split_and!; simpl; try done.
    intros i Hi. by apply not_elem_of_nil in Hi.
Qed.

(** [_setup_balances_hd] touches [get_balance_hd] only. *)
Lemma _setup_balances_hd_frame (s : MockTransactionDataProvider) :
  let s' := (_setup_balances_hd s).2 in
  account_type s' = account_type s
  ∧ _num_used_addresses s' = _num_used_addresses s
  ∧ _num_used_accounts s' = _num_used_accounts s
  ∧ self_addr_list s' = self_addr_list s
  ∧ _hd_master_key s' = _hd_master_key s
  ∧ _acct_keys s' = _acct_keys s
  ∧ get_transactions s' = get_transactions s.
Proof.
  unfold _setup_balances_hd, bindM, get_self, lift, modify.
  destruct (balances_hd s); simpl; done.
Qed.

(** With every counter of the used accounts at zero there is no balance. *)
Lemma balances_hd_zeroed (s : MockTransactionDataProvider) :
  (∀ i, 0 ≤ i < _num_used_accounts s →
     is_Some (_acct_keys s !! i)
     ∧ ∃ inner, _num_used_addresses s !! i = Some inner ∧ zeroed inner) →
  balances_hd s = Py.Ok ∅.
Proof.
  intros Hall. unfold balances_hd.
  rewrite (for_local_pure _ _ (λ d _, d)).
  - f_equal. by induction (Py.range _).
  - intros i d Hi%elem_of_range.
    destruct (Hall i Hi) as ([keys Hk] & inner & Hin & H0 & H1).
    unfold num_used_addresses_getitem, Py.subscript.
    rewrite Hk, Hin. simpl. rewrite H0, H1. simpl.
    by rewrite !slice_to_take.
Qed.

(** The setter is its account loop followed by [_setup_balances_hd]. *)
Lemma hd_master_key_setter_unfold self k parent :
  has_accounts self = true →
  last (HDKey_from_path k (account_derivation_prefix (account_type self)))
    = Some parent →
  ∃ s1,
    hd_master_key_setter k self = _setup_balances_hd s1
    ∧ setter_inv self k parent (Py.range max_accounts) s1.
Proof.
  intros Hacc Hlast.
  destruct (hd_master_key_loop self k parent Hacc Hlast) as (s1 & Hloop & Hinv).
  exists s1. split; [|done].
  unfold hd_master_key_setter, bindM, modify, get_self. cbv beta iota zeta.
  change (account_type (set__acct_keys ∅ (set__hd_master_key k self)))
    with (account_type self).
  by rewrite Hloop.
Qed.

(** C7.  After an assignment to [hd_master_key] on a provider that has its
    accounts, the master key is the new one and, for every account index
    [i < max_accounts], the entry of account [i] (account, payout and change
    keys and both address tables) is the one derived from the new key, and
    [num_used_addresses[i][0]] and [num_used_addresses[i][1]] are 0.  When
    the number of used accounts does not exceed [max_accounts] the
    assignment completes and [get_balance_hd] then reports no balance. *)
Theorem hd_master_key_replaced_resets (self : MockTransactionDataProvider)
    (k parent : HDKey) :
  has_accounts self = true →
  last (HDKey_from_path k (account_derivation_prefix (account_type self)))
    = Some parent →
  let self' := (hd_master_key_setter k self).2 in
  _hd_master_key self' = k
  ∧ (∀ i, 0 ≤ i < max_accounts →
       _acct_keys self' !! i = Some (derive_acct_keys parent i)
       ∧ num_used_addresses_getitem self' i 0 = Py.Ok 0
       ∧ num_used_addresses_getitem self' i 1 = Py.Ok 0)
  ∧ (_num_used_accounts self ≤ max_accounts →
     (hd_master_key_setter k self).1 = Py.Ok tt
     ∧ (call_get_balance_hd self').1 = Py.Ok (Returned ∅)).
Proof.
  intros Hacc Hlast self'.
  destruct (hd_master_key_setter_unfold self k parent Hacc Hlast)
    as (s1 & Hsetter & Hinv).
  unfold self'. rewrite Hsetter.
  destruct (_setup_balances_hd_frame s1) as (_ & Hnu & Hn & _ & Hkey & Hkeys & _).
  destruct Hinv as (_ & Hk & Hn1 & _ & _ & _ & Hvis).
  split; [by rewrite Hkey|]. split.
  - intros i Hi%elem_of_range. destruct (Hvis i Hi) as (Hd & inner & Hin & H0 & H1).
    unfold num_used_addresses_getitem, Py.subscript.
    rewrite Hkeys, Hnu, Hin. simpl. by rewrite H0, H1.
  - intros Hle.
    assert (balances_hd s1 = Py.Ok ∅) as Hbal.
    { apply balances_hd_zeroed. intros i Hi.
      destruct (Hvis i) as (Hd & Hz); [apply elem_of_range; lia|].
      split; [by rewrite Hd|done]. }
    unfold _setup_balances_hd, bindM, get_self, lift, modify.
    rewrite Hbal. done.
Qed.

(** *** The constructor *)

Lemma init_loop (self0 : MockTransactionDataProvider) :
  ∃ s1,
    for_ (Py.range max_accounts) init_account self0 = (Py.Ok tt, s1)
    ∧ account_type s1 = account_type self0
    ∧ _num_used_accounts s1 = _num_used_accounts self0
    ∧ self_addr_list s1 = self_addr_list self0
    ∧ _hd_master_key s1 = _hd_master_key self0
    ∧ get_transactions s1 = get_transactions self0
    ∧ ∀ i, 0 ≤ i < max_accounts → is_Some (_num_used_addresses s1 !! i).
Proof.
  set (I := λ (visited : list Z) (s : MockTransactionDataProvider),
       account_type s = account_type self0
       ∧ _num_used_accounts s = _num_used_accounts self0
       ∧ self_addr_list s = self_addr_list self0
       ∧ _hd_master_key s = _hd_master_key self0
       ∧ get_transactions s = get_transactions self0
       ∧ ∀ i, i ∈ visited → is_Some (_num_used_addresses s !! i)).
  assert (∀ visited x s, x ∈ Py.range max_accounts → I visited s →
            ∃ s', init_account x s = (Py.Ok tt, s') ∧ I (visited ++ [x]) s') as Hstep.
  { intros visited x s _ (Ht & Hn & Ha & Hk & Hg & Hvis).
    eexists. split; [done|]. unfold I. split_and!; simpl; try done.
    intros i [Hi|Hi%list_elem_of_singleton]%elem_of_app.
    + destruct (decide (i = x)) as [->|Hne]; [by rewrite lookup_insert_eq|].
      rewrite lookup_insert_ne by done. auto.
    + subst. by rewrite lookup_insert_eq. }
  assert (I [] self0) as Hstart.
  { unfold I. split_and!; try done. intros i Hi. by apply not_elem_of_nil in Hi. }
  destruct (for__invariant I _ _ Hstep [] self0 Hstart) as (s1 & Hloop & Hinv).
  destruct Hinv as (Ht & Hn & Ha & Hk & Hg & Hvis).
  exists s1. split_and!; try done.
  intros i Hi. by apply Hvis, elem_of_range.
Qed.

(** A constructor call whose [hd_account_type] resolves (and whose
    derivation path has keys) returns a provider with the resolved account
    type, the given master key, no used account, every account derived and
    zeroed, an empty balance mapping and an unscripted [get_transactions]. *)
Lemma init_ok hd_account_type k non_hd_addr_list t parent :
  resolve_account_type hd_account_type = Py.Ok t →
  last (HDKey_from_path k (account_derivation_prefix t)) = Some parent →
  ∃ self,
    init hd_account_type k non_hd_addr_list = Py.Ok self
    ∧ account_type self = t
    ∧ _hd_master_key self = k
    ∧ _num_used_accounts self = 0
    ∧ self_addr_list self = non_hd_addr_list
    ∧ get_balance_hd self = {| return_value := Some ∅; side_effect := None |}
    ∧ get_transactions self = MagicMock_new
    ∧ ∀ i, 0 ≤ i < max_accounts →
        _acct_keys self !! i = Some (derive_acct_keys parent i)
        ∧ ∃ inner, _num_used_addresses self !! i = Some inner ∧ zeroed inner.
Proof.
  intros Hres Hlast. unfold init. rewrite Hres. cbn [Py.bind]. cbv zeta.
  set (self0 := mkProvider t ∅ 0 [] k ∅ MagicMock_new MagicMock_new).
  destruct (init_loop self0) as (s1 & Hloop & Ht1 & Hn1 & Ha1 & Hk1 & Hg1 & Hdom1).
  unfold bindM at 1. rewrite Hloop. cbv beta iota.
  unfold bindM at 1, modify at 1. cbv beta iota.
  set (s2 := set_self_addr_list non_hd_addr_list s1).
  assert (has_accounts s2 = true) as Hacc by (by apply has_accounts_unfold).
  assert (account_type s2 = t) as Ht2 by done.
  destruct (hd_master_key_setter_unfold s2 k parent Hacc) as (s3 & Hsetter & Hinv);
    [by rewrite Ht2|].
  destruct Hinv as (Ht3 & Hk3 & Hn3 & Ha3 & Hg3 & Hdom3 & Hvis3).
  assert (_num_used_accounts s3 = 0) as Hz3 by (by rewrite Hn3).
  assert (balances_hd s3 = Py.Ok ∅) as Hbal3.
  { apply balances_hd_zeroed. intros i Hi. lia. }
  unfold bindM at 1. rewrite Hsetter.
  unfold _setup_balances_hd at 1, bindM at 1 2, get_self at 1, lift at 1, modify at 1.
  rewrite Hbal3. cbv beta iota.
  unfold bindM at 1 2, modify at 1 2. cbv beta iota.
  set (s4 := set_get_transactions MagicMock_new _).
  assert (balances_hd s4 = Py.Ok ∅) as Hbal4.
  { apply balances_hd_zeroed. intros i Hi. simpl in Hi. lia. }
  unfold _setup_balances_hd, bindM, get_self, lift, modify.
  rewrite Hbal4. cbv beta iota.
  eexists. split; [done|]. simpl. split_and!; try done.
  - by rewrite Ht3.
  - intros i Hi. apply Hvis3, elem_of_range. done.
Qed.

(** Without a key on the derivation path, [keys[-1]] fails in the first
    pass of the setter's loop and the constructor raises [IndexError]. *)
Lemma init_no_keys hd_account_type k non_hd_addr_list t :
  resolve_account_type hd_account_type = Py.Ok t →
  last (HDKey_from_path k (account_derivation_prefix t)) = None →
  init hd_account_type k non_hd_addr_list = Py.Raise Py.IndexError.
Proof.
  intros Hres Hlast%last_None.
  unfold init. rewrite Hres. cbn [Py.bind]. cbv zeta.
  set (self0 := mkProvider t ∅ 0 [] k ∅ MagicMock_new MagicMock_new).
  destruct (init_loop self0) as (s1 & Hloop & Ht1 & _).
  unfold bindM at 1. rewrite Hloop. cbv beta iota.
  unfold bindM at 1, modify at 1. cbv beta iota.
  unfold bindM at 1, hd_master_key_setter, bindM at 1 2 3 4,
    modify at 1 2, get_self at 1. cbv beta iota zeta.
  change (account_type (set__acct_keys ∅ (set__hd_master_key k
            (set_self_addr_list non_hd_addr_list s1))))
    with (account_type s1).
  rewrite Ht1. change (account_type self0) with t. rewrite Hlast.
  unfold max_accounts.
  change (Py.range 10) with (0 :: Py.range2 1 10).
  cbn [for_]. unfold bindM at 1, hd_master_key_account at 1, bindM at 1,
    lift at 1, last_item. cbn [last]. done.
Qed.

(** C10.  [MockTransactionDataProvider.__init__] raises [ValueError] when
    [hd_account_type] is a string that is not a key of [account_types],
    raises [TypeError] when it is neither a string nor an [AccountType]
    object, and in the two remaining cases (a known string, an [AccountType]
    object) stores the resolved [AccountType]: whenever the constructor
    returns, [account_type] is the table entry of the string or the object
    itself, and it does return once the derivation path has keys. *)
Theorem init_validates_account_type hd_account_type (k : HDKey)
    (non_hd_addr_list : list Address) :
  match hd_account_type with
  | PyStr s =>
      match account_types !! s with
      | None => init hd_account_type k non_hd_addr_list = Py.Raise Py.ValueError
      | Some t =>
          (∀ self, init hd_account_type k non_hd_addr_list = Py.Ok self →
             account_type self = t)
          ∧ (HDKey_from_path k (account_derivation_prefix t) ≠ [] →
             ∃ self, init hd_account_type k non_hd_addr_list = Py.Ok self
                     ∧ account_type self = t)
      end
  | PyAccountType t =>
      (∀ self, init hd_account_type k non_hd_addr_list = Py.Ok self →
         account_type self = t)
      ∧ (HDKey_from_path k (account_derivation_prefix t) ≠ [] →
         ∃ self, init hd_account_type k non_hd_addr_list = Py.Ok self
                 ∧ account_type self = t)
  | PyOther => init hd_account_type k non_hd_addr_list = Py.Raise Py.TypeError
  end.
Proof.
  assert (∀ t, resolve_account_type hd_account_type = Py.Ok t →
    (∀ self, init hd_account_type k non_hd_addr_list = Py.Ok self →
       account_type self = t)
    ∧ (HDKey_from_path k (account_derivation_prefix t) ≠ [] →
       ∃ self, init hd_account_type k non_hd_addr_list = Py.Ok self
               ∧ account_type self = t)) as Hok.
  { intros t Hres.
    destruct (last (HDKey_from_path k (account_derivation_prefix t)))
      as [parent|] eqn:Hlast.
    - destruct (init_ok _ k non_hd_addr_list t parent Hres Hlast)
        as (self & Hinit & Ht & _).
      split; [|by eauto]. intros self' Hinit'. congruence.
    - split.
      + intros self Hinit.
        by rewrite (init_no_keys _ k non_hd_addr_list t Hres Hlast) in Hinit.
      + intros Hne. by apply last_None in Hlast. }
  destruct hd_account_type as [s| t|]; simpl.
  - destruct (account_types !! s) as [t|] eqn:Hs.
    + apply Hok. simpl. by rewrite Hs.
    + unfold init. simpl. by rewrite Hs.
  - by apply Hok.
  - done.
Qed.

(** *** Well-formed configurations are what the methods produce *)

Lemma valid_config_intro (self : MockTransactionDataProvider) :
  valid_constants = true →
  0 ≤ _num_used_accounts self ≤ max_accounts →
  (∀ i, 0 ≤ i < max_accounts → valid_account self i = true) →
  valid_config self = true.
Proof.
  intros Hc Hn Hall. unfold valid_config.
  rewrite !andb_true_iff, forallb_forall, !Z.leb_le. split_and!; try done; try lia.
  intros i Hi%list_elem_of_In%elem_of_range. by apply Hall.
Qed.

Lemma valid_config_constants (self : MockTransactionDataProvider) :
  valid_config self = true → valid_constants = true.
Proof. unfold valid_config. rewrite !andb_true_iff. tauto. Qed.

(** The configuration only depends on the counters, the number of used
    accounts and the key entries. *)
Lemma valid_config_ext (s s' : MockTransactionDataProvider) :
  _num_used_addresses s' = _num_used_addresses s →
  _num_used_accounts s' = _num_used_accounts s →
  _acct_keys s' = _acct_keys s →
  valid_config s' = valid_config s.
Proof.
  intros Hnu Hn Hk. unfold valid_config, valid_account. by rewrite Hnu, Hn, Hk.
Qed.

Lemma valid_count_zero : valid_constants = true → valid_count 0 = true.
Proof.
  unfold valid_constants, valid_count. rewrite !andb_true_iff.
  intros [_ Hf]. split; [done|]. by rewrite Z.add_0_l.
Qed.

(** The constructor returns a well-formed configuration. *)
Lemma init_valid_config hd_account_type k non_hd_addr_list self :
  valid_constants = true →
  init hd_account_type k non_hd_addr_list = Py.Ok self →
  valid_config self = true.
Proof.
  intros Hc Hinit.
  destruct (resolve_account_type hd_account_type) as [t|e] eqn:Hres;
    [|by unfold init in Hinit; rewrite Hres in Hinit].
  destruct (last (HDKey_from_path k (account_derivation_prefix t)))
    as [parent|] eqn:Hlast;
    [|by rewrite (init_no_keys _ k non_hd_addr_list t Hres Hlast) in Hinit].
  destruct (init_ok _ k non_hd_addr_list t parent Hres Hlast)
    as (self' & Hinit' & _ & _ & Hn & _ & _ & _ & Hall).
  assert (self' = self) as -> by congruence.
  apply valid_config_intro; [done|rewrite Hn; unfold max_accounts; lia|].
  intros i Hi. destruct (Hall i Hi) as (Hk & inner & Hin & H0 & H1).
  unfold valid_account. rewrite Hin, Hk, H0, H1.
  by rewrite valid_count_zero.
Qed.

(** [set_num_used_accounts] with a count up to [max_accounts] returns and
    keeps the configuration well formed. *)
Lemma set_num_used_accounts_valid (self : MockTransactionDataProvider) n :
  valid_config self = true → 0 ≤ n ≤ max_accounts →
  ∃ self',
    set_num_used_accounts n self = (Py.Ok tt, self')
    ∧ valid_config self' = true
    ∧ _num_used_accounts self' = n
    ∧ _num_used_addresses self' = _num_used_addresses self
    ∧ _acct_keys self' = _acct_keys self.
Proof.
  intros Hv Hn.
  set (s1 := set__num_used_accounts n self).
  assert (valid_config s1 = true) as Hv1.
  { pose proof (valid_config_unfold _ Hv) as (_ & _ & _ & Hall).
    apply valid_config_intro; [by eapply valid_config_constants|done|done]. }
  unfold set_num_used_accounts, bindM at 1, modify at 1. cbv beta iota. fold s1.
  destruct (_setup_balances_hd_frame s1) as (_ & Hnu & Hn' & _ & _ & Hk & _).
  unfold _setup_balances_hd, bindM, get_self, lift, modify in *.
  rewrite (balances_hd_ok s1 Hv1) in *. cbv beta iota in *. simpl in *.
  eexists. split; [done|]. split_and!; try done.
Qed.

(** [set_num_used_addresses] on an account below [max_accounts], for one of
    the two chains and with an admissible count, returns, stores the count
    and keeps the configuration well formed. *)
Lemma set_num_used_addresses_valid (self : MockTransactionDataProvider)
    account_index n change :
  valid_config self = true →
  0 ≤ account_index < max_accounts → change = 0 ∨ change = 1 →
  valid_count n = true →
  ∃ self',
    set_num_used_addresses account_index n change self = (Py.Ok tt, self')
    ∧ valid_config self' = true
    ∧ num_used_addresses_getitem self' account_index change = Py.Ok n
    ∧ _num_used_accounts self' = _num_used_accounts self
    ∧ _acct_keys self' = _acct_keys self.
Proof.
  intros Hv Hi Hc Hn.
  pose proof (valid_config_unfold _ Hv) as (_ & _ & Hacc & Hall).
  destruct (valid_account_unfold _ _ (Hall _ Hi))
    as (inner & keys & n0 & n1 & Hin & Hk & H0 & H1 & _).
  set (s1 := set__num_used_addresses
               (<[account_index := <[change := n]> inner]> (_num_used_addresses self)) self).
  assert (valid_config s1 = true) as Hv1.
  { apply valid_config_intro; [by eapply valid_config_constants|done|].
    intros i Hi'. specialize (Hall i Hi'). unfold valid_account in *. simpl.
    destruct (decide (i = account_index)) as [->|Hne].
    - rewrite lookup_insert_eq. rewrite Hin, Hk in *. rewrite H0, H1 in Hall.
      apply andb_true_iff in Hall as [Hv0 Hv1].
      destruct Hc as [-> | ->].
      + rewrite lookup_insert_eq, lookup_insert_ne, H1 by done. by rewrite Hn, Hv1.
      + rewrite lookup_insert_ne, lookup_insert_eq, H0 by done. by rewrite Hn, Hv0.
    - by rewrite lookup_insert_ne. }
  unfold set_num_used_addresses, bindM at 1, num_used_addresses_setitem,
    bindM at 1 2, get_self at 1, lift at 1, modify at 1, Py.subscript.
  rewrite Hin. cbv beta iota. fold s1.
  unfold _setup_balances_hd, bindM, get_self, lift, modify.
  rewrite (balances_hd_ok s1 Hv1). cbv beta iota.
  eexists. split; [done|]. split_and!; try done.
  unfold num_used_addresses_getitem, Py.subscript. simpl.
  rewrite lookup_insert_eq. simpl. by rewrite lookup_insert_eq.
Qed.

(** Without a key on the derivation path the setter raises [IndexError]. *)
Lemma hd_master_key_setter_no_keys (self : MockTransactionDataProvider) k :
  last (HDKey_from_path k (account_derivation_prefix (account_type self))) = None →
  (hd_master_key_setter k self).1 = Py.Raise Py.IndexError.
Proof.
  intros Hlast%last_None.
  unfold hd_master_key_setter, bindM at 1 2 3 4, modify at 1 2, get_self at 1.
  cbv beta iota zeta.
  change (account_type (set__acct_keys ∅ (set__hd_master_key k self)))
    with (account_type self).
  rewrite Hlast. unfold max_accounts.
  change (Py.range 10) with (0 :: Py.range2 1 10).
  cbn [for_]. unfold bindM at 1, hd_master_key_account at 1, bindM at 1,
    lift at 1, last_item. cbn [last]. done.
Qed.

Lemma valid_config_has_accounts (self : MockTransactionDataProvider) :
  valid_config self = true → has_accounts self = true.
Proof.
  intros Hv. apply has_accounts_unfold. intros i Hi.
  apply valid_config_unfold in Hv as (_ & _ & _ & Hall).
  destruct (valid_account_unfold _ _ (Hall i Hi)) as (inner & _ & _ & _ & Hin & _).
  by rewrite Hin.
Qed.

(** A key replacement that completes keeps the configuration well formed. *)
Lemma hd_master_key_setter_valid (self self' : MockTransactionDataProvider) k :
  valid_config self = true →
  hd_master_key_setter k self = (Py.Ok tt, self') →
  valid_config self' = true.
Proof.
  intros Hv Hset.
  destruct (last (HDKey_from_path k (account_derivation_prefix (account_type self))))
    as [parent|] eqn:Hlast;
    [|by rewrite (surjective_pairing (hd_master_key_setter k self)),
         (hd_master_key_setter_no_keys _ _ Hlast) in Hset].
  destruct (hd_master_key_setter_unfold self k parent
              (valid_config_has_accounts _ Hv) Hlast) as (s1 & Heq & Hinv).
  destruct Hinv as (_ & _ & Hn & _ & _ & _ & Hvis).
  destruct (_setup_balances_hd_frame s1) as (_ & Hnu' & Hn' & _ & _ & Hk' & _).
  rewrite <- Heq, Hset in Hnu', Hn', Hk'. simpl in Hnu', Hn', Hk'.
  pose proof (valid_config_unfold _ Hv) as (_ & _ & Hacc & _).
  apply valid_config_intro; [by eapply valid_config_constants|by rewrite Hn', Hn|].
  intros i Hi%elem_of_range. destruct (Hvis i Hi) as (Hk & inner & Hin & H0 & H1).
  unfold valid_account. rewrite Hnu', Hk', Hin, Hk, H0, H1.
  by rewrite valid_count_zero by (by eapply valid_config_constants).
Qed.

(** Every reachable state is a well-formed configuration. *)
Lemma reachable_valid_config (self : MockTransactionDataProvider) :
  valid_constants = true → reachable self → valid_config self = true.
Proof.
  intros Hc. induction 1 as
    [a k l self Hinit
    |self n self' _ IH Hn Hset
    |self ai n c self' _ IH Hai Hch Hn Hset
    |self k self' _ IH Hset
    |self r self' _ IH Hset
    |self ai addr c r self' _ IH Hset
    |self r self' _ IH Hcall].
  - by eapply init_valid_config.
  - destruct (set_num_used_accounts_valid self n IH Hn) as (s & Hs & Hv & _).
    congruence.
  - destruct (set_num_used_addresses_valid self ai n c IH Hai Hch Hn)
      as (s & Hs & Hv & _).
    congruence.
  - by eapply hd_master_key_setter_valid.
  - rewrite <- IH. revert Hset.
    unfold set_txn_side_effect_for_hd_discovery, bindM, get_self, lift, modify, ret.
    destruct (discovery_effects self); intros [= _ <-]; by apply valid_config_ext.
  - rewrite <- IH. revert Hset.
    unfold set_txn_side_effect_for_index, bindM, get_self, lift, modify.
    destruct (Py.subscript _ _); intros [= _ <-]; by apply valid_config_ext.
  - rewrite <- IH. revert Hcall.
    unfold call_get_transactions.
    destruct (MagicMock_call _) as [r' m]. intros [= _ <-].
    by apply valid_config_ext.
Qed.

End Lifecycle.

(** ** [stop_walletd] *)

Section StopWalletdFacts.

Context {D : Type} (daemonizer : Daemonizer D).

Lemma stop_walletd_try_cases :
  match stop_walletd_try daemonizer false with
  | Py.Ok true => stop_reported_failure daemonizer
  | Py.Ok false => nothing_failed daemonizer
  | Py.Raise e => daemonizer_raised daemonizer e
  end.
Proof.
  unfold stop_walletd_try, daemonizer_raised, stop_reported_failure, nothing_failed.
  destruct (get_daemonizer daemonizer) as [d|e]; simpl; [|by left].
  destruct (started daemonizer d) as [[|]|e] eqn:Hs; simpl.
  - destruct (stop daemonizer d) as [[|]|e] eqn:Hp; simpl.
    + exists d. auto.
    + exists d. auto.
    + right. exists d. auto.
  - exists d. auto.
  - right. exists d. auto.
Qed.

(** The three outcomes of the suite exclude one another. *)
Lemma stop_walletd_try_exclusive :
  (stop_reported_failure daemonizer →
   stop_walletd_try daemonizer false = Py.Ok true)
  ∧ (nothing_failed daemonizer →
     stop_walletd_try daemonizer false = Py.Ok false)
  ∧ (∀ e, daemonizer_raised daemonizer e →
       stop_walletd_try daemonizer false = Py.Raise e).
Proof.
  unfold stop_walletd_try, daemonizer_raised, stop_reported_failure, nothing_failed.
  split_and!.
  - intros (d & -> & Hs & Hp). simpl. rewrite Hs. simpl. by rewrite Hp.
  - intros (d & -> & [Hs|[Hs Hp]]); simpl; rewrite Hs; simpl; [done|by rewrite Hp].
  - intros e [->|(d & -> & [Hs|[Hs Hp]])]; simpl; [done| |].
    + by rewrite Hs.
    + rewrite Hs. simpl. by rewrite Hp.
Qed.

Lemma stop_walletd_total :
  stop_reported_failure daemonizer ∨ nothing_failed daemonizer
  ∨ ∃ e, daemonizer_raised daemonizer e.
Proof.
  pose proof stop_walletd_try_cases as Hcases.
  destruct (stop_walletd_try daemonizer false) as [[|]|e]; eauto.
Qed.

Lemma stop_walletd_failure :
  stop_reported_failure daemonizer → stop_walletd daemonizer = Py.Ok false.
Proof.
  intros Hf. unfold stop_walletd.
  by rewrite (proj1 stop_walletd_try_exclusive Hf).
Qed.

Lemma stop_walletd_nothing_failed :
  nothing_failed daemonizer → stop_walletd daemonizer = Py.Ok true.
Proof.
  intros Hn. unfold stop_walletd.
  by rewrite (proj1 (proj2 stop_walletd_try_exclusive) Hn).
Qed.

(** The two [except] clauses, and the exceptions they let through. *)
Lemma stop_walletd_raised e :
  daemonizer_raised daemonizer e →
  stop_walletd daemonizer =
    match e with
    | Py.OSError => Py.Ok true
    | Py.DaemonizerError => Py.Ok false
    | _ => Py.Raise e
    end.
Proof.
  intros Hr. unfold stop_walletd.
  rewrite (proj2 (proj2 stop_walletd_try_exclusive) e Hr). by destruct e.
Qed.

(** C9 (as amended).  [stop_walletd] returns a boolean whenever every
    daemonizer call it makes returns or raises [OSError] or
    [DaemonizerError]; any other exception propagates.  It returns [False]
    exactly when the daemon was running and stopping it reported failure, or
    when one of the calls ([get_daemonizer], [started], [stop]) raised
    [DaemonizerError]; it returns [True] exactly when nothing failed or one of
    the calls raised [OSError], which is swallowed. *)
Theorem stop_walletd_outcome :
  (stop_walletd daemonizer = Py.Ok false ↔
     stop_reported_failure daemonizer
     ∨ daemonizer_raised daemonizer Py.DaemonizerError)
  ∧ (stop_walletd daemonizer = Py.Ok true ↔
       nothing_failed daemonizer ∨ daemonizer_raised daemonizer Py.OSError)
  ∧ (∀ e, stop_walletd daemonizer = Py.Raise e ↔
       daemonizer_raised daemonizer e
       ∧ e ≠ Py.OSError ∧ e ≠ Py.DaemonizerError)
  ∧ (get_daemonizer daemonizer = Py.Raise Py.OSError →
     stop_walletd daemonizer = Py.Ok true).
Proof.
  split_and!.
  - split.
    + intros Hres. destruct stop_walletd_total as [Hf|[Hn|[e Hr]]].
      * by left.
      * rewrite (stop_walletd_nothing_failed Hn) in Hres. done.
      * rewrite (stop_walletd_raised e Hr) in Hres.
        destruct e; try done. by right.
    + intros [Hf|Hr]; [by apply stop_walletd_failure|].
      by rewrite (stop_walletd_raised _ Hr).
  - split.
    + intros Hres. destruct stop_walletd_total as [Hf|[Hn|[e Hr]]].
      * rewrite (stop_walletd_failure Hf) in Hres. done.
      * by left.
      * rewrite (stop_walletd_raised e Hr) in Hres.
        destruct e; try done. by right.
    + intros [Hn|Hr]; [by apply stop_walletd_nothing_failed|].
      by rewrite (stop_walletd_raised _ Hr).
  - intros e. split.
    + intros Hres. destruct stop_walletd_total as [Hf|[Hn|[e' Hr]]].
      * rewrite (stop_walletd_failure Hf) in Hres. done.
      * rewrite (stop_walletd_nothing_failed Hn) in Hres. done.
      * rewrite (stop_walletd_raised e' Hr) in Hres.
        destruct e'; try done; injection Hres as <-; done.
    + intros (Hr & Hos & Hde). rewrite (stop_walletd_raised e Hr).
      by destruct e.
  - intros Hg. apply (stop_walletd_raised Py.OSError). by left.
Qed.

End StopWalletdFacts.

(** ** Scenario A *)

Section ScenarioA.

Context `{Bitcoin}.

(** What a response of the discovery script answers for the address at
    position [i] of its own table, when the table has no repetition. *)
Lemma getitem_discovery_response num_used (table : list Address) (batch : Z)
    (i : nat) a :
  NoDup table → table !! i = Some a →
  getitem (discovery_response num_used table batch) a =
    if is_used (Z.of_nat i) num_used
         (mkRange (batch * address_increment) ((batch + 1) * address_increment))
    then [dummy_txn] else [].
Proof.
  intros Hnd Hi. unfold getitem, discovery_response.
  by rewrite (contains_at_index _ _ _ _ _ i a Hnd Hi).
Qed.

(** C3 (as amended).  In Scenario A (payout chain of account 0 with
    addresses 0-2 used, change chain with addresses 0-4 used,
    [increment = 20], [gap_limit = 20]) two [get_transactions] responses are
    scripted per chain.  The first reports as used exactly the addresses at
    indices 0-2 of the payout chain, respectively 0-4 of the change chain,
    and the second reports none: the highest used index is 2 on the payout
    chain and 4 on the change chain. *)
Theorem scenario_A_two_batches_per_chain (self : MockTransactionDataProvider) :
  DISCOVERY_INCREMENT = 20 → GAP_LIMIT = 20 →
  valid_config self = true →
  num_used_addresses_getitem self 0 0 = Py.Ok 3 →
  num_used_addresses_getitem self 0 1 = Py.Ok 5 →
  NoDup (chain_table self 0 0) → NoDup (chain_table self 0 1) →
  ∃ p0 p1 c0 c1,
    scripted_for self 0 0 = [p0; p1]
    ∧ scripted_for self 0 1 = [c0; c1]
    ∧ (∀ (i : nat) a, chain_table self 0 0 !! i = Some a →
         getitem p0 a = (if bool_decide (i ≤ 2)%nat then [dummy_txn] else [])
         ∧ getitem p1 a = [])
    ∧ (∀ (i : nat) a, chain_table self 0 1 !! i = Some a →
         getitem c0 a = (if bool_decide (i ≤ 4)%nat then [dummy_txn] else [])
         ∧ getitem c1 a = []).
Proof.
  intros Hinc Hgap Hv Hn0 Hn1 Hnd0 Hnd1.
  assert (0 ≤ 0 < max_accounts) as Hacct by (unfold max_accounts; lia).
  destruct (length_scripted_for self 0 0 3 Hv Hacct (or_introl eq_refl) Hn0)
    as (_ & keys & Hk & Hs0).
  destruct (length_scripted_for self 0 1 5 Hv Hacct (or_intror eq_refl) Hn1)
    as (_ & keys1 & Hk1 & Hs1).
  assert (keys1 = keys) as -> by congruence.
  unfold chain_table in *. rewrite Hk in *.
  assert (address_increment = 20) as Hai by done.
  rewrite Hgap, Hai in Hs0, Hs1.
  change (Py.range (Z.max 1 (Py.ceil_div (3 + 20) 20))) with [0; 1] in Hs0.
  change (Py.range (Z.max 1 (Py.ceil_div (5 + 20) 20))) with [0; 1] in Hs1.
  eexists _, _, _, _. split; [exact Hs0|]. split; [exact Hs1|].
  assert (∀ (n : Z) (i : nat), 0 < n ≤ 20 →
            is_used (Z.of_nat i) n (mkRange (0 * 20) ((0 + 1) * 20))
              = bool_decide (Z.of_nat i < n)) as Hfirst.
  { intros n i Hn. apply eq_true_iff_eq.
    rewrite is_used_true, bool_decide_eq_true. simpl. lia. }
  assert (∀ (n : Z) (i : nat), n ≤ 20 →
            is_used (Z.of_nat i) n (mkRange (1 * 20) ((1 + 1) * 20)) = false)
    as Hsecond.
  { intros n i Hn. apply not_true_iff_false.
    rewrite is_used_true. simpl. lia. }
  split.
  - intros i a Hi. rewrite !(getitem_discovery_response _ _ _ i a Hnd0 Hi), Hai.
    rewrite Hfirst, Hsecond by lia. split; [|done].
    by rewrite (bool_decide_ext (Z.of_nat i < 3) (i ≤ 2)%nat) by lia.
  - intros i a Hi. rewrite !(getitem_discovery_response _ _ _ i a Hnd1 Hi), Hai.
    rewrite Hfirst, Hsecond by lia. split; [|done].
    by rewrite (bool_decide_ext (Z.of_nat i < 5) (i ≤ 4)%nat) by lia.
Qed.

End ScenarioA.

(** ** The scan of the specification, run against the script *)

Section Scan.

Context `{Bitcoin}.

(** A response without used addresses answers nothing for any address. *)
Lemma getitem_none_used (d : MockTxnDict Address (list Transaction)) a :
  num_used d = 0 → unused_value d = [] → getitem d a = [].
Proof.
  intros Hn Hu. unfold getitem, contains. rewrite Hn. simpl. done.
Qed.

Lemma filter_none {A} (f : A → bool) (l : list A) :
  (∀ x, f x = false) → List.filter f l = [].
Proof.
  intros Hf. induction l as [|x l IH]; [done|]. simpl. by rewrite Hf.
Qed.

(** Over responses that report no used address the scan issues one batch
    per response until the unused run reaches the gap limit. *)
Lemma scan_chain_unused derive ds rest probe_index :
  Forall (λ d, num_used d = 0 ∧ unused_value d = []) ds →
  ds ≠ [] →
  (∀ t : nat, (S t < length ds)%nat →
     probe_index + (Z.of_nat t + 1) * DISCOVERY_INCREMENT < GAP_LIMIT) →
  GAP_LIMIT ≤ probe_index + Z.of_nat (length ds) * DISCOVERY_INCREMENT →
  scan_chain derive (ds ++ rest) probe_index (-1) = Py.Ok (-1, length ds, rest).
Proof.
  revert probe_index. induction ds as [|d ds IH]; intros p Hall Hne Hlt Hge; [done|].
  apply Forall_cons in Hall as [[Hn Hu] Hall].
  cbn [app scan_chain]. cbv zeta.
  rewrite filter_none by (intros i; by rewrite getitem_none_used).
  cbn [foldl].
  destruct ds as [|d' ds'].
  - simpl in Hge. destruct (Z.leb_spec GAP_LIMIT (p + DISCOVERY_INCREMENT - 1 - -1));
      [done|lia].
  - pose proof (Hlt 0%nat ltac:(simpl; lia)) as Hfirst.
    destruct (Z.leb_spec GAP_LIMIT (p + DISCOVERY_INCREMENT - 1 - -1)); [lia|].
    rewrite (IH (p + DISCOVERY_INCREMENT)); [done|done|done| |].
    + intros t Ht. pose proof (Hlt (S t) ltac:(simpl in *; lia)). lia.
    + simpl length in *. lia.
Qed.

(** The scan of a chain without used addresses consumes exactly the
    responses scripted for it, [max(1, ceil(GAP_LIMIT / increment))] of them,
    and reports no used index. *)
Lemma scan_chain_empty_chain (self : MockTransactionDataProvider) acct change
    derive rest :
  valid_config self = true →
  0 ≤ acct < max_accounts → change = 0 ∨ change = 1 →
  num_used_addresses_getitem self acct change = Py.Ok 0 →
  scan_chain derive (scripted_for self acct change ++ rest) 0 (-1)
    = Py.Ok (-1, length (scripted_for self acct change), rest)
  ∧ Z.of_nat (length (scripted_for self acct change))
      = Z.max 1 (Py.ceil_div GAP_LIMIT address_increment).
Proof.
  intros Hv Hacct Hc Hget.
  destruct (length_scripted_for self acct change 0 Hv Hacct Hc Hget)
    as (Hlen & keys & Hk & Heq).
  rewrite Z.add_0_l in Hlen, Heq.
  pose proof (valid_config_unfold _ Hv) as (Hinc & Hgap & _ & _).
  unfold address_increment in *.
  set (m := Z.max 1 (Py.ceil_div GAP_LIMIT DISCOVERY_INCREMENT)) in *.
  destruct (ceil_div_spec GAP_LIMIT DISCOVERY_INCREMENT
              (Py.ceil_div GAP_LIMIT DISCOVERY_INCREMENT) Hinc) as [Hspec _].
  specialize (Hspec eq_refl).
  split; [|done]. apply scan_chain_unused.
  - rewrite Heq. apply Forall_fmap, Forall_true. done.
  - intros Hnil. rewrite Hnil in Hlen. simpl in Hlen. lia.
  - intros t Ht. nia.
  - nia.
Qed.

End Scan.

(** ** The theorems at the scenarios *)

Section AtScenarios.

#[local] Existing Instance path_wallet.

(** Scenario A is well formed; its payout chain of account 0 has a counter
    and the number of responses scripted for it obeys the formula. *)
Lemma hd_discovery_responses_per_chain_scenario_A :
  valid_config scenario_A = true
  ∧ ∃ num_used,
      num_used_addresses_getitem scenario_A 0 0 = Py.Ok num_used
      ∧ Z.of_nat (length (scripted_for scenario_A 0 0)) =
          Z.max 1 (Py.ceil_div (num_used + GAP_LIMIT) address_increment).
Proof.
  split; [vm_compute; reflexivity|].
  assert (valid_config scenario_A = true) as Hv by (vm_compute; reflexivity).
  pose proof (hd_discovery_responses_per_chain scenario_A Hv) as Hthm.
  cbv zeta in Hthm. destruct Hthm as [_ Hchains].
  destruct (Hchains 0 0) as (num_used & Hget & Hlen & _);
    [vm_compute; split; [discriminate|reflexivity]|left; reflexivity|].
  exists num_used. split; [exact Hget|exact Hlen].
Defined.

(** Scenario B is well formed, has no used account, and its script is the
    payout responses of account 0 followed by its change responses. *)
Lemma hd_discovery_scripted_accounts_scenario_B :
  valid_config scenario_B = true
  ∧ _num_used_accounts scenario_B = 0
  ∧ ∃ effects,
      side_effect (get_transactions
                     (set_txn_side_effect_for_hd_discovery scenario_B).2)
        = Some effects
      ∧ effects = scripted_for scenario_B 0 0 ++ scripted_for scenario_B 0 1.
Proof.
  split; [vm_compute; reflexivity|]. split; [vm_compute; reflexivity|].
  destruct (hd_discovery_scripted_accounts scenario_B)
    as (effects & Hq & _ & _ & _ & Hzero); [vm_compute; reflexivity|].
  exists effects. split; [exact Hq|]. apply Hzero. vm_compute. reflexivity.
Defined.

(** In Scenario A the call after the last queued response raises. *)
Lemma hd_discovery_queue_in_call_order_scenario_A :
  valid_config scenario_A = true
  ∧ ∃ effects self1,
      set_txn_side_effect_for_hd_discovery scenario_A =
        (Py.Ok (Z.of_nat (length effects)), self1)
      ∧ (call_get_transactions_times (length effects) self1).1
          = Py.Ok (Returned <$> effects)
      ∧ (call_get_transactions
           (call_get_transactions_times (length effects) self1).2).1
          = Py.Raise Py.StopIteration.
Proof.
  split; [vm_compute; reflexivity|].
  destruct (hd_discovery_queue_in_call_order scenario_A)
    as (effects & self1 & Hset & _ & Hall & Hstop); [vm_compute; reflexivity|].
  exists effects, self1. split; [exact Hset|]. split; [exact Hall|exact Hstop].
Defined.

(** In Scenario A the third payout address carries the payout balance and
    the fifth change address the change balance. *)
Lemma get_balance_hd_used_addresses_scenario_A :
  valid_config scenario_A = true
  ∧ chains_disjoint scenario_A = true
  ∧ ∃ d,
      (call_get_balance_hd (_setup_balances_hd scenario_A).2).1
        = Py.Ok (Returned d)
      ∧ d !! [0x8000002C; 0x80000000; 0x80000000; 0; 2] = Some (100000, 0)
      ∧ d !! [0x8000002C; 0x80000000; 0x80000000; 1; 4] = Some (0, 10000).
Proof.
  split; [vm_compute; reflexivity|]. split; [vm_compute; reflexivity|].
  destruct (get_balance_hd_used_addresses scenario_A)
    as (d & _ & Hcall & _ & _ & Hvalues & _); [vm_compute; reflexivity|].
  exists d. split; [exact Hcall|].
  specialize (Hvalues ltac:(vm_compute; reflexivity)).
  split.
  - apply (Hvalues [0x8000002C; 0x80000000; 0x80000000; 0; 2]).
    exists 0. split; [vm_compute; split; [discriminate|reflexivity]|].
    apply (bool_decide_unpack _). vm_compute. exact I.
  - apply (Hvalues [0x8000002C; 0x80000000; 0x80000000; 1; 4]).
    exists 0. split; [vm_compute; split; [discriminate|reflexivity]|].
    apply (bool_decide_unpack _). vm_compute. exact I.
Defined.

(** Replacing the master key of the Scenario A wallet by the key [[7]]
    clears the counters of account 0 and re-derives its keys below the new
    master key. *)
Lemma hd_master_key_replaced_resets_scenario_A :
  has_accounts scenario_A = true
  ∧ last (HDKey_from_path [7] (account_derivation_prefix (account_type scenario_A)))
      = Some [7; 0x8000002C; 0x80000000]
  ∧ _hd_master_key (hd_master_key_setter [7] scenario_A).2 = [7]
  ∧ _acct_keys (hd_master_key_setter [7] scenario_A).2 !! 0
      = Some (derive_acct_keys [7; 0x8000002C; 0x80000000] 0)
  ∧ num_used_addresses_getitem (hd_master_key_setter [7] scenario_A).2 0 0 = Py.Ok 0
  ∧ num_used_addresses_getitem (hd_master_key_setter [7] scenario_A).2 0 1 = Py.Ok 0.
Proof.
  split; [vm_compute; reflexivity|]. split; [vm_compute; reflexivity|].
  destruct (hd_master_key_replaced_resets scenario_A [7] [7; 0x8000002C; 0x80000000])
    as (Hkey & Hall & _); [vm_compute; reflexivity|vm_compute; reflexivity|].
  destruct (Hall 0) as (Hkeys & H0 & H1); [vm_compute; split; [discriminate|reflexivity]|].
  split; [exact Hkey|]. split; [exact Hkeys|]. split; [exact H0|exact H1].
Defined.

(** The hypotheses of the amended Scenario A statement hold of the concrete
    wallet, which therefore has two responses per chain. *)
Lemma scenario_A_two_batches_per_chain_holds :
  valid_config scenario_A = true
  ∧ num_used_addresses_getitem scenario_A 0 0 = Py.Ok 3
  ∧ num_used_addresses_getitem scenario_A 0 1 = Py.Ok 5
  ∧ ∃ p0 p1 c0 c1,
      scripted_for scenario_A 0 0 = [p0; p1]
      ∧ scripted_for scenario_A 0 1 = [c0; c1].
Proof.
  split; [vm_compute; reflexivity|]. split; [vm_compute; reflexivity|].
  split; [vm_compute; reflexivity|].
  destruct (scenario_A_two_batches_per_chain scenario_A)
    as (p0 & p1 & c0 & c1 & Hp & Hc & _).
  - reflexivity.
  - reflexivity.
  - vm_compute. reflexivity.
  - vm_compute. reflexivity.
  - vm_compute. reflexivity.
  - apply (bool_decide_unpack _). vm_compute. exact I.
  - apply (bool_decide_unpack _). vm_compute. exact I.
  - exists p0, p1, c0, c1. split; [exact Hp|exact Hc].
Defined.

(** The scan of account 0 in Scenario A uses up the script: two batches on
    each chain, highest used index 2 on the payout chain and 4 on the change
    chain. *)
Lemma scenario_A_scan :
  length (discovery_queue scenario_A) = 4%nat
  ∧ scan_account scenario_A 0 (discovery_queue scenario_A)
      = Py.Ok ((2, 2%nat), (4, 2%nat), []).
Proof. split; vm_compute; reflexivity. Qed.

(** The scan of account 0 in Scenario B: one batch on each chain and no
    used index. *)
Lemma scenario_B_scan :
  length (discovery_queue scenario_B) = 2%nat
  ∧ scan_account scenario_B 0 (discovery_queue scenario_B)
      = Py.Ok ((-1, 1%nat), (-1, 1%nat), []).
Proof. split; vm_compute; reflexivity. Qed.

(** ** Where the specification and the code part *)

(** C3, as stated, fails: in Scenario A the script holds two responses for
    each chain of account 0 (four in all), not one. *)
Lemma scenario_A_not_single_batch :
  DISCOVERY_INCREMENT = 20 ∧ GAP_LIMIT = 20
  ∧ num_used_addresses_getitem scenario_A 0 0 = Py.Ok 3
  ∧ num_used_addresses_getitem scenario_A 0 1 = Py.Ok 5
  ∧ (set_txn_side_effect_for_hd_discovery scenario_A).1 = Py.Ok 4
  ∧ length (scripted_for scenario_A 0 0) = 2%nat
  ∧ length (scripted_for scenario_A 0 1) = 2%nat
  ∧ ¬ (length (scripted_for scenario_A 0 0) = 1%nat
       ∧ length (scripted_for scenario_A 0 1) = 1%nat).
Proof.
  split_and!; try (vm_compute; reflexivity).
  intros [Hp _]. vm_compute in Hp. discriminate.
Qed.

(** C9, as stated, fails: an exception that is neither an [OSError] nor a
    [DaemonizerError] (here a [KeyboardInterrupt] while the daemonizer is
    obtained) passes both [except] clauses, so [stop_walletd] does not always
    return a boolean. *)
Lemma stop_walletd_propagates_other_exceptions :
  stop_walletd
    {| get_daemonizer := Py.Raise (Py.OtherError "KeyboardInterrupt");
       started := λ _ : unit, Py.Ok true;
       stop := λ _ : unit, Py.Ok true |}
    = Py.Raise (Py.OtherError "KeyboardInterrupt")
  ∧ ¬ (∀ (D : Type) (daemonizer : Daemonizer D),
         ∃ b, stop_walletd daemonizer = Py.Ok b).
Proof.
  split; [reflexivity|]. intros Hall.
  destruct (Hall unit
              {| get_daemonizer := Py.Raise (Py.OtherError "KeyboardInterrupt");
                 started := λ _, Py.Ok true;
                 stop := λ _, Py.Ok true |}) as [b Hb].
  discriminate.
Qed.

End AtScenarios.

(** * Further properties of the provider *)

Section ProviderEdges.

Context `{Bitcoin}.

(** A loop stops at the first pass that raises. *)
Lemma for_local_raise {X S} (l1 l2 : list X) (x : X)
    (body : X → S → Py.result S) (s s1 : S) e :
  for_local l1 body s = Py.Ok s1 → body x s1 = Py.Raise e →
  for_local (l1 ++ x :: l2) body s = Py.Raise e.
Proof.
  revert s. induction l1 as [|y l1 IH]; intros s; simpl.
  - intros [= ->] Hx. by rewrite Hx.
  - destruct (body y s) as [s'|e']; simpl; [apply IH|done].
Qed.

Lemma range_split m n :
  0 ≤ m < n → Py.range n = Py.range m ++ m :: Py.range2 (m + 1) n.
Proof.
  intros Hmn. unfold Py.range, Py.range2.
  replace (Z.to_nat (n - 0)) with (Z.to_nat (m - 0) + S (Z.to_nat (n - (m + 1))))%nat
    by lia.
  rewrite seq_app, fmap_app. f_equal.
  cbn [seq]. rewrite fmap_cons. f_equal; [lia|].
  replace (S (0 + Z.to_nat (m - 0))) with (S (Z.to_nat m) + 0)%nat by lia.
  rewrite <- fmap_add_seq, <- list_fmap_compose.
  apply list_fmap_ext. intros _ i _. simpl. lia.
Qed.

(** Whatever a loop over [self] does, an attribute no pass touches is
    untouched afterwards, also when a pass raises. *)
Lemma for__preserves {X} (P : MockTransactionDataProvider → Prop) (l : list X)
    (body : X → M unit) :
  (∀ x s, P s → P (body x s).2) →
  ∀ s, P s → P (for_ l body s).2.
Proof.
  intros Hbody. induction l as [|x l IH]; intros s Hs; simpl; [done|].
  unfold bindM. specialize (Hbody x s Hs).
  destruct (body x s) as [[[]|e] s']; simpl in *; [by apply IH|done].
Qed.

(** [set_txn_side_effect_for_index] for an account without keys raises
    [KeyError] and changes nothing.  Otherwise it queues a single response,
    which reports as used the address at position [address_index] of the
    chosen chain and no other address (none at all when the index is
    negative or beyond the table); the first [get_transactions] call
    receives it and the second raises [StopIteration]. *)
Theorem set_txn_side_effect_for_index_single_address
    (self : MockTransactionDataProvider) (account_index address_index change : Z) :
  match _acct_keys self !! account_index with
  | None =>
      set_txn_side_effect_for_index account_index address_index change self
        = (Py.Raise Py.KeyError, self)
  | Some keys =>
      ∃ d self',
        set_txn_side_effect_for_index account_index address_index change self
          = (Py.Ok tt, self')
        ∧ side_effect (get_transactions self') = Some [d]
        ∧ (∀ a, contains d a = true ↔
             0 ≤ address_index
             ∧ chain_addresses keys change !! Z.to_nat address_index = Some a)
        ∧ (∀ a, getitem d a =
             if contains d a then [dummy_txn] else [])
        ∧ (call_get_transactions self').1 = Py.Ok (Returned d)
        ∧ (call_get_transactions (call_get_transactions self').2).1
            = Py.Raise Py.StopIteration
  end.
Proof.
  unfold set_txn_side_effect_for_index, bindM, get_self, lift, modify, Py.subscript.
  destruct (_acct_keys self !! account_index) as [keys|]; [|done].
  eexists _, _. split; [done|]. split; [done|]. split; [|done].
  intros a. rewrite contains_init_iff. simpl. split.
  - intros (Hpos & i & Hi & Hr). split; [lia|].
    by replace (Z.to_nat address_index) with i by lia.
  - intros (Hpos & Hi). split; [lia|].
    exists (Z.to_nat address_index). split; [done|lia].
Qed.

(** [set_num_used_addresses] on an account without counters raises
    [KeyError] and changes nothing.  Otherwise the count is stored, whether
    or not the recomputation of the balances then completes: it is read back
    for that account and chain, every other counter reads as before, and the
    number of used accounts, the keys and the [get_transactions] script are
    untouched. *)
Theorem set_num_used_addresses_stores_count
    (self : MockTransactionDataProvider) (account_index n change : Z) :
  match _num_used_addresses self !! account_index with
  | None =>
      set_num_used_addresses account_index n change self
        = (Py.Raise Py.KeyError, self)
  | Some _ =>
      let self' := (set_num_used_addresses account_index n change self).2 in
      num_used_addresses_getitem self' account_index change = Py.Ok n
      ∧ (∀ i c, (i, c) ≠ (account_index, change) →
           num_used_addresses_getitem self' i c
             = num_used_addresses_getitem self i c)
      ∧ _num_used_accounts self' = _num_used_accounts self
      ∧ _acct_keys self' = _acct_keys self
      ∧ get_transactions self' = get_transactions self
  end.
Proof.
  destruct (_num_used_addresses self !! account_index) as [inner|] eqn:Hin.
  - cbv zeta.
    assert (set_num_used_addresses account_index n change self =
            _setup_balances_hd
              (set__num_used_addresses
                 (<[account_index := <[change := n]> inner]> (_num_used_addresses self))
                 self)) as ->.
    { unfold set_num_used_addresses, bindM at 1, num_used_addresses_setitem,
        bindM at 1 2, get_self at 1, lift at 1, modify at 1, Py.subscript.
      by rewrite Hin. }
    destruct (_setup_balances_hd_frame
                (set__num_used_addresses
                   (<[account_index := <[change := n]> inner]> (_num_used_addresses self))
                   self)) as (_ & Hnu & Hn & _ & _ & Hk & Hg).
    split_and!; try done.
    + unfold num_used_addresses_getitem, Py.subscript. rewrite Hnu. simpl.
      rewrite lookup_insert_eq. simpl. by rewrite lookup_insert_eq.
    + intros i c Hne. unfold num_used_addresses_getitem, Py.subscript.
      rewrite Hnu. simpl. destruct (decide (i = account_index)) as [->|Hi].
      * rewrite lookup_insert_eq, Hin. simpl.
        rewrite lookup_insert_ne; [done|]. congruence.
      * by rewrite lookup_insert_ne.
  - unfold set_num_used_addresses, bindM at 1, num_used_addresses_setitem,
      bindM at 1 2, get_self at 1, lift at 1, Py.subscript.
    by rewrite Hin.
Qed.

(** With a negative number of used accounts the discovery script is empty:
    [set_txn_side_effect_for_hd_discovery] returns 0 and the very first
    [get_transactions] call raises [StopIteration]. *)
Theorem hd_discovery_negative_accounts_scripts_nothing
    (self : MockTransactionDataProvider) :
  _num_used_accounts self < 0 →
  (set_txn_side_effect_for_hd_discovery self).1 = Py.Ok 0
  ∧ side_effect
      (get_transactions (set_txn_side_effect_for_hd_discovery self).2) = Some []
  ∧ (call_get_transactions (set_txn_side_effect_for_hd_discovery self).2).1
      = Py.Raise Py.StopIteration.
Proof.
  intros Hn.
  assert (discovery_effects self = Py.Ok []) as He.
  { unfold discovery_effects.
    destruct (Z.eqb_spec (_num_used_accounts self) 0) as [?|_]; [lia|].
    by rewrite range_nonpos by lia. }
  unfold set_txn_side_effect_for_hd_discovery, bindM, get_self, lift, modify, ret.
  rewrite He. done.
Qed.

(** Beyond [max_accounts] nothing is rolled back: on a well-formed provider
    that has no account [max_accounts], [set_num_used_accounts n] with
    [n > max_accounts] raises [KeyError] but has stored [n] and left the
    balances of [get_balance_hd] as they were; from then on
    [set_txn_side_effect_for_hd_discovery] raises [KeyError] too and installs
    no script. *)
Theorem set_num_used_accounts_beyond_max_accounts
    (self : MockTransactionDataProvider) (n : Z) :
  valid_config self = true →
  _acct_keys self !! max_accounts = None →
  _num_used_addresses self !! max_accounts = None →
  max_accounts < n →
  let self' := set__num_used_accounts n self in
  set_num_used_accounts n self = (Py.Raise Py.KeyError, self')
  ∧ _num_used_accounts self' = n
  ∧ get_balance_hd self' = get_balance_hd self
  ∧ set_txn_side_effect_for_hd_discovery self' = (Py.Raise Py.KeyError, self').
Proof.
  intros Hv Hk Hnu Hn self'.
  pose proof (valid_config_unfold _ Hv) as (Hinc & Hgap & Hacc & Hall).
  assert (valid_config (set__num_used_accounts max_accounts self) = true) as Hv'.
  { apply valid_config_intro; [by eapply valid_config_constants|simpl; lia|done]. }
  assert (0 ≤ max_accounts < n) as Hsplit by (unfold max_accounts in *; lia).
  split_and!; try done.
  - unfold set_num_used_accounts, bindM at 1, modify at 1. cbv beta iota.
    fold self'.
    assert (balances_hd self' = Py.Raise Py.KeyError) as Hbal.
    { unfold balances_hd. change (_num_used_accounts self') with n.
      rewrite (range_split max_accounts n Hsplit).
      eapply for_local_raise.
      - pose proof (balances_hd_ok _ Hv') as Hok. unfold balances_hd in Hok.
        exact Hok.
      - unfold Py.subscript. change (_acct_keys self') with (_acct_keys self).
        by rewrite Hk. }
    unfold _setup_balances_hd, bindM, get_self, lift. by rewrite Hbal.
  - assert (discovery_effects self' = Py.Raise Py.KeyError) as Heff.
    { unfold discovery_effects. change (_num_used_accounts self') with n.
      destruct (Z.eqb_spec n 0) as [?|_]; [unfold max_accounts in *; lia|].
      rewrite (range_split max_accounts n Hsplit).
      eapply for_local_raise.
      - pose proof (discovery_effects_ok _ Hv') as Hok.
        unfold discovery_effects in Hok. simpl in Hok. exact Hok.
      - simpl. unfold discovery_chain, num_used_addresses_getitem, Py.subscript.
        change (_num_used_addresses self') with (_num_used_addresses self).
        by rewrite Hnu. }
    unfold set_txn_side_effect_for_hd_discovery, bindM, get_self, lift.
    by rewrite Heff.
Qed.

(** In the script of a chain whose address table has no repetition, the
    address at position [j] of the table is reported as used by the response
    of batch [i] exactly when [j] is below the number of used addresses and
    [i] is the batch that covers [j]; every used address of the table is thus
    reported by one scripted response and one only, and an unused address by
    none. *)
Theorem hd_discovery_reports_each_used_address_once
    (self : MockTransactionDataProvider) (acct change num_used : Z) (j : nat) a :
  valid_config self = true →
  0 ≤ acct < max_accounts → change = 0 ∨ change = 1 →
  num_used_addresses_getitem self acct change = Py.Ok num_used →
  NoDup (chain_table self acct change) →
  chain_table self acct change !! j = Some a →
  (∀ (i : nat) d, scripted_for self acct change !! i = Some d →
     (contains d a = true ↔
        Z.of_nat j < num_used ∧ Z.of_nat i = Z.of_nat j / address_increment))
  ∧ (Z.of_nat j < num_used →
     ∃ d, scripted_for self acct change
            !! Z.to_nat (Z.of_nat j / address_increment) = Some d
          ∧ contains d a = true).
Proof.
  intros Hv Hacct Hc Hget Hnd Hj.
  destruct (length_scripted_for self acct change num_used Hv Hacct Hc Hget)
    as (Hlen & keys & Hk & Heq).
  pose proof (valid_config_unfold _ Hv) as (Hinc & Hgap & _ & _).
  unfold chain_table in Hnd, Hj. rewrite Hk in Hnd, Hj.
  set (m := Z.max 1 (Py.ceil_div (num_used + GAP_LIMIT) address_increment)) in *.
  assert (address_increment ≠ 0) as Hne by lia.
  pose proof (Z.div_mod (Z.of_nat j) address_increment Hne) as Hdm.
  pose proof (Z.mod_pos_bound (Z.of_nat j) address_increment Hinc) as Hmod.
  assert (∀ i : nat,
            contains (discovery_response num_used (chain_addresses keys change)
                        (Z.of_nat i)) a = true ↔
            Z.of_nat j < num_used ∧ Z.of_nat i = Z.of_nat j / address_increment)
    as Hbatch.
  { intros i. unfold discovery_response.
    rewrite (contains_at_index _ _ _ _ _ j a Hnd Hj), is_used_true. simpl.
    split.
    - intros (Hpos & Hlo & Hhi). split; [lia|]. nia.
    - intros (Hlt & Hi). split; [lia|]. nia. }
  split.
  - intros i d Hi. rewrite Heq in Hi.
    apply list_lookup_fmap_Some in Hi as (x & Hd & Hx).
    pose proof (lookup_lt_Some _ _ _ Hx) as Hlt. rewrite length_range in Hlt.
    rewrite lookup_range in Hx by done. injection Hx as <-. subst d.
    apply Hbatch.
  - intros Hlt.
    destruct (ceil_div_spec (num_used + GAP_LIMIT) address_increment
                (Py.ceil_div (num_used + GAP_LIMIT) address_increment) Hinc)
      as [Hspec _]. specialize (Hspec eq_refl).
    assert (0 ≤ Z.of_nat j / address_increment < m) as Hq.
    { split; [apply Z.div_pos; lia|]. apply Z.div_lt_upper_bound; [done|]. nia. }
    eexists. split.
    + rewrite Heq, list_lookup_fmap, lookup_range by lia. simpl. reflexivity.
    + rewrite Z2Nat.id by lia.
      pose proof (Hbatch (Z.to_nat (Z.of_nat j / address_increment))) as Hb.
      rewrite Z2Nat.id in Hb by lia. apply Hb. done.
Qed.

(** Replacing the master key never touches the account type, the number of
    used accounts, the list of non-HD addresses or the script of
    [get_transactions], whether the assignment completes or raises: responses
    queued for the old key stay queued. *)
Theorem hd_master_key_setter_frame (self : MockTransactionDataProvider) (k : HDKey) :
  let self' := (hd_master_key_setter k self).2 in
  account_type self' = account_type self
  ∧ _num_used_accounts self' = _num_used_accounts self
  ∧ self_addr_list self' = self_addr_list self
  ∧ get_transactions self' = get_transactions self.
Proof.
  set (P := λ s : MockTransactionDataProvider,
         account_type s = account_type self
         ∧ _num_used_accounts s = _num_used_accounts self
         ∧ self_addr_list s = self_addr_list self
         ∧ get_transactions s = get_transactions self).
  change (P (hd_master_key_setter k self).2).
  unfold hd_master_key_setter, bindM at 1 2 3 4, modify at 1 2, get_self at 1.
  cbv beta iota zeta.
  set (s0 := set__acct_keys ∅ (set__hd_master_key k self)).
  assert (P s0) as Hs0 by done.
  pose proof (for__preserves P (Py.range max_accounts)
    (hd_master_key_account (HDKey_from_path k (account_derivation_prefix (account_type s0))))) as Hloop.
  specialize (Hloop ltac:(
    intros x s Hs; unfold hd_master_key_account, bindM, lift, modify,
      num_used_addresses_setitem, bindM, get_self, lift, modify, last_item, Py.subscript;
    destruct (last _); [|done]; simpl;
    destruct (_num_used_addresses s !! x); [|done]; simpl;
    rewrite lookup_insert_eq; done) s0 Hs0).
  destruct (for_ _ _ s0) as [[[]|e] s1]; simpl in *; [|done].
  destruct (_setup_balances_hd_frame s1) as (Ht & _ & Hn & Ha & _ & _ & Hg).
  destruct Hloop as (Ht1 & Hn1 & Ha1 & Hg1).
  unfold P. by rewrite Ht, Hn, Ha, Hg.
Qed.

End ProviderEdges.

(** ** The edge cases on the concrete wallet *)

Section EdgesAtScenarios.

#[local] Existing Instance path_wallet.

Lemma returned_after {A} (call : M A) (self : MockTransactionDataProvider) a :
  (call self).1 = Py.Ok a → call self = (Py.Ok a, after call self).
Proof. unfold after. destruct (call self) as [r s]. by intros [= ->]. Qed.

(** A provider told that [-1] accounts are used scripts no response. *)
Lemma hd_discovery_negative_accounts_example :
  let self := after (set_num_used_accounts (-1)) fresh_provider in
  _num_used_accounts self < 0
  ∧ (set_txn_side_effect_for_hd_discovery self).1 = Py.Ok 0
  ∧ (call_get_transactions (set_txn_side_effect_for_hd_discovery self).2).1
      = Py.Raise Py.StopIteration.
Proof.
  intros self.
  assert (_num_used_accounts self < 0) as Hn by (vm_compute; reflexivity).
  split; [exact Hn|].
  destruct (hd_discovery_negative_accounts_scripts_nothing self Hn)
    as (Hret & _ & Hcall).
  split; [exact Hret|exact Hcall].
Defined.

(** Scenario A told that 11 accounts are used: the call raises, the count
    stays, and discovery can no longer be scripted. *)
Lemma set_num_used_accounts_beyond_max_accounts_scenario_A :
  valid_config scenario_A = true
  ∧ (set_num_used_accounts 11 scenario_A).1 = Py.Raise Py.KeyError
  ∧ _num_used_accounts (after (set_num_used_accounts 11) scenario_A) = 11
  ∧ (set_txn_side_effect_for_hd_discovery
       (after (set_num_used_accounts 11) scenario_A)).1
      = Py.Raise Py.KeyError.
Proof.
  assert (valid_config scenario_A = true) as Hv by (vm_compute; reflexivity).
  split; [exact Hv|].
  destruct (set_num_used_accounts_beyond_max_accounts scenario_A 11 Hv)
    as (Hset & Hn & _ & Hscript);
    [vm_compute; reflexivity|vm_compute; reflexivity|vm_compute; reflexivity|].
  unfold after. rewrite Hset. cbn [fst snd].
  split; [reflexivity|]. split; [exact Hn|]. by rewrite Hscript.
Defined.

(** In Scenario A the third payout address is reported by the first response
    of its chain. *)
Lemma hd_discovery_reports_each_used_address_once_scenario_A :
  valid_config scenario_A = true
  ∧ chain_table scenario_A 0 0 !! 2%nat
      = Some [0x8000002C; 0x80000000; 0x80000000; 0; 2]
  ∧ ∃ d, scripted_for scenario_A 0 0 !! 0%nat = Some d
         ∧ contains d [0x8000002C; 0x80000000; 0x80000000; 0; 2] = true.
Proof.
  assert (valid_config scenario_A = true) as Hv by (vm_compute; reflexivity).
  split; [exact Hv|]. split; [vm_compute; reflexivity|].
  destruct (hd_discovery_reports_each_used_address_once scenario_A 0 0 3 2
              [0x8000002C; 0x80000000; 0x80000000; 0; 2] Hv)
    as [_ Hused].
  - vm_compute. split; [discriminate|reflexivity].
  - by left.
  - vm_compute. reflexivity.
  - apply (bool_decide_unpack _). vm_compute. exact I.
  - vm_compute. reflexivity.
  - apply Hused. vm_compute. reflexivity.
Defined.

(** Scenario A is reachable, hence well formed. *)
Lemma reachable_valid_config_scenario_A :
  reachable scenario_A ∧ valid_config scenario_A = true.
Proof.
  assert (reachable scenario_A) as Hr.
  { eapply (reachable_set_num_used_addresses _ 0 5 1);
      [|vm_compute; split; [discriminate|reflexivity]|by right
       |vm_compute; reflexivity
       |apply returned_after; vm_compute; reflexivity].
    eapply (reachable_set_num_used_addresses _ 0 3 0);
      [|vm_compute; split; [discriminate|reflexivity]|by left
       |vm_compute; reflexivity
       |apply returned_after; vm_compute; reflexivity].
    eapply (reachable_set_num_used_accounts _ 1);
      [|vm_compute; split; discriminate
       |apply returned_after; vm_compute; reflexivity].
    unfold fresh_provider.
    match goal with
    | |- reachable (match ?i with Py.Ok _ => _ | Py.Raise _ => _ end) =>
        assert (match i with Py.Ok _ => true | Py.Raise _ => false end = true)
          as Hok by (vm_compute; reflexivity);
        destruct i as [self|e] eqn:Hinit;
          [exact (reachable_init _ _ _ _ Hinit)|discriminate Hok]
    end. }
  split; [exact Hr|].
  apply reachable_valid_config; [vm_compute; reflexivity|exact Hr].
Defined.

End EdgesAtScenarios.

(** * Properties of the update flow *)

Module UpdateFacts.

Import Update.

Section Lookup.

Context `{Environment}.

(** Where the pattern matches at the start of a string. *)
Lemma match_here_stable_version_re (s : list N) :
  match_here stable_version_re s (λ _, true) = true ↔
  ∃ d1 d2 rest,
    s = d1 :: 46%N :: d2 :: rest
    ∧ is_digit d1 = true ∧ is_digit d2 = true
    ∧ (rest = [] ∨ rest = [10%N]
       ∨ ∃ d3, is_digit d3 = true ∧ (rest = [46%N; d3] ∨ rest = [46%N; d3; 10%N])).
Proof.
  unfold stable_version_re. cbn [match_here]. split.
  - destruct s as [|c1 [|c2 [|c3 rest]]]; try (by rewrite ?andb_false_r).
    rewrite !andb_true_iff, N.eqb_eq, orb_true_iff.
    intros (Hd1 & <- & Hd2 & Hrest). exists c1, c3, rest.
    split; [done|]. split; [done|]. split; [done|].
    destruct Hrest as [Hopt|Hend].
    + destruct rest as [|c4 [|c5 rest]]; try done;
        try (by rewrite ?andb_false_r in Hopt).
      apply andb_true_iff in Hopt as [->%N.eqb_eq Hopt].
      apply andb_true_iff in Hopt as [Hd3 Hend].
      rewrite andb_true_r, orb_true_iff, !bool_decide_eq_true in Hend.
      right. right. exists c5. split; [done|].
      destruct Hend as [-> | ->]; auto.
    + rewrite andb_true_r, orb_true_iff, !bool_decide_eq_true in Hend.
      destruct Hend as [-> | ->]; auto.
  - intros (d1 & d2 & rest & -> & Hd1 & Hd2 & Hrest).
    rewrite Hd1, Hd2, N.eqb_refl. simpl.
    destruct Hrest as [->|[->|(d3 & Hd3 & [->| ->])]]; simpl;
      rewrite ?Hd3; simpl; by rewrite ?orb_true_r.
Qed.

Lemma search_suffix (r : regex) (s : list N) :
  search r s = true ↔
  ∃ pre s', s = pre ++ s' ∧ match_here r s' (λ _, true) = true.
Proof.
  induction s as [|c s IH]; cbn [search].
  - rewrite orb_false_r. split.
    + intros Hm. by exists [], [].
    + intros (pre & s' & Heq & Hm). symmetry in Heq.
      apply app_eq_nil in Heq as [-> ->]. done.
  - rewrite orb_true_iff, IH. split.
    + intros [Hm|(pre & s' & -> & Hm)].
      * by exists [], (c :: s).
      * by exists (c :: pre), s'.
    + intros (pre & s' & Heq & Hm). destruct pre as [|c' pre].
      * left. simpl in Heq. by subst.
      * right. injection Heq as -> ->. by exists pre, s'.
Qed.

(** [re.search(r'\d\.\d(\.\d)?$', s)] succeeds exactly when [s], up to one
    final newline, ends in a digit, a dot and a digit: the last component
    of a version that counts as stable has a single digit. *)
Theorem search_stable_version_re (s : list N) :
  search stable_version_re s = true ↔
  ∃ pre d1 d2 tail,
    s = pre ++ [d1; 46%N; d2] ++ tail
    ∧ is_digit d1 = true ∧ is_digit d2 = true
    ∧ (tail = [] ∨ tail = [10%N]).
Proof.
  rewrite search_suffix. split.
  - intros (pre & s' & -> & Hm).
    apply match_here_stable_version_re in Hm
      as (d1 & d2 & rest & -> & Hd1 & Hd2 & Hrest).
    destruct Hrest as [->|[->|(d3 & Hd3 & [->| ->])]].
    + exists pre, d1, d2, []. auto.
    + exists pre, d1, d2, [10%N]. auto.
    + exists (pre ++ [d1; 46%N]), d2, d3, [].
      rewrite <- app_assoc. auto.
    + exists (pre ++ [d1; 46%N]), d2, d3, [10%N].
      rewrite <- app_assoc. auto.
  - intros (pre & d1 & d2 & tail & -> & Hd1 & Hd2 & Htail).
    exists pre, ([d1; 46%N; d2] ++ tail). split; [done|].
    apply match_here_stable_version_re. exists d1, d2, tail.
    split; [done|]. split; [done|]. split; [done|].
    destruct Htail; auto.
Qed.

(** *** Choosing the package *)

Lemma next_where_skip (cond : Json → result bool) (pre l : list Json) :
  Forall (λ q, cond q = Ok false) pre →
  next_where cond (pre ++ l) = next_where cond l.
Proof.
  induction 1 as [|q pre Hq _ IH]; [done|]. simpl. by rewrite Hq.
Qed.



Lemma subscript_Raise (v : Json) key e :
  subscript v key = Raise e → e = KeyError ∨ e = TypeError.
Proof.
  destruct v; simpl; try (intros [= <-]; by right).
  destruct (dict_get _ _); [done|]. intros [= <-]. by left.
Qed.





(** A dict with a ["version"] entry is not empty. *)
Lemma has_version_truthy p v : has_version p v → truthy p = true.
Proof.
  unfold has_version, subscript. destruct p as [| | | | | |items]; try done.
  by destruct items.
Qed.

(** With ['latest'] the first package whose version matches the pattern is
    chosen: the packages before it, whose versions do not match, are passed
    over, and those after it are never looked at, well formed or not. *)
Theorem select_latest_first_stable (data : Json) (pre post : list Json)
    (p : Json) (v : list N) :
  subscript data (of_string "packages") = Ok (JList (pre ++ p :: post)) →
  Forall (λ q, ∃ s, has_version q s ∧ search stable_version_re s = false) pre →
  has_version p v →
  search stable_version_re v = true →
  select_version data (of_string "latest") = Ok (JStr v).
Proof.
  intros Hdata Hpre Hp Hv. unfold select_version, select_package.
  rewrite Hdata. cbn [bind iter]. rewrite bool_decide_eq_true_2 by done.
  cbn [negb bind]. rewrite next_where_skip.
  - cbn [next_where]. rewrite Hp. cbn [bind search_stable]. rewrite Hv.
    cbn [bind]. rewrite (has_version_truthy p v Hp). cbn [negb]. by rewrite Hp.
  - eapply Forall_impl; [exact Hpre|]. intros q (s & Hq & Hs).
    rewrite Hq. cbn [bind search_stable]. by rewrite Hs.
Qed.

(** A package without a usable ["version"] that comes before any stable one
    makes the lookup of ['latest'] fail with [version_not_found], whatever
    follows it in the list. *)
Theorem select_latest_malformed_entry (data : Json) (pre post : list Json)
    (bad : Json) :
  subscript data (of_string "packages") = Ok (JList (pre ++ bad :: post)) →
  Forall (λ q, ∃ s, has_version q s ∧ search stable_version_re s = false) pre →
  (∀ s, ¬ has_version bad s) →
  select_version data (of_string "latest")
    = Raise (Two1Error (Error_version_not_found (of_string "latest"))).
Proof.
  intros Hdata Hpre Hbad. unfold select_version, select_package.
  rewrite Hdata. cbn [bind iter]. rewrite bool_decide_eq_true_2 by done.
  cbn [negb bind]. rewrite next_where_skip.
  - cbn [next_where].
    destruct (subscript bad (of_string "version")) as [x|e] eqn:Hx; cbn [bind].
    + destruct x; cbn [search_stable]; try done. by destruct (Hbad s).
    + apply subscript_Raise in Hx as [-> | ->]; done.
  - eapply Forall_impl; [exact Hpre|]. intros q (s & Hq & Hs).
    rewrite Hq. cbn [bind search_stable]. by rewrite Hs.
Qed.

(** For a requested version other than ['latest'], among packages that all
    carry a version string, a package with exactly that version wins over
    any package that merely contains it, wherever the two stand in the list;
    without an exact match the first package whose version contains the
    requested string is taken. *)
Theorem select_exact_match_preferred (data : Json) (l : list Json)
    (version : list N) :
  version ≠ of_string "latest" →
  subscript data (of_string "packages") = Ok (JList l) →
  Forall (λ q, ∃ s, has_version q s) l →
  ((∃ p, p ∈ l ∧ has_version p version) →
   select_version data version = Ok (JStr version))
  ∧ (∀ pre p post s,
       l = pre ++ p :: post →
       (∀ q, q ∈ l → ¬ has_version q version) →
       Forall (λ q, ∃ t, has_version q t ∧ is_substring version t = false) pre →
       has_version p s → is_substring version s = true →
       select_version data version = Ok (JStr s)).
Proof.
  intros Hne Hdata Hwf. unfold select_version, select_package.
  rewrite Hdata. cbn [bind iter]. rewrite bool_decide_eq_false_2 by done.
  cbn [negb bind].
  set (exact := λ p, bind (subscript p (of_string "version"))
                          (λ v, Ok (eq_str version v))).
  set (inside := λ p, bind (subscript p (of_string "version"))
                           (contains_str version)).
  assert (∀ q s, has_version q s → exact q = Ok (bool_decide (version = s)))
    as Hexact.
  { intros q s Hq. unfold exact. by rewrite Hq. }
  assert (∀ q s, has_version q s → inside q = Ok (is_substring version s))
    as Hinside.
  { intros q s Hq. unfold inside. by rewrite Hq. }
  split.
  - intros (p & Hp & Hv).
    assert (∃ d, next_where exact l = Ok d ∧ has_version d version)
      as (d & Hd & Hdv).
    { clear Hdata. induction l as [|q l IH]; [by apply not_elem_of_nil in Hp|].
      apply Forall_cons in Hwf as [(s & Hs) Hwf]. cbn [next_where].
      rewrite (Hexact q s Hs). case_bool_decide as Heq.
      - exists q. split; [done|]. by subst.
      - apply IH; [done|]. apply elem_of_cons in Hp as [->|Hp]; [|done].
        unfold has_version in Hv, Hs. congruence. }
    rewrite Hd. cbn [bind]. rewrite (has_version_truthy d version Hdv).
    cbn [negb bind]. rewrite (has_version_truthy d version Hdv).
    cbn [negb]. by rewrite Hdv.
  - intros pre p post s -> Hnone Hpre Hp Hs.
    assert (next_where exact (pre ++ p :: post) = Ok JNull) as Hn.
    { clear Hdata Hpre. induction (pre ++ p :: post) as [|q l IH]; [done|].
      apply Forall_cons in Hwf as [(t & Ht) Hwf]. cbn [next_where].
      rewrite (Hexact q t Ht). rewrite bool_decide_eq_false_2.
      - apply IH; [done|]. intros q' Hq'. apply Hnone. by right.
      - intros <-. by apply (Hnone q); [left|]. }
    rewrite Hn. cbn [bind truthy negb].
    rewrite next_where_skip.
    + cbn [next_where]. rewrite (Hinside p s Hp), Hs. cbn [bind].
      rewrite (has_version_truthy p s Hp). cbn [negb]. by rewrite Hp.
    + eapply Forall_impl; [exact Hpre|]. intros q (t & Hq & Ht).
      by rewrite (Hinside q t Hq), Ht.
Qed.

End Lookup.

Section FlowFacts.

Context `{Environment}.

Lemma guarded_nil : guarded [].
Proof. intros pre c post Heq. by destruct pre. Qed.

Lemma guarded_stop (new : list event) : guarded (StopWalletd :: new).
Proof.
  intros [|ev pre] c post Heq; [done|]. injection Heq as <- _. by left.
Qed.

Lemma guarded_cons (ev : event) (new : list event) :
  (∀ c, ev ≠ CheckCall c) → guarded new → guarded (ev :: new).
Proof.
  intros Hev Hnew [|ev' pre] c post Heq.
  - injection Heq as -> _. by destruct (Hev c).
  - injection Heq as <- Heq. right. by eapply Hnew.
Qed.

Lemma lookup_pypi_version_trace version trace :
  (lookup_pypi_version version trace).2 = trace ++ [RequestsGet package_url].
Proof.
  unfold lookup_pypi_version, bindM, try_except, emit, lift, raise.
  fold package_url. cbv beta iota.
  destruct (requests_get package_url) as [r|e]; cbv beta iota.
  - destruct (response_json r) as [data|e]; cbv beta iota; [done|].
    by destruct e.
  - by destruct e.
Qed.


(** [checked_for_an_update_today] never raises [AttributeError]: a missing
    [last_update_check] means [False].  It returns [True] exactly when the
    stored string parses to a date that is not before today. *)
Theorem checked_for_an_update_today_outcome :
  (checked_for_an_update_today = Ok true ↔
     ∃ s d, config_last_update_check = Ok (ConfigStr s)
            ∧ strptime s = Ok d ∧ today ≤ d)
  ∧ (config_last_update_check = Raise AttributeError →
     checked_for_an_update_today = Ok false)
  ∧ checked_for_an_update_today ≠ Raise AttributeError
  ∧ (∀ s e, config_last_update_check = Ok (ConfigStr s) →
       strptime s = Raise e → e ≠ AttributeError →
       checked_for_an_update_today = Raise e).
Proof.
  unfold checked_for_an_update_today.
  destruct config_last_update_check as [[s|]|e] eqn:Hc; cbn [bind].
  - destruct (strptime s) as [d|e] eqn:Hs; cbn [bind].
    + destruct (Z.gtb_spec today d) as [Hgt|Hle]; split_and!; try done.
      * split; [done|]. intros (s' & d' & [= <-] & Hd & Hle).
        rewrite Hs in Hd. injection Hd as <-. lia.
      * intros s' e [= <-]. by rewrite Hs.
      * split; [|done]. intros _. by exists s, d.
      * intros s' e [= <-]. by rewrite Hs.
    + split_and!.
      * split; [by destruct e|]. intros (s' & d' & [= <-] & Hd & _).
        by rewrite Hs in Hd.
      * done.
      * by destruct e.
      * intros s' e' [= <-]. rewrite Hs. intros [= <-] Hne. by destruct e.
  - split_and!; try done. split; [done|]. by intros (s & d & [=] & _).
  - split_and!.
    + split; [by destruct e|]. by intros (s & d & [=] & _).
    + by intros [= ->].
    + by destruct e.
    + done.
Qed.

Lemma call_stop_walletd_run trace :
  call_stop_walletd trace =
    (match stop_walletd daemonizer with
     | Py.Ok _ => Ok tt
     | Py.Raise e => Raise (of_stop_walletd e)
     end, trace ++ [StopWalletd]).
Proof.
  unfold call_stop_walletd, bindM, emit, ret, raise.
  by destruct (stop_walletd daemonizer).
Qed.

Lemma update_failed_handler_trace e trace :
  (update_failed_handler e trace).2 = trace.
Proof. by destruct e. Qed.

(** Every installer run starts by calling [stop_walletd]. *)
Lemma _do_update_trace version trace :
  ∃ rest, (_do_update version trace).2 = trace ++ StopWalletd :: rest.
Proof.
  unfold _do_update, perform_apt_based_update, perform_pip_based_update.
  destruct (isdir _).
  - unfold bindM at 1. rewrite call_stop_walletd_run.
    destruct (stop_walletd daemonizer); [|by exists []].
    unfold try_except, bindM, call_check_call, bindM, emit, lift.
    cbv beta iota zeta.
    repeat match goal with
           | |- context [check_call ?c] => destruct (check_call c) as [[]|?]
           end;
      cbv beta iota; rewrite ?update_failed_handler_trace, <- ?app_assoc;
      eexists; reflexivity.
  - unfold bindM at 1. rewrite call_stop_walletd_run.
    destruct (stop_walletd daemonizer); [|by exists []].
    unfold try_except, bindM, call_check_call, bindM, emit, lift.
    cbv beta iota zeta.
    destruct has_real_prefix; cbv beta iota;
      repeat match goal with
             | |- context [check_call ?c] => destruct (check_call c) as [[]|?]
             end;
      cbv beta iota; rewrite ?update_failed_handler_trace, <- ?app_assoc;
      eexists; reflexivity.
Qed.


Ltac finish_guarded :=
  cbn [fst snd];
  eexists; split;
  [first [symmetry; apply app_nil_r | rewrite <- ?app_assoc; reflexivity]|];
  cbn [app];
  repeat first
    [ apply guarded_stop
    | apply guarded_nil
    | apply guarded_cons; [intros ?; try unfold check_recorded; discriminate|] ].




(** When the update was checked for today (the stored date is not before
    today) and the check is not forced, [update_two1_package] does nothing:
    no event, and both [update_available] and [update_successful] keep their
    initial values. *)
Theorem update_two1_package_checked_today (version : list N) (trace : list event)
    (s : list N) (d : Z) :
  config_last_update_check = Ok (ConfigStr s) →
  strptime s = Ok d →
  today ≤ d →
  update_two1_package version false trace =
    (Ok {| update_available := false; update_successful := None |}, trace).
Proof.
  intros Hc Hs Hd.
  assert (checked_for_an_update_today = Ok true) as Hchecked.
  { unfold checked_for_an_update_today. rewrite Hc. cbn [bind]. rewrite Hs.
    cbn [bind]. destruct (Z.gtb_spec today d); [lia|done]. }
  unfold update_two1_package, bindM, lift, ret. cbn [negb].
  by rewrite Hchecked.
Qed.

(** The runs of [update_two1_package] that return.  Either nothing was done
    (not forced, checked today); or the check was recorded, the index was
    asked once, and then either nothing newer was found for ["latest"] and
    nothing was installed, or the version found was announced and installed,
    [stop_walletd] first.  [update_successful] is [True] in both, and
    [update_available] tells whether the installer ran. *)
Theorem update_two1_package_returns (version : list N) (force_update_check : bool)
    (trace trace' : list event) (r : UpdateResult) :
  update_two1_package version force_update_check trace = (Ok r, trace') →
  (force_update_check = false
   ∧ checked_for_an_update_today = Ok true
   ∧ r = {| update_available := false; update_successful := None |}
   ∧ trace' = trace)
  ∨ (TWO1_VERSION ≠ []
     ∧ ∃ latest newer,
         (lookup_pypi_version version (trace ++ [check_recorded])).1 = Ok latest
         ∧ LooseVersion_gt latest TWO1_VERSION = Ok newer
         ∧ ((newer = false ∧ version = of_string "latest"
             ∧ r = {| update_available := false; update_successful := Some true |}
             ∧ trace' = trace ++ [check_recorded; RequestsGet package_url;
                                  LoggerInfo update_not_needed])
            ∨ ((newer = true ∨ version ≠ of_string "latest")
               ∧ r = {| update_available := true; update_successful := Some true |}
               ∧ ∃ rest,
                   trace' = trace ++ [check_recorded; RequestsGet package_url;
                                      LoggerInfo (update_package latest);
                                      StopWalletd] ++ rest))).
Proof.
  unfold update_two1_package. unfold bindM at 1.
  assert ((force_update_check = false
           ∧ checked_for_an_update_today = Ok true)
          ∨ (if negb force_update_check then lift checked_for_an_update_today
             else ret false) trace = (Ok false, trace)
          ∨ ∃ e, (if negb force_update_check
                  then lift checked_for_an_update_today
                  else ret false) trace = (Raise e, trace))
    as [[-> Hchecked]|[->|[e ->]]].
  { destruct force_update_check; cbn [negb]; unfold lift, ret; [by auto|].
    destruct checked_for_an_update_today as [[|]|e]; eauto. }
  { cbn [negb andb]. unfold lift, ret. rewrite Hchecked.
    intros [= <- <-]. by left. }
  2: done.
  rewrite andb_false_r. unfold bindM at 1, emit. fold check_recorded.
  case_bool_decide as Hinstalled; [done|].
  intros Hrun. right. split; [done|]. revert Hrun.
  unfold bindM at 1, try_except. unfold bindM at 1.
  pose proof (lookup_pypi_version_trace version (trace ++ [check_recorded]))
    as Htrace.
  destruct (lookup_pypi_version version (trace ++ [check_recorded]))
    as [[latest|e] trace1] eqn:Hlookup; simpl in Htrace; subst trace1.
  2: { destruct e; cbv beta iota delta [is_Exception];
         try destruct is_exception; unfold bindM, ret, raise;
         try destruct (_do_update (JStr (of_string "latest")) _)
           as [[[]|?] ?]; done. }
  cbv beta iota delta [ret]. unfold bindM at 1, lift.
  destruct (LooseVersion_gt latest TWO1_VERSION) as [newer|e] eqn:Hgt; [|done].
  intros Hrun. exists latest, newer. split; [done|]. split; [done|].
  revert Hrun. unfold bindM at 1.
  destruct (newer || negb (bool_decide (version = of_string "latest")))
    eqn:Hcond.
  - unfold bindM, emit, ret.
    destruct (_do_update_trace latest
                (((trace ++ [check_recorded]) ++ [RequestsGet package_url])
                 ++ [LoggerInfo (update_package latest)])) as [rest Hrest].
    destruct (_do_update latest _) as [[[]|e] trace2];
      simpl in Hrest; subst trace2; [|done].
    intros [= <- <-]. right. split.
    { destruct newer; [by left|]. right. simpl in Hcond.
      by case_bool_decide. }
    split; [done|]. exists rest. by rewrite <- !app_assoc.
  - unfold bindM, emit, ret. intros [= <- <-]. left.
    apply orb_false_iff in Hcond as [-> Hv].
    apply negb_false_iff in Hv. case_bool_decide; [|done].
    split_and!; try done. by rewrite <- !app_assoc.
Qed.

(** A lookup that fails with an exception other than [Two1Error] makes
    [update_two1_package] install ["latest"] and then fail: the installer
    is run, [stop_walletd] first, and when it returns the function raises
    [UnboundLocalError], since [latest_version] was never bound.  It never
    returns. *)
Theorem update_two1_package_lookup_failure (version : list N)
    (force_update_check : bool) (trace : list event) (e : exn) :
  (force_update_check = true ∨ checked_for_an_update_today = Ok false) →
  TWO1_VERSION ≠ [] →
  (lookup_pypi_version version (trace ++ [check_recorded])).1 = Raise e →
  (∀ msg, e ≠ Two1Error msg) →
  is_Exception e = true →
  let installing := trace ++ [check_recorded; RequestsGet package_url] in
  update_two1_package version force_update_check trace =
    match _do_update (JStr (of_string "latest")) installing with
    | (Ok _, trace') => (Raise UnboundLocalError, trace')
    | (Raise e', trace') => (Raise e', trace')
    end
  ∧ ∃ rest,
      (update_two1_package version force_update_check trace).2
        = installing ++ StopWalletd :: rest.
Proof.
  intros Hforce Hinstalled Hlookup Hnot Hexc installing.
  assert (update_two1_package version force_update_check trace =
            match _do_update (JStr (of_string "latest")) installing with
            | (Ok _, trace') => (Raise UnboundLocalError, trace')
            | (Raise e', trace') => (Raise e', trace')
            end) as Hrun.
  { unfold update_two1_package. unfold bindM at 1.
    assert ((if negb force_update_check then lift checked_for_an_update_today
             else ret false) trace = (Ok false, trace)) as ->.
    { destruct Hforce as [-> | Hc]; [done|].
      destruct force_update_check; [done|]. cbn [negb]. unfold lift.
      by rewrite Hc. }
    rewrite andb_false_r. unfold bindM at 1, emit. fold check_recorded.
    case_bool_decide; [done|].
    unfold bindM at 1, try_except. unfold bindM at 1.
    pose proof (lookup_pypi_version_trace version (trace ++ [check_recorded]))
      as Htrace.
    destruct (lookup_pypi_version version (trace ++ [check_recorded]))
      as [[latest|e0] trace1]; simpl in Htrace, Hlookup; [done|].
    injection Hlookup as ->. subst trace1.
    assert ((trace ++ [check_recorded]) ++ [RequestsGet package_url] = installing)
      as -> by (unfold installing; by rewrite <- app_assoc).
    destruct e; try (by destruct (Hnot msg));
      cbv beta iota delta [is_Exception]; simpl in Hexc; try rewrite Hexc;
      unfold bindM, ret, raise;
      by destruct (_do_update _ installing) as [[[]|e'] trace2]. }
  split; [exact Hrun|]. rewrite Hrun.
  destruct (_do_update_trace (JStr (of_string "latest")) installing)
    as [rest Hrest].
  exists rest.
  by destruct (_do_update _ installing) as [[[]|e'] trace2].
Qed.

(** Whatever happens, [update_two1_package] only adds events, and among them
    no installer command comes before a call of [stop_walletd]. *)
Theorem update_two1_package_stops_walletd_first (version : list N)
    (force_update_check : bool) (trace : list event) :
  ∃ new,
    (update_two1_package version force_update_check trace).2 = trace ++ new
    ∧ guarded new.
Proof.
  unfold update_two1_package. unfold bindM at 1.
  assert (∃ checked,
            (if negb force_update_check then lift checked_for_an_update_today
             else ret false) trace = (checked, trace)) as [checked ->].
  { destruct force_update_check; cbn [negb]; unfold lift, ret; eauto. }
  destruct checked as [checked|e]; [|finish_guarded].
  destruct (negb force_update_check && checked); [finish_guarded|].
  unfold bindM at 1, emit. fold check_recorded.
  case_bool_decide; [finish_guarded|].
  unfold bindM at 1, try_except. unfold bindM at 1.
  pose proof (lookup_pypi_version_trace version (trace ++ [check_recorded]))
    as Htrace.
  destruct (lookup_pypi_version version (trace ++ [check_recorded]))
    as [[latest|e] trace1]; simpl in Htrace; subst trace1.
  - cbv beta iota delta [ret]. unfold bindM at 1, lift.
    destruct (LooseVersion_gt latest TWO1_VERSION) as [newer|e];
      [|finish_guarded].
    unfold bindM at 1.
    destruct (newer || negb (bool_decide (version = of_string "latest"))).
    + unfold bindM, emit, ret.
      destruct (_do_update_trace latest
                  (((trace ++ [check_recorded]) ++ [RequestsGet package_url])
                   ++ [LoggerInfo (update_package latest)])) as [rest Hrest].
      destruct (_do_update latest _) as [[[]|e] trace2];
        simpl in Hrest; subst trace2; finish_guarded.
    + unfold bindM, emit, ret. finish_guarded.
  - destruct (_do_update_trace (JStr (of_string "latest"))
                ((trace ++ [check_recorded]) ++ [RequestsGet package_url]))
      as [rest Hrest].
    destruct e; cbv beta iota delta [is_Exception];
      try destruct is_exception;
      unfold bindM, ret, raise;
      try (destruct (_do_update (JStr (of_string "latest")) _)
             as [[[]|e'] trace2]; simpl in Hrest; subst trace2);
      finish_guarded.
Qed.

(** [_update], the body of the [21 update] command, never consults the
    date of the last check: it announces the check, stores today's date and,
    when an installed version is known, asks the index, whatever the
    configuration holds. *)
Theorem update_always_checks (version : list N) (trace : list event) :
  ∃ rest,
    (_update version trace).2
      = trace ++ [LoggerInfo update_check; check_recorded] ++ rest
    ∧ if bool_decide (TWO1_VERSION = []) then
        rest = []
        ∧ (_update version trace).1
            = Raise (Two1Error Error_version_not_detected)
      else ∃ rest', rest = RequestsGet package_url :: rest'.
Proof.
  unfold _update, update_two1_package. unfold bindM at 1, emit.
  unfold bindM at 1. unfold bindM at 1. cbn [negb andb]. unfold ret at 1.
  unfold bindM at 1, emit. fold check_recorded.
  case_bool_decide as Hinstalled.
  { exists []. unfold raise. cbn [fst snd]. by rewrite <- app_assoc. }
  unfold bindM at 1, try_except. unfold bindM at 1.
  pose proof (lookup_pypi_version_trace version
                ((trace ++ [LoggerInfo update_check]) ++ [check_recorded]))
    as Htrace.
  destruct (lookup_pypi_version version _) as [[latest|e] trace1];
    simpl in Htrace; subst trace1.
  - cbv beta iota delta [ret]. unfold bindM at 1, lift.
    destruct (LooseVersion_gt latest TWO1_VERSION) as [newer|e];
      [|cbn [fst snd]; rewrite <- !app_assoc; eexists; split;
        [reflexivity|by eexists]].
    unfold bindM at 1.
    destruct (newer || negb (bool_decide (version = of_string "latest"))).
    + unfold bindM, emit, ret.
      destruct (_do_update_trace latest
                  ((((trace ++ [LoggerInfo update_check]) ++ [check_recorded])
                    ++ [RequestsGet package_url])
                   ++ [LoggerInfo (update_package latest)])) as [rest Hrest].
      destruct (_do_update latest _) as [[[]|e] trace2];
        simpl in Hrest; subst trace2; cbn [fst snd]; rewrite <- !app_assoc;
        (eexists; split; [reflexivity|by eexists]).
    + unfold bindM, emit, ret. cbn [fst snd]. rewrite <- !app_assoc.
      eexists; split; [reflexivity|by eexists].
  - destruct (_do_update_trace (JStr (of_string "latest"))
                (((trace ++ [LoggerInfo update_check]) ++ [check_recorded])
                 ++ [RequestsGet package_url])) as [rest Hrest].
    destruct e; cbv beta iota delta [is_Exception];
      try destruct is_exception;
      unfold bindM, ret, raise;
      try (destruct (_do_update (JStr (of_string "latest")) _)
             as [[[]|e'] trace2]; simpl in Hrest; subst trace2);
      cbn [fst snd]; rewrite <- !app_assoc;
      (eexists; split; [reflexivity|by eexists]).
Qed.

End FlowFacts.

(** ** The update flow in concrete environments *)

Section AtExamples.

(** From the example index ['latest'] selects 3.9.1, passing over the
    release candidate before it. *)
Lemma select_latest_first_stable_example :
  let E := example_environment (of_string "3.9.0") (Raise AttributeError)
             (Ok example_index) (Ok tt) in
  search stable_version_re (of_string "3.9.1rc1") = false
  ∧ search stable_version_re (of_string "3.9.1") = true
  ∧ select_version example_index (of_string "latest")
      = Ok (JStr (of_string "3.9.1")).
Proof.
  intros E. split; [vm_compute; reflexivity|]. split; [vm_compute; reflexivity|].
  apply (select_latest_first_stable example_index
           [JDict [(of_string "version", JStr (of_string "3.9.1rc1"))]]
           [JDict [(of_string "version", JStr (of_string "3.9.0"))]]
           (JDict [(of_string "version", JStr (of_string "3.9.1"))])
           (of_string "3.9.1")).
  - reflexivity.
  - repeat constructor. exists (of_string "3.9.1rc1").
    split; vm_compute; reflexivity.
  - reflexivity.
  - vm_compute. reflexivity.
Defined.

(** An entry without ["version"] ahead of a stable one hides it. *)
Lemma select_latest_malformed_entry_example :
  let E := example_environment (of_string "3.9.0") (Raise AttributeError)
             (Ok example_index) (Ok tt) in
  select_version
    (JDict [(of_string "packages",
             JList [JDict [(of_string "name", JStr (of_string "two1"))];
                    JDict [(of_string "version", JStr (of_string "3.9.1"))]])])
    (of_string "latest")
  = Raise (Two1Error (Error_version_not_found (of_string "latest"))).
Proof.
  intros E.
  apply (select_latest_malformed_entry _ []
           [JDict [(of_string "version", JStr (of_string "3.9.1"))]]
           (JDict [(of_string "name", JStr (of_string "two1"))])).
  - reflexivity.
  - constructor.
  - intros s Hs. vm_compute in Hs. discriminate Hs.
Defined.

(** Asked for 3.9.1 the example index gives 3.9.1, not the release
    candidate that contains the string and comes first. *)
Lemma select_exact_match_preferred_example :
  let E := example_environment (of_string "3.9.0") (Raise AttributeError)
             (Ok example_index) (Ok tt) in
  of_string "3.9.1" ≠ of_string "latest"
  ∧ select_version example_index (of_string "3.9.1")
      = Ok (JStr (of_string "3.9.1")).
Proof.
  intros E.
  assert (of_string "3.9.1" ≠ of_string "latest") as Hne
    by (vm_compute; discriminate).
  split; [exact Hne|].
  refine (proj1 (select_exact_match_preferred example_index _
                   (of_string "3.9.1") Hne eq_refl _) _).
  - repeat constructor; eexists; reflexivity.
  - exists (JDict [(of_string "version", JStr (of_string "3.9.1"))]).
    split; [|reflexivity]. apply list_elem_of_further, list_elem_of_here.
Defined.

(** A second run on the day of the check does nothing. *)
Lemma update_two1_package_checked_today_example :
  let E := example_environment (of_string "3.9.0")
             (Ok (ConfigStr (of_string "2016-02-01")))
             (Ok example_index) (Ok tt) in
  update_two1_package (of_string "latest") false []
    = (Ok {| update_available := false; update_successful := None |}, []).
Proof.
  intros E.
  apply (update_two1_package_checked_today (of_string "latest") []
           (of_string "2016-02-01") 735995).
  - reflexivity.
  - vm_compute. reflexivity.
  - vm_compute. discriminate.
Defined.

(** A first run of 3.9.0 against the example index installs 3.9.1. *)
Lemma update_two1_package_returns_example :
  let E := example_environment (of_string "3.9.0") (Raise AttributeError)
             (Ok example_index) (Ok tt) in
  ∃ r trace',
    update_two1_package (of_string "latest") false [] = (Ok r, trace')
    ∧ r = {| update_available := true; update_successful := Some true |}
    ∧ ∃ latest rest,
        trace' = [check_recorded; RequestsGet package_url;
                  LoggerInfo (update_package latest); StopWalletd] ++ rest.
Proof.
  intros E.
  destruct (update_two1_package (of_string "latest") false [])
    as [[r|e] trace'] eqn:Hrun; [|vm_compute in Hrun; discriminate Hrun].
  exists r, trace'. split; [reflexivity|].
  destruct (update_two1_package_returns _ _ _ _ _ Hrun)
    as [(_ & Hchecked & _)
       |(_ & latest & newer & Hlatest & Hnewer
         & [(Hn & _)|(_ & Hr & rest & Htrace)])].
  - vm_compute in Hchecked. discriminate Hchecked.
  - vm_compute in Hlatest. injection Hlatest as <-.
    vm_compute in Hnewer. injection Hnewer as <-. discriminate Hn.
  - split; [exact Hr|]. exists latest, rest. exact Htrace.
Defined.

(** When the request to the index fails with another [OSError] (too many
    redirects), ['latest'] is installed and the update then fails with
    [UnboundLocalError]. *)
Lemma update_two1_package_lookup_failure_example :
  let E := example_environment (of_string "3.9.0") (Raise AttributeError)
             (Raise OSError) (Ok tt) in
  (lookup_pypi_version (of_string "latest") [check_recorded]).1 = Raise OSError
  ∧ update_two1_package (of_string "latest") true []
    = (Raise UnboundLocalError,
       [check_recorded; RequestsGet package_url; StopWalletd;
        CheckCall (install_command (JStr (of_string "latest")))]).
Proof.
  intros E.
  assert ((lookup_pypi_version (of_string "latest") ([] ++ [check_recorded])).1
          = Raise OSError) as Hlookup by reflexivity.
  split; [exact Hlookup|].
  destruct (update_two1_package_lookup_failure (of_string "latest") true []
              OSError) as [Hrun _].
  - by left.
  - vm_compute. discriminate.
  - exact Hlookup.
  - discriminate.
  - reflexivity.
  - rewrite Hrun. reflexivity.
Defined.

End AtExamples.

End UpdateFacts.
